(** * HDTV matrix integration: API client, state parser and poller

    A shallow embedding of [api.py] and [coordinator.py] and the statements
    checked against them.

    Conventions of the embedding.
    - Python [int] is [Z]; Python [str] is [string], a character standing for
      the code point of the same number (0..255).
    - A Python [dict] is an association list in insertion order ([dict_get],
      [dict_set]); a JSON value is a [pyval].  The numbers of a [pyval] are
      integers, which is all the device protocol uses; a [float] appears
      only where [int()] is applied to a configuration value ([anyval]).
      [time.time()] is an integer clock reading.
    - An operation that can raise returns a [result]; an exception is its
      class and its message ([str(e)]).
    - Network calls go through a [Device], which answers a GET knowing the
      trace so far; every GET and every run of the change callback is
      appended to the trace.  Logging has no effect on behaviour and is left
      out, except for arguments of log calls that can raise. *)

Set Warnings "-register-all".
From Stdlib Require Import ZArith String Ascii DecimalString DecimalZ DecimalPos.
From Stdlib Require Import List FinFun Lia Bool.
From stdpp Require Import base list strings.
Import ListNotations.
Open Scope Z_scope.
Open Scope string_scope.

(* ===================================================================== *)
(** ** Python values                                                      *)
(* ===================================================================== *)

Module Py.

(** Exception classes that the modelled code raises, catches or lets
    through.  [TimeoutError] is [asyncio.TimeoutError], [ClientError] is
    [aiohttp.ClientError]; [ConnectionError], [InvalidResponseError] and
    [CommandError] are the classes of [api.py]; [UpdateFailed] is the
    host's.  [UnicodeDecodeError] is a subclass of [ValueError]: an
    [except ValueError] catches both. *)
Inductive exn_class : Type :=
| TimeoutError | ClientError
| ConnectionError | InvalidResponseError | CommandError
| ValueError | UnicodeDecodeError | TypeError | AttributeError | IndexError
| OverflowError
| UpdateFailed
| OtherException.

Record exn : Type := Exn { exn_cls : exn_class; exn_msg : string }.

Inductive result (A : Type) : Type :=
| Ok (a : A)
| Raise (e : exn).
Arguments Ok {A} a.
Arguments Raise {A} e.

Definition is_ok {A} (r : result A) : bool :=
  match r with Ok _ => true | Raise _ => false end.

#[global] Instance exn_class_eq_dec : EqDecision exn_class.
Proof. solve_decision. Defined.

(** [str(n)] and [f"{n}"] for an [int]. *)
Definition str_int (z : Z) : string := NilZero.string_of_int (Z.to_int z).

(** [range(a, b)] *)
Definition range (a b : Z) : list Z :=
  map (fun i => a + Z.of_nat i) (seq 0 (Z.to_nat (b - a))).

(** [enumerate(l, start)] *)
Fixpoint enumerate {A} (start : Z) (l : list A) : list (Z * A) :=
  match l with
  | [] => []
  | x :: r => (start, x) :: enumerate (start + 1) r
  end.

(** [sep.join(parts)] *)
Fixpoint join (sep : string) (parts : list string) : string :=
  match parts with
  | [] => ""
  | [p] => p
  | p :: r => p ++ sep ++ join sep r
  end.

Section Dict.
Context {K V : Type} `{EqDecision K}.

(** [d.get(k)] *)
Fixpoint dict_get (k : K) (d : list (K * V)) : option V :=
  match d with
  | [] => None
  | (k', v) :: r => if decide (k = k') then Some v else dict_get k r
  end.

(** [d[k] = v]: an existing key keeps its place, a new one goes last. *)
Fixpoint dict_set (k : K) (v : V) (d : list (K * V)) : list (K * V) :=
  match d with
  | [] => [(k, v)]
  | (k', v') :: r =>
      if decide (k = k') then (k', v) :: r else (k', v') :: dict_set k v r
  end.

Definition dict_keys (d : list (K * V)) : list K := map fst d.
Definition dict_values (d : list (K * V)) : list V := map snd d.
End Dict.

(** A value of type [Any]: what [json] parsing returns and what the
    legacy status dictionary holds. *)
Inductive pyval : Type :=
| PNone
| PBool (b : bool)
| PInt (z : Z)
| PStr (s : string)
| PList (l : list pyval)
| PDict (items : list (string * pyval)).

(** Truth value of an object, as [if x:] and [not x] use it. *)
Definition truthy (v : pyval) : bool :=
  match v with
  | PNone => false
  | PBool b => b
  | PInt z => negb (z =? 0)%Z
  | PStr s => negb (String.eqb s "")
  | PList l => match l with [] => false | _ => true end
  | PDict d => match d with [] => false | _ => true end
  end.

(** [type(x).__name__] *)
Definition type_name (v : pyval) : string :=
  match v with
  | PNone => "NoneType" | PBool _ => "bool" | PInt _ => "int"
  | PStr _ => "str" | PList _ => "list" | PDict _ => "dict"
  end.

(** [x.get(key, default)]: only a [dict] has the method. *)
Definition py_get (x : pyval) (key : string) (default : pyval) : result pyval :=
  match x with
  | PDict d => Ok (match dict_get key d with Some v => v | None => default end)
  | _ => Raise (Exn AttributeError
                  ("'" ++ type_name x ++ "' object has no attribute 'get'"))
  end.

(** The double quote, as a one-character string. *)
Definition dq : string := String (ascii_of_nat 34) EmptyString.

Definition hex_digit (upper : bool) (n : nat) : ascii :=
  if (n <? 10)%nat then ascii_of_nat (48 + n)
  else ascii_of_nat ((if upper then 55 else 87) + n).

(** Two hexadecimal digits of a byte. *)
Definition hex2 (upper : bool) (n : nat) : string :=
  String (hex_digit upper (n / 16)) (String (hex_digit upper (n mod 16)) EmptyString).

(** [json.dumps] of one character with [ensure_ascii=True]: the short
    escapes, then [\u00xx] for everything outside space..tilde. *)
Definition json_escape_char (c : ascii) : string :=
  let n := nat_of_ascii c in
  if (n =? 34)%nat then "\" ++ dq
  else if (n =? 92)%nat then "\\"
  else if (n =? 8)%nat then "\b"
  else if (n =? 12)%nat then "\f"
  else if (n =? 10)%nat then "\n"
  else if (n =? 13)%nat then "\r"
  else if (n =? 9)%nat then "\t"
  else if ((n <? 32) || (126 <? n))%nat then "\u00" ++ hex2 false n
  else String c EmptyString.

Fixpoint json_escape (s : string) : string :=
  match s with
  | EmptyString => ""
  | String c r => json_escape_char c ++ json_escape r
  end.

Definition json_string (s : string) : string := dq ++ json_escape s ++ dq.

(** [json.dumps(v, separators=(item_sep, key_sep))] *)
Fixpoint json_dumps (item_sep key_sep : string) (v : pyval) : string :=
  match v with
  | PNone => "null"
  | PBool true => "true"
  | PBool false => "false"
  | PInt z => str_int z
  | PStr s => json_string s
  | PList l =>
      "[" ++
      (fix elems (l : list pyval) : string :=
         match l with
         | [] => ""
         | x :: r =>
             match r with
             | [] => json_dumps item_sep key_sep x
             | _ :: _ => json_dumps item_sep key_sep x ++ item_sep ++ elems r
             end
         end) l ++ "]"
  | PDict d =>
      "{" ++
      (fix members (d : list (string * pyval)) : string :=
         match d with
         | [] => ""
         | (k, x) :: r =>
             let m := json_string k ++ key_sep ++ json_dumps item_sep key_sep x in
             match r with
             | [] => m
             | _ :: _ => m ++ item_sep ++ members r
             end
         end) d ++ "}"
  end.

(** [json.dumps(v)] with the default separators. *)
Definition json_dumps_default : pyval -> string := json_dumps ", " ": ".

(** [json.dumps(v, separators=(",", ":"))] *)
Definition json_dumps_compact : pyval -> string := json_dumps "," ":".

(** Characters [urllib.parse.quote] never quotes: letters, digits and
    [_.-~]. *)
Definition always_safe (n : nat) : bool :=
  ((65 <=? n) && (n <=? 90) || (97 <=? n) && (n <=? 122) ||
   (48 <=? n) && (n <=? 57) ||
   (n =? 95) || (n =? 46) || (n =? 45) || (n =? 126))%nat.

Definition percent_byte (n : nat) : string :=
  if always_safe n then String (ascii_of_nat n) EmptyString
  else "%" ++ hex2 true n.

(** [quote(s, safe="")]: the string is encoded as UTF-8, then every byte
    outside the always-safe set becomes [%XX]. *)
Fixpoint quote (s : string) : string :=
  match s with
  | EmptyString => ""
  | String c r =>
      let n := nat_of_ascii c in
      (if (n <? 128)%nat then percent_byte n
       else percent_byte (192 + n / 64) ++ percent_byte (128 + n mod 64))
      ++ quote r
  end.

(** Whitespace for [str.split()] and [str.isspace()]. *)
Definition is_space (c : ascii) : bool :=
  let n := nat_of_ascii c in
  ((9 <=? n) && (n <=? 13) || (28 <=? n) && (n <=? 32) ||
   (n =? 133) || (n =? 160))%nat.

(** Whitespace that [int()] accepts around a literal: the separators
    0x1C..0x1F are not among it. *)
Definition is_int_space (c : ascii) : bool :=
  let n := nat_of_ascii c in
  ((9 <=? n) && (n <=? 13) || (n =? 32) || (n =? 133) || (n =? 160))%nat.

Fixpoint lstrip (s : string) : string :=
  match s with
  | String c r => if is_int_space c then lstrip r else s
  | EmptyString => ""
  end.

Fixpoint string_rev (s : string) : string :=
  match s with
  | EmptyString => ""
  | String c r => string_rev r ++ String c EmptyString
  end.

(** The literal between the whitespace that [int()] skips. *)
Definition strip (s : string) : string :=
  string_rev (lstrip (string_rev (lstrip s))).

(** [int(s)] on a string without underscores: surrounding whitespace, an
    optional sign, decimal digits. *)
Definition py_int (s : string) : result Z :=
  let t := strip s in
  let is_sign c := Ascii.eqb c "+" || Ascii.eqb c "-" in
  let parsed :=
    match t with
    | String c r =>
        if Ascii.eqb c "+" then
          match r with
          | String c' _ => if is_sign c' then None else NilZero.int_of_string r
          | EmptyString => None
          end
        else NilZero.int_of_string t
    | EmptyString => None
    end in
  match parsed with
  | Some d => Ok (Z.of_int d)
  | None => Raise (Exn ValueError
                     ("invalid literal for int() with base 10: '" ++ s ++ "'"))
  end.

(** [s.split(sep)] for a one-character separator. *)
Fixpoint split (sep : ascii) (s : string) : list string :=
  match s with
  | EmptyString => [""]
  | String c r =>
      if Ascii.eqb c sep then "" :: split sep r
      else match split sep r with
           | p :: ps => String c p :: ps
           | [] => [String c EmptyString]
           end
  end.

(** [l[i]] for a non-negative index. *)
Definition py_index {A} (l : list A) (i : nat) : result A :=
  match nth_error l i with
  | Some x => Ok x
  | None => Raise (Exn IndexError "list index out of range")
  end.

Fixpoint insert_sorted (x : Z) (l : list Z) : list Z :=
  match l with
  | [] => [x]
  | y :: r => if (x <=? y)%Z then x :: l else y :: insert_sorted x r
  end.

(** [sorted(l)] for a list of [int]. *)
Definition sorted (l : list Z) : list Z := fold_right insert_sorted [] l.

End Py.
Import Py.

(* ===================================================================== *)
(** ** api.py: data model and state parser                                *)
(* ===================================================================== *)

Definition DISCONNECTED_VALUE : Z := 65535.
Definition DEFAULT_TIMEOUT : Z := 10.

Record MatrixOutput : Type := mkMatrixOutput {
  output_number : Z;
  input_number : option Z;   (* None: disconnected *)
  raw_value : Z
}.

Definition is_connected_output (o : MatrixOutput) : bool :=
  match input_number o with Some _ => true | None => false end.

Record MatrixState : Type := mkMatrixState {
  outputs : list (Z * MatrixOutput);
  timestamp : Z
}.

Definition total_outputs (s : MatrixState) : Z := Z.of_nat (length (outputs s)).

Definition get_output (s : MatrixState) (n : Z) : option MatrixOutput :=
  dict_get n (outputs s).

Definition get_connected_outputs (s : MatrixState) : list MatrixOutput :=
  filter (fun o => is_connected_output o = true) (dict_values (outputs s)).

Module StateParser.

(** Body of the loop of [parse_status_array]. *)
Definition parse_entry (outputs : list (Z * MatrixOutput))
    (item : Z * Z) : list (Z * MatrixOutput) :=
  let '(output_idx, raw_value) := item in
  let output_num := output_idx + 1 in
  let input_num :=
    if (raw_value =? DISCONNECTED_VALUE)%Z then None else Some (raw_value + 1) in
  dict_set output_num
    {| output_number := output_num;
       input_number := input_num;
       raw_value := raw_value |} outputs.

(** [now] is the reading of [time.time()]. *)
Definition parse_status_array (status_array : list Z) (now : Z) : MatrixState :=
  {| outputs := foldl parse_entry [] (enumerate 0 status_array);
     timestamp := now |}.

End StateParser.

(** [MatrixState.to_dict]: the legacy dictionary form of a state. *)
Definition opt_int (o : option Z) : pyval :=
  match o with Some z => PInt z | None => PNone end.

Definition to_dict_entry (matrix_dict : list (string * pyval))
    (item : Z * MatrixOutput) : list (string * pyval) :=
  let '(num, output) := item in
  dict_set ("output_" ++ str_int num)
    (PDict [("input", opt_int (input_number output));
            ("raw_value", PInt (raw_value output))]) matrix_dict.

Definition to_dict (s : MatrixState) : pyval :=
  let matrix_dict := foldl to_dict_entry [] (outputs s) in
  PDict [("matrix", PDict matrix_dict);
         ("total_outputs", PInt (total_outputs s));
         ("timestamp", PInt (timestamp s))].

(* ===================================================================== *)
(** ** api.py: splice payload builder                                     *)
(* ===================================================================== *)

Module SplicePayloadBuilder.

(** [build_payload(num_inputs, num_outputs, data)]; [data = None] is the
    default argument. *)
Definition build_payload (num_inputs num_outputs : Z)
    (data : option (list string)) : result string :=
  let checked :=
    match data with
    | None => Ok (repeat "-1" (Z.to_nat (num_inputs * num_outputs)))
    | Some d =>
        if negb (Z.of_nat (length d) =? num_inputs * num_outputs)%Z
        then Raise (Exn ValueError
               ("Data length must be " ++ str_int (num_inputs * num_outputs)
                ++ " (num_inputs * num_outputs), got "
                ++ str_int (Z.of_nat (length d))))
        else Ok d
    end in
  match checked with
  | Raise e => Raise e
  | Ok d =>
      let payload :=
        PList [PDict [("x", PInt 2); ("y", PInt 2);
                      ("data", PList (map PStr d))]] in
      let json_str := json_dumps_compact payload in
      Ok (quote json_str)
  end.

End SplicePayloadBuilder.

(* ===================================================================== *)
(** ** The device and the effects of the client                           *)
(* ===================================================================== *)

(** What [session.get] is called with. *)
Record request : Type := mkRequest {
  req_url : string;
  req_params : option (list (string * string));
  req_headers : list (string * string);
  req_timeout : option Z
}.

(** What comes back: the status line, what [resp.text()] makes of the body
    (it raises [UnicodeDecodeError] on bytes that are not text in the
    charset of the response) and what [resp.json(content_type=None)] makes
    of it. *)
Record response : Type := mkResponse {
  resp_status : Z;
  resp_text : result string;
  resp_json : result pyval
}.

Inductive outcome : Type :=
| Responds (r : response)
| Fails (e : exn).      (* [session.get] raises *)

Inductive event : Type :=
| Get (r : request)
| Callback (cb : nat).  (* the registered change callback ran *)

(** The device answers a GET knowing everything that happened before, and
    supplies the clock. *)
Record Device : Type := mkDevice {
  respond : list event -> request -> outcome;
  clock : list event -> Z
}.

(** Computations over a state [S] that may raise. *)
Definition M (S A : Type) : Type := S -> result A * S.

Definition ret {S A} (a : A) : M S A := fun s => (Ok a, s).

Definition raise {S A} (e : exn) : M S A := fun s => (Raise e, s).

Definition bind {S A B} (m : M S A) (f : A -> M S B) : M S B :=
  fun s => match m s with
           | (Ok a, s') => f a s'
           | (Raise e, s') => (Raise e, s')
           end.

(** [try: m  except ...: handler e]; a handler re-raises what its
    [except] clauses do not match. *)
Definition try_except {S A} (m : M S A) (handler : exn -> M S A) : M S A :=
  fun s => match m s with
           | (Ok a, s') => (Ok a, s')
           | (Raise e, s') => handler e s'
           end.

Definition lift_result {S A} (r : result A) : M S A := fun s => (r, s).

Declare Scope io_scope.
Delimit Scope io_scope with io.
Notation "x <- m ;; k" := (bind m (fun x => k))
  (at level 100, m at next level, right associativity) : io_scope.
Notation "m ;;; k" := (bind m (fun _ => k))
  (at level 100, right associativity) : io_scope.
Open Scope io_scope.

(** [for x in l: body x], left as soon as a body raises. *)
Fixpoint for_each {S A} (body : A -> M S unit) (l : list A) : M S unit :=
  match l with
  | [] => ret tt
  | x :: r => body x ;;; for_each body r
  end.

(** The client's world is the trace of what it has done so far. *)
Definition IO (A : Type) : Type := M (list event) A.

Definition session_get (dev : Device) (req : request) : IO response :=
  fun tr =>
    (match respond dev tr req with
     | Responds r => Ok r
     | Fails e => Raise e
     end, (tr ++ [Get req])%list).

Definition time_time (dev : Device) : IO Z := fun tr => (Ok (clock dev tr), tr).

Definition run {A} (m : IO A) : result A * list event := m [].

(* ===================================================================== *)
(** ** api.py: the client                                                 *)
(* ===================================================================== *)

Inductive APIEndpoint : Type := STATUS | COMMAND | SPLICE.

Definition endpoint_value (e : APIEndpoint) : string :=
  match e with
  | STATUS => "get_json_scene.php"
  | COMMAND => "get_json_cmd.php"
  | SPLICE => "get_json_splice.php"
  end.

Definition OUTPUT_TO_OUTPUT : string := "o2ox".

Inductive HTTPMethod : Type := GET | POST.

Record HTTPRequest : Type := mkHTTPRequest {
  url : string;
  method : HTTPMethod;
  params : option (list (string * string));
  headers : option (list (string * string))
}.

Record HTTPResponse : Type := mkHTTPResponse {
  request_of : HTTPRequest;
  status_code : Z;
  data : pyval;
  success : bool;
  error_message : option string
}.

(** The client object: the normalised base URL, the timeout in seconds and
    the change callback, if one is registered. *)
Record HDTVMatrixApi : Type := mkApi {
  base_url : string;
  timeout : Z;
  change_callback : option nat
}.

(** [s.rstrip("/")] *)
Fixpoint rstrip_slash (s : string) : string :=
  match s with
  | EmptyString => ""
  | String c r =>
      match rstrip_slash r with
      | EmptyString => if Ascii.eqb c "/" then "" else String c EmptyString
      | r' => String c r'
      end
  end.

(** [HDTVMatrixApi.__init__] *)
Definition new_api (base : string) (timeout : Z) : HDTVMatrixApi :=
  {| base_url := rstrip_slash base ++ "/";
     timeout := timeout;
     change_callback := None |}.

Definition set_change_callback (api : HDTVMatrixApi) (cb : option nat)
    : HDTVMatrixApi :=
  {| base_url := base_url api; timeout := timeout api; change_callback := cb |}.

Section Client.
Variable dev : Device.
Variable api : HDTVMatrixApi.

(** [notify_change]: runs the callback if there is one; whatever the
    callback raises is caught and logged. *)
Definition notify_change : IO unit :=
  fun tr =>
    match change_callback api with
    | Some cb => (Ok tt, (tr ++ [Callback cb])%list)
    | None => (Ok tt, tr)
    end.

Definition build_headers : list (string * string) :=
  [("Content-Type", "application/json")].

(** [_execute_request(endpoint, params, operation)]; the operation label
    only reaches the log. *)
Definition execute_request (endpoint : APIEndpoint)
    (params : option (list (string * string))) : IO HTTPResponse :=
  let url := base_url api ++ endpoint_value endpoint in
  let headers := build_headers in
  let request :=
    {| url := url; method := GET; params := params; headers := Some headers |} in
  try_except
    (resp <- session_get dev
               {| req_url := url; req_params := params;
                  req_headers := headers; req_timeout := Some (timeout api) |} ;;
     parsed <-
       match resp_json resp with
       | Ok data =>
           let success := (resp_status resp =? 200)%Z in
           ret (data, success,
                if success then None
                else Some ("HTTP " ++ str_int (resp_status resp)))
       | Raise json_error =>
           text <- lift_result (resp_text resp) ;;
           ret (PStr text, false,
                Some ("JSON parse error: " ++ exn_msg json_error))
       end ;;
     let '(data, success, error_msg) := parsed in
     let response :=
       {| request_of := request; status_code := resp_status resp;
          data := data; success := success; error_message := error_msg |} in
     let shown := match error_msg with Some m => m | None => "None" end in
     if negb success then
       if (resp_status resp >=? 500)%Z then
         raise (Exn ConnectionError ("Server error: " ++ shown))
       else if (resp_status resp >=? 400)%Z then
         raise (Exn InvalidResponseError ("Client error: " ++ shown))
       else ret response
     else ret response)
    (fun e =>
       match exn_cls e with
       | TimeoutError =>
           raise (Exn ConnectionError
                    ("Request timeout after " ++ str_int (timeout api) ++ "s"))
       | ClientError =>
           raise (Exn ConnectionError ("Connection error: " ++ exn_msg e))
       | _ => raise e
       end).

(** The status array as [parse_status_array] reads it.  [raw_value + 1]
    is the first thing that depends on the type of an element: a [bool] is
    an [int] ([True == 1]) and is kept as that integer, anything else
    raises [TypeError] there. *)
Definition plus_one_error (v : pyval) : exn :=
  Exn TypeError
    (match v with
     | PStr _ => "can only concatenate str (not " ++ dq ++ "int" ++ dq ++ ") to str"
     | PList _ => "can only concatenate list (not " ++ dq ++ "int" ++ dq ++ ") to list"
     | _ => "unsupported operand type(s) for +: '" ++ type_name v ++ "' and 'int'"
     end).

Fixpoint status_ints (l : list pyval) : result (list Z) :=
  match l with
  | [] => Ok []
  | v :: r =>
      match v with
      | PInt z =>
          match status_ints r with Ok zs => Ok (z :: zs) | Raise e => Raise e end
      | PBool b =>
          match status_ints r with
          | Ok zs => Ok ((if b then 1 else 0) :: zs)
          | Raise e => Raise e
          end
      | _ => Raise (plus_one_error v)
      end
  end.

(** [get_status] *)
Definition get_status : IO pyval :=
  response <- execute_request STATUS (Some [("id", "0")]) ;;
  match data response with
  | PList l =>
      status_array <- lift_result (status_ints l) ;;
      now <- time_time dev ;;
      ret (to_dict (StateParser.parse_status_array status_array now))
  | other => ret other
  end.

(** [get_status_typed] *)
Definition get_status_typed : IO MatrixState :=
  response <- execute_request STATUS (Some [("id", "0")]) ;;
  match data response with
  | PList l =>
      status_array <- lift_result (status_ints l) ;;
      now <- time_time dev ;;
      ret (StateParser.parse_status_array status_array now)
  | other =>
      raise (Exn InvalidResponseError
               ("Expected array response, got <class '" ++ type_name other ++ "'>"))
  end.

(** [set_route(input_port, output_port)] *)
Definition set_route (input_port output_port : Z) : IO pyval :=
  let input_idx := input_port - 1 in
  let output_idx := output_port - 1 in
  let params :=
    [("cmd", OUTPUT_TO_OUTPUT);
     ("prm", str_int input_idx ++ "," ++ str_int output_idx)] in
  try_except
    (response <- execute_request COMMAND (Some params) ;;
     notify_change ;;;
     ret (data response))
    (fun e =>
       match exn_cls e with
       | ConnectionError | InvalidResponseError =>
           raise (Exn CommandError ("Failed to set route: " ++ exn_msg e))
       | _ => raise e
       end).

End Client.

(** One row of the table of predefined splice cases. *)
Record splice_case : Type := mkCase {
  case_prm : string;
  case_splice : list string
}.

Definition cases : list splice_case :=
  [ {| case_prm := "1,1,1,2,2,1,"; case_splice := ["1"; "-1"; "-1"; "-1"] |};
    {| case_prm := "2,1,2,2,2,1,"; case_splice := ["1"; "2"; "-1"; "-1"] |};
    {| case_prm := "3,1,3,2,2,1,"; case_splice := ["1"; "2"; "3"; "-1"] |};
    {| case_prm := "4,1,4,2,2,1,"; case_splice := ["1"; "2"; "3"; "4"] |} ].

Section Videowall.
Variable dev : Device.
Variable api : HDTVMatrixApi.

Definition cmd_url : string := base_url api ++ "/get_json_cmd.php".
Definition splice_url : string := base_url api ++ "get_json_splice.php".

(** The GET of step 1 of a case: the query is part of the URL. *)
Definition splice_cmd_request (case : splice_case) : request :=
  {| req_url := cmd_url ++ "?cmd=splice&prm=" ++ case_prm case;
     req_params := None;
     req_headers := build_headers;
     req_timeout := Some (timeout api) |}.

(** The payload of step 2 of a case, before [json.dumps]. *)
Definition splice_payload (case : splice_case) : pyval :=
  PList [PDict [("x", PStr "2"); ("y", PStr "2");
                ("data", PList (map PStr (case_splice case)))]].

Definition splice_data_request (case : splice_case) : request :=
  {| req_url := splice_url;
     req_params := Some [("splice", json_dumps_default (splice_payload case))];
     req_headers := build_headers;
     req_timeout := Some (timeout api) |}.

(** Step 1 of the loop body: [cmd=splice].  The body is read before the
    status is looked at. *)
Definition splice_cmd_step (idx : Z) (case : splice_case) : IO unit :=
  try_except
    (resp <- session_get dev (splice_cmd_request case) ;;
     text <- lift_result (resp_text resp) ;;
     let success := (resp_status resp =? 200)%Z in
     let error_msg := "HTTP " ++ str_int (resp_status resp) in
     if negb success then
       raise (Exn CommandError
                ("Splice CMD failed (case " ++ str_int idx ++ "): " ++ error_msg))
     else ret tt)
    (fun e =>
       match exn_cls e with
       | TimeoutError =>
           raise (Exn ConnectionError
                    ("Splice CMD timeout after " ++ str_int (timeout api) ++ "s"))
       | ClientError =>
           raise (Exn ConnectionError
                    ("Splice CMD connection error: " ++ exn_msg e))
       | _ => raise e
       end).

(** Step 2 of the loop body: [get_json_splice.php]. *)
Definition splice_data_step (idx : Z) (case : splice_case) : IO unit :=
  try_except
    (resp <- session_get dev (splice_data_request case) ;;
     if negb (resp_status resp =? 200)%Z then
       text <- lift_result (resp_text resp) ;;
       raise (Exn CommandError
                ("Videowall splice DATA failed (case " ++ str_int idx ++ "): "
                 ++ "HTTP " ++ str_int (resp_status resp) ++ " - "
                 ++ text))
     else ret tt)
    (fun e =>
       raise (Exn CommandError
                ("Error configurando videowall DATA (case " ++ str_int idx
                 ++ "): " ++ exn_msg e))).

Definition splice_case_body (item : Z * splice_case) : IO unit :=
  let '(idx, case) := item in
  splice_cmd_step idx case ;;;
  splice_data_step idx case.

(** [set_splice_and_video] *)
Definition set_splice_and_video : IO unit :=
  for_each splice_case_body (enumerate 1 cases) ;;;
  notify_change api.

(** [clear_videowall_mode]: no timeout is passed here. *)
Definition clear_videowall_mode : IO unit :=
  try_except
    (resp <- session_get dev
               {| req_url := base_url api ++ "get_json_splice.php";
                  req_params := Some [("splice", "[]")];
                  req_headers := build_headers;
                  req_timeout := None |} ;;
     if negb (resp_status resp =? 200)%Z then
       text <- lift_result (resp_text resp) ;;
       raise (Exn CommandError
                ("Error limpiando : HTTP " ++ str_int (resp_status resp)
                 ++ " - " ++ text))
     else ret tt)
    (fun e => raise (Exn CommandError ("Error limpiando : " ++ exn_msg e))).

(** The loop of [set_all_to_input]: every output is tried, a failure is
    noted in [errors] and the loop goes on. *)
Fixpoint set_all_loop (input_port : Z) (outs : list Z) (errors : list string)
    : IO (list string) :=
  match outs with
  | [] => ret errors
  | num_outputs_num :: rest =>
      errors' <-
        try_except
          (set_route dev api input_port num_outputs_num ;;; ret errors)
          (fun e =>
             ret (app errors ["num_outputs " ++ str_int num_outputs_num
                              ++ ": " ++ exn_msg e])) ;;
      set_all_loop input_port rest errors'
  end.

(** [set_all_to_input(input_port, num_outputs)] *)
Definition set_all_to_input (input_port num_outputs : Z) : IO unit :=
  errors <- set_all_loop input_port (range 1 (num_outputs + 1)) [] ;;
  match errors with
  | [] => ret tt
  | _ :: _ =>
      let error_msg := join "; " errors in
      raise (Exn CommandError ("Failed to set all num_outputs: " ++ error_msg))
  end.

(** [test_connection] *)
Definition test_connection : IO bool :=
  try_except
    (get_status dev api ;;; ret true)
    (fun _ => ret false).

End Videowall.

(* ===================================================================== *)
(** ** coordinator.py: the poller                                         *)
(* ===================================================================== *)

Module Coordinator.

(** The coordinator object.  [data] and [last_update_success] are the
    attributes of the host's base class; the counters are its own. *)
Record HDTVCoordinator : Type := mkCoordinator {
  data : option pyval;
  last_update_success : bool;
  consecutive_failures : Z;
  max_failures_before_warning : Z
}.

(** [HDTVCoordinator.__init__] *)
Definition new_coordinator : HDTVCoordinator :=
  {| data := None; last_update_success := true;
     consecutive_failures := 0; max_failures_before_warning := 3 |}.

Definition set_failures (n : Z) (c : HDTVCoordinator) : HDTVCoordinator :=
  {| data := data c; last_update_success := last_update_success c;
     consecutive_failures := n;
     max_failures_before_warning := max_failures_before_warning c |}.

(** The poller works on its own attributes and on the client's trace. *)
Definition Poll (A : Type) : Type := M (HDTVCoordinator * list event) A.

Definition lift_io {A} (m : IO A) : Poll A :=
  fun s => let '(c, tr) := s in
           let '(r, tr') := m tr in (r, (c, tr')).

Definition get_self : Poll HDTVCoordinator := fun s => (Ok (fst s), s).

Definition modify_self (f : HDTVCoordinator -> HDTVCoordinator) : Poll unit :=
  fun s => (Ok tt, (f (fst s), snd s)).

Section Poller.
Variable dev : Device.
Variable api : HDTVMatrixApi.

(** [_async_update_data].  The argument of the debug message,
    [data.get("total_outputs", 0)], is evaluated whatever the log level,
    after the counter has been reset. *)
Definition async_update_data : Poll pyval :=
  try_except
    (data <- lift_io (get_status dev api) ;;
     self <- get_self ;;
     (if (consecutive_failures self >? 0)%Z
      then modify_self (set_failures 0) else ret tt) ;;;
     _ <- lift_result (py_get data "total_outputs" (PInt 0)) ;;
     ret data)
    (fun err =>
       modify_self (fun c => set_failures (consecutive_failures c + 1) c) ;;;
       match exn_cls err with
       | ConnectionError =>
           raise (Exn UpdateFailed ("Connection error: " ++ exn_msg err))
       | InvalidResponseError =>
           raise (Exn UpdateFailed ("Invalid response: " ++ exn_msg err))
       | _ =>
           raise (Exn UpdateFailed ("Unexpected error: " ++ exn_msg err))
       end).

(** Modelled from the spec: the refresh step of the host's coordinator
    base class, which is not part of the repository.  It calls
    [_async_update_data]; on success the result becomes the snapshot and
    the refresh counts as succeeded, on failure the snapshot is kept and the
    refresh counts as failed. *)
Definition async_refresh (s : HDTVCoordinator * list event)
    : HDTVCoordinator * list event :=
  match async_update_data s with
  | (Ok d, (c, tr)) =>
      ({| data := Some d; last_update_success := true;
          consecutive_failures := consecutive_failures c;
          max_failures_before_warning := max_failures_before_warning c |}, tr)
  | (Raise _, (c, tr)) =>
      ({| data := data c; last_update_success := false;
          consecutive_failures := consecutive_failures c;
          max_failures_before_warning := max_failures_before_warning c |}, tr)
  end.

(** Whether a refresh from this state succeeds. *)
Definition refresh_succeeds (s : HDTVCoordinator * list event) : bool :=
  is_ok (fst (async_update_data s)).

(** [n] refreshes in a row. *)
Fixpoint refreshes (n : nat) (s : HDTVCoordinator * list event)
    : HDTVCoordinator * list event :=
  match n with
  | O => s
  | S n' => refreshes n' (async_refresh s)
  end.

End Poller.

(** [not self.data] *)
Definition no_data (c : HDTVCoordinator) : bool :=
  match data c with
  | None => true
  | Some d => negb (truthy d)
  end.

Definition the_data (c : HDTVCoordinator) : pyval :=
  match data c with Some d => d | None => PNone end.

(** [is_connected] *)
Definition is_connected (c : HDTVCoordinator) : bool :=
  last_update_success c && match data c with Some _ => true | None => false end.

(** [get_output_state(output_number)] *)
Definition get_output_state (c : HDTVCoordinator) (output_number : Z)
    : result pyval :=
  if no_data c then Ok (PDict [])
  else
    match py_get (the_data c) "matrix" (PDict []) with
    | Raise e => Raise e
    | Ok matrix_data =>
        let output_key := "output_" ++ str_int output_number in
        py_get matrix_data output_key (PDict [])
    end.

(** [get_all_outputs] *)
Definition get_all_outputs (c : HDTVCoordinator) : result pyval :=
  if no_data c then Ok (PDict [])
  else py_get (the_data c) "matrix" (PDict []).

(** [x.items()] *)
Definition py_items (x : pyval) : result (list (string * pyval)) :=
  match x with
  | PDict d => Ok d
  | _ => Raise (Exn AttributeError
                  ("'" ++ type_name x ++ "' object has no attribute 'items'"))
  end.

(** The loop of [get_connected_outputs]. *)
Fixpoint connected_loop (items : list (string * pyval)) (connected : list Z)
    : result (list Z) :=
  match items with
  | [] => Ok connected
  | (output_key, output_data) :: rest =>
      match py_get output_data "input" PNone with
      | Raise e => Raise e
      | Ok PNone => connected_loop rest connected
      | Ok _ =>
          match py_index (split "_" output_key) 1 with
          | Raise e => Raise e
          | Ok part =>
              match py_int part with
              | Raise e => Raise e
              | Ok output_num =>
                  connected_loop rest (app connected [output_num])
              end
          end
      end
  end.

(** [get_connected_outputs] *)
Definition get_connected_outputs (c : HDTVCoordinator) : result (list Z) :=
  if no_data c then Ok []
  else
    match py_get (the_data c) "matrix" (PDict []) with
    | Raise e => Raise e
    | Ok matrix_data =>
        match py_items matrix_data with
        | Raise e => Raise e
        | Ok items =>
            match connected_loop items [] with
            | Raise e => Raise e
            | Ok connected => Ok (sorted connected)
            end
        end
    end.

End Coordinator.

(* ===================================================================== *)
(** ** Observations used in the statements                                *)
(* ===================================================================== *)

(** The entry that [parse_status_array] makes for one array element. *)
Definition parsed_item (item : Z * Z) : Z * MatrixOutput :=
  (fst item + 1,
   {| output_number := fst item + 1;
      input_number :=
        if (snd item =? DISCONNECTED_VALUE)%Z then None else Some (snd item + 1);
      raw_value := snd item |}).

(** The GET requests of a trace, in order. *)
Definition gets (tr : list event) : list request :=
  flat_map (fun ev => match ev with Get r => [r] | Callback _ => [] end) tr.

(** How often the change callback ran in a trace. *)
Definition callbacks (tr : list event) : nat :=
  length (flat_map (fun ev => match ev with Get _ => [] | Callback cb => [cb] end) tr).

(** What [notify_change] adds to the trace. *)
Definition notified (api : HDTVMatrixApi) : list event :=
  match change_callback api with Some cb => [Callback cb] | None => [] end.

(** The GET that [_execute_request] issues. *)
Definition api_request (api : HDTVMatrixApi) (endpoint : APIEndpoint)
    (params : option (list (string * string))) : request :=
  {| req_url := base_url api ++ endpoint_value endpoint;
     req_params := params;
     req_headers := build_headers;
     req_timeout := Some (timeout api) |}.

(** The parameters that [set_route] sends. *)
Definition route_params (input_port output_port : Z) : list (string * string) :=
  [("cmd", "o2ox");
   ("prm", str_int (input_port - 1) ++ "," ++ str_int (output_port - 1))].

(** [set_route(input_port, o)] called for each [o] of [outs] in turn,
    whatever the earlier calls did: each output with the result of its
    call, and the trace after the last call. *)
Fixpoint route_results (dev : Device) (api : HDTVMatrixApi) (input_port : Z)
    (outs : list Z) (tr : list event) : list (Z * result pyval) :=
  match outs with
  | [] => []
  | o :: rest =>
      let '(res, tr') := set_route dev api input_port o tr in
      (o, res) :: route_results dev api input_port rest tr'
  end.

Fixpoint trace_after_routes (dev : Device) (api : HDTVMatrixApi)
    (input_port : Z) (outs : list Z) (tr : list event) : list event :=
  match outs with
  | [] => tr
  | o :: rest =>
      trace_after_routes dev api input_port rest
        (snd (set_route dev api input_port o tr))
  end.

(** The note that [set_all_to_input] keeps of a failed output. *)
Definition failure_note (o : Z) (e : exn) : string :=
  "num_outputs " ++ str_int o ++ ": " ++ exn_msg e.

Definition failure_notes (rs : list (Z * result pyval)) : list string :=
  flat_map (fun item =>
              match snd item with
              | Ok _ => []
              | Raise e => [failure_note (fst item) e]
              end) rs.

(** The two GETs of a splice case as [set_splice_and_video] issues them:
    the command with its query in the URL, and the splice data whose
    payload is [[{"x": x, "y": y, "data": data}]]. *)
Definition preset_cmd_request (api : HDTVMatrixApi) (prm : string) : request :=
  {| req_url := (base_url api ++ "/get_json_cmd.php") ++ "?cmd=splice&prm=" ++ prm;
     req_params := None;
     req_headers := [("Content-Type", "application/json")];
     req_timeout := Some (timeout api) |}.

Definition preset_data_request (api : HDTVMatrixApi) (x y : pyval)
    (data : list string) : request :=
  {| req_url := base_url api ++ "get_json_splice.php";
     req_params :=
       Some [("splice",
              json_dumps_default
                (PList [PDict [("x", x); ("y", y);
                               ("data", PList (map PStr data))]]))];
     req_headers := [("Content-Type", "application/json")];
     req_timeout := Some (timeout api) |}.

(** The requests of the whole table of cases. *)
Definition case_requests (api : HDTVMatrixApi) (l : list splice_case)
    : list request :=
  flat_map (fun c => [splice_cmd_request api c; splice_data_request api c]) l.

(** Sample devices and a sample client. *)
Definition ok_response : response :=
  {| resp_status := 200;
     resp_text := Ok "[0, 65535, 2]";
     resp_json := Ok (PList [PInt 0; PInt 65535; PInt 2]) |}.

Definition steady_device : Device :=
  {| respond := fun _ _ => Responds ok_response; clock := fun _ => 0 |}.

(** Answers the GET number [n] (from 0) with [o] and all others with
    [ok_response]. *)
Definition device_with (n : nat) (o : outcome) : Device :=
  {| respond := fun tr _ =>
       if Nat.eqb (length (gets tr)) n then o else Responds ok_response;
     clock := fun _ => 0 |}.

Definition sample_api : HDTVMatrixApi :=
  set_change_callback (new_api "http://192.168.1.100/" DEFAULT_TIMEOUT) (Some 0%nat).

Definition error_response (status : Z) : response :=
  {| resp_status := status;
     resp_text := Ok "<html>error</html>";
     resp_json := Raise (Exn ValueError "Expecting value: line 1 column 1 (char 0)") |}.

(** Answers the GETs of a run with the outcomes of [script], in order, and
    any further GET with [ok_response]. *)
Definition scripted_device (script : list outcome) : Device :=
  {| respond := fun tr _ => nth (length (gets tr)) script (Responds ok_response);
     clock := fun _ => 0 |}.

(** The payload that the specification gives for
    [setSplice(numInputs, numOutputs, data)], compact and URL-encoded. *)
Definition spec_splice_payload (num_inputs num_outputs : Z) (data : list string)
    : string :=
  quote (json_dumps_compact
           (PList [PDict [("x", PInt num_inputs); ("y", PInt num_outputs);
                          ("data", PList (map PStr data))]])).

(** Every character of [s] passes the test [P]. *)
Fixpoint string_forall (P : ascii -> bool) (s : string) : bool :=
  match s with
  | EmptyString => true
  | String c r => P c && string_forall P r
  end.

Definition is_digit_or_minus (c : ascii) : bool :=
  let n := nat_of_ascii c in
  ((48 <=? n) && (n <=? 57) || (n =? 45))%nat.

(** The item that [to_dict] makes for one output. *)
Definition dict_item (item : Z * MatrixOutput) : string * pyval :=
  ("output_" ++ str_int (fst item),
   PDict [("input", opt_int (input_number (snd item)));
          ("raw_value", PInt (raw_value (snd item)))]).

(** A 200 whose body is the JSON text of [v]. *)
Definition json_response (v : pyval) : response :=
  {| resp_status := 200; resp_text := Ok (json_dumps_default v); resp_json := Ok v |}.

(* ===================================================================== *)
(** ** More of Python, for the entities and the services                  *)
(* ===================================================================== *)

Definition is_digit (c : ascii) : bool :=
  let n := nat_of_ascii c in ((48 <=? n) && (n <=? 57))%nat.

(** In an [int()] literal an underscore stands between two digits. *)
Fixpoint underscores_ok (after_digit : bool) (s : string) : bool :=
  match s with
  | EmptyString => true
  | String c r =>
      if Ascii.eqb c "_" then
        after_digit
        && match r with String c' _ => is_digit c' | EmptyString => false end
        && underscores_ok false r
      else underscores_ok (is_digit c) r
  end.

Fixpoint remove_underscores (s : string) : string :=
  match s with
  | EmptyString => ""
  | String c r =>
      if Ascii.eqb c "_" then remove_underscores r
      else String c (remove_underscores r)
  end.

(** [s.split()]: the words between runs of whitespace. *)
Fixpoint split_words (cur : string) (s : string) : list string :=
  match s with
  | EmptyString => match cur with EmptyString => [] | _ => [cur] end
  | String c r =>
      if is_space c then
        match cur with
        | EmptyString => split_words "" r
        | _ => cur :: split_words "" r
        end
      else split_words (cur ++ String c EmptyString) r
  end.

Definition split_whitespace (s : string) : list string := split_words "" s.

Fixpoint string_exists (P : ascii -> bool) (s : string) : bool :=
  match s with
  | EmptyString => false
  | String c r => P c || string_exists P r
  end.

(** [repr(s)] for a string: single quotes unless only those occur in it;
    backslash, the quote and the unprintable characters are escaped. *)
Definition repr_char (quote : ascii) (c : ascii) : string :=
  let n := nat_of_ascii c in
  if Ascii.eqb c quote || Ascii.eqb c "\" then String "\" (String c EmptyString)
  else if (n =? 9)%nat then "\t"
  else if (n =? 10)%nat then "\n"
  else if (n =? 13)%nat then "\r"
  else if ((n <? 32) || (126 <? n) && (n <? 161) || (n =? 173))%nat
       then "\x" ++ hex2 false n
  else String c EmptyString.

Fixpoint repr_chars (quote : ascii) (s : string) : string :=
  match s with
  | EmptyString => ""
  | String c r => repr_char quote c ++ repr_chars quote r
  end.

Definition repr_str (s : string) : string :=
  let has c := string_exists (fun x => Ascii.eqb x c) s in
  let quote := if has "'"%char && negb (has (ascii_of_nat 34))
               then ascii_of_nat 34 else "'"%char in
  String quote (repr_chars quote s ++ String quote EmptyString).

(** [int(s)] for any string [s]. *)
Definition py_int_str (s : string) : result Z :=
  let t := strip s in
  let invalid :=
    Raise (Exn ValueError
             ("invalid literal for int() with base 10: " ++ repr_str s)) in
  if underscores_ok false t then
    match py_int (remove_underscores t) with
    | Ok z => Ok z
    | Raise _ => invalid
    end
  else invalid.

(** A [float]: a finite one is [mantissa * 2 ^ exponent]. *)
Inductive pyfloat : Type :=
| Finite (mantissa exponent : Z)
| Infinity (negative : bool)
| NaN.

(** [int(f)] for a float: the integral part of a finite one. *)
Definition float_int (f : pyfloat) : result Z :=
  match f with
  | Finite m e =>
      Ok (if (0 <=? e)%Z then m * 2 ^ e else Z.quot m (2 ^ (- e)))
  | Infinity _ =>
      Raise (Exn OverflowError "cannot convert float infinity to integer")
  | NaN => Raise (Exn ValueError "cannot convert float NaN to integer")
  end.

(** A value of type [Any] as a configuration entry can hold it: a
    [pyval] or a float. *)
Inductive anyval : Type :=
| Val (v : pyval)
| Float (f : pyfloat).

(** [int(x)] for a value of any type. *)
Definition py_int_of (x : anyval) : result Z :=
  match x with
  | Float f => float_int f
  | Val (PInt z) => Ok z
  | Val (PBool b) => Ok (if b then 1 else 0)
  | Val (PStr s) => py_int_str s
  | Val v => Raise (Exn TypeError
                      ("int() argument must be a string, a bytes-like object "
                       ++ "or a real number, not '" ++ type_name v ++ "'"))
  end.

(** [repr(x)] *)
Fixpoint py_repr (v : pyval) : string :=
  match v with
  | PNone => "None"
  | PBool true => "True"
  | PBool false => "False"
  | PInt z => str_int z
  | PStr s => repr_str s
  | PList l =>
      "[" ++
      (fix elems (l : list pyval) : string :=
         match l with
         | [] => ""
         | x :: r =>
             match r with
             | [] => py_repr x
             | _ :: _ => py_repr x ++ ", " ++ elems r
             end
         end) l ++ "]"
  | PDict d =>
      "{" ++
      (fix members (d : list (string * pyval)) : string :=
         match d with
         | [] => ""
         | (k, x) :: r =>
             let m := repr_str k ++ ": " ++ py_repr x in
             match r with
             | [] => m
             | _ :: _ => m ++ ", " ++ members r
             end
         end) d ++ "}"
  end.

(** [str(x)], which is also what an f-string puts for [{x}]. *)
Definition py_str (v : pyval) : string :=
  match v with
  | PStr s => s
  | _ => py_repr v
  end.

(** [l[i] = x] *)
Definition list_assign {A} (l : list A) (i : Z) (x : A) : result (list A) :=
  let n := Z.of_nat (length l) in
  if ((0 <=? i) && (i <? n))%Z then Ok (<[Z.to_nat i := x]> l)
  else if ((- n <=? i) && (i <? 0))%Z then Ok (<[Z.to_nat (n + i) := x]> l)
  else Raise (Exn IndexError "list assignment index out of range").

(* ===================================================================== *)
(** ** select.py, sensor.py, __init__.py: validation of the configuration *)
(* ===================================================================== *)

(** [_validate_port_count(count, port_type, entry_id)] of select.py; the
    last two arguments only reach the log. *)
Definition validate_port_count (count : anyval) : result Z :=
  match py_int_of count with
  | Ok num =>
      if (num <? 1)%Z then Ok 4
      else if (num >? 64)%Z then Ok 64
      else Ok num
  | Raise e =>
      match exn_cls e with
      | ValueError | UnicodeDecodeError | TypeError => Ok 4
      | _ => Raise e
      end
  end.

(** [_validate_output_count(num_outputs, entry_id)] of sensor.py. *)
Definition validate_output_count (num_outputs : anyval) : result Z :=
  match py_int_of num_outputs with
  | Ok count =>
      if (count <? 1)%Z then Ok 4
      else if (count >? 64)%Z then Ok 64
      else Ok count
  | Raise e =>
      match exn_cls e with
      | ValueError | UnicodeDecodeError | TypeError => Ok 4
      | _ => Raise e
      end
  end.

(** [_validate_scan_interval(scan_interval, entry_id)] of __init__.py. *)
Definition validate_scan_interval (scan_interval : anyval) : result Z :=
  match py_int_of scan_interval with
  | Ok interval =>
      if (interval <? 1)%Z then Ok 1
      else if (interval >? 60)%Z then Ok 60
      else Ok interval
  | Raise e =>
      match exn_cls e with
      | ValueError | UnicodeDecodeError | TypeError => Ok 1
      | _ => Raise e
      end
  end.

(* ===================================================================== *)
(** ** select.py and sensor.py: the entities of an output                 *)
(* ===================================================================== *)

Module Select.

(** [HDTVMatrixInputSelector._generate_options] *)
Definition generate_options (num_inputs : Z) : list string :=
  app (map (fun i => "Entrada " ++ str_int i) (range 1 (num_inputs + 1)))
      ["Sin entrada"].

(** [HDTVMatrixInputSelector._parse_input_number] *)
Definition parse_input_number (option_ : string) : result (option Z) :=
  let parts := split_whitespace option_ in
  let attempt :=
    if (Nat.eqb (length parts) 2 && String.eqb (nth 0 parts "") "Entrada")%bool
    then match py_int_str (nth 1 parts "") with
         | Ok n => Ok (Some n)
         | Raise e => Raise e
         end
    else Ok None in
  match attempt with
  | Ok r => Ok r
  | Raise e =>
      match exn_cls e with
      | ValueError | UnicodeDecodeError | IndexError => Ok None
      | _ => Raise e
      end
  end.

(** [HDTVMatrixInputSelector.current_option] *)
Definition current_option (c : Coordinator.HDTVCoordinator) (output_number : Z)
    : result (option string) :=
  if Coordinator.no_data c then Ok None
  else
    match Coordinator.get_output_state c output_number with
    | Raise e => Raise e
    | Ok output_state =>
        if negb (truthy output_state) then Ok None
        else
          match py_get output_state "input" PNone with
          | Raise e => Raise e
          | Ok PNone => Ok (Some "Sin entrada")
          | Ok input_num => Ok (Some ("Entrada " ++ py_str input_num))
          end
    end.

(** [HDTVMatrixInputSelector.extra_state_attributes] *)
Definition extra_state_attributes (c : Coordinator.HDTVCoordinator)
    (output_number num_inputs : Z) : result (list (string * pyval)) :=
  if Coordinator.no_data c then Ok []
  else
    match Coordinator.get_output_state c output_number with
    | Raise e => Raise e
    | Ok output_state =>
        if negb (truthy output_state) then Ok []
        else
          match py_get output_state "raw_value" PNone with
          | Raise e => Raise e
          | Ok raw =>
              let attributes :=
                [("output_number", PInt output_number);
                 ("total_inputs", PInt num_inputs);
                 ("raw_value", raw)] in
              match py_get output_state "input" PNone with
              | Raise e => Raise e
              | Ok PNone => Ok attributes
              | Ok input_num => Ok (dict_set "input_number" input_num attributes)
              end
          end
    end.

Section Commands.
Variable dev : Device.
Variable api : HDTVMatrixApi.
(** [coordinator.async_request_refresh], a method of the host's base class. *)
Variable request_refresh : Coordinator.Poll unit.

(** [HDTVMatrixInputSelector.async_select_option]; both [except] clauses
    log and re-raise. *)
Definition async_select_option (output_number : Z) (option_ : string)
    : Coordinator.Poll unit :=
  try_except
    (if String.eqb option_ "Sin entrada" then ret tt
     else
       parsed <- lift_result (parse_input_number option_) ;;
       match parsed with
       | None => ret tt
       | Some input_num =>
           Coordinator.lift_io (set_route dev api input_num output_number) ;;;
           request_refresh
       end)
    (fun err => raise err).

End Commands.

End Select.

Module Sensor.

(** [HDTVMatrixOutputSensor.native_value] *)
Definition native_value (c : Coordinator.HDTVCoordinator) (output_number : Z)
    : result (option string) :=
  if Coordinator.no_data c then Ok None
  else
    match Coordinator.get_output_state c output_number with
    | Raise e => Raise e
    | Ok output_state =>
        if negb (truthy output_state) then Ok None
        else
          match py_get output_state "input" PNone with
          | Raise e => Raise e
          | Ok PNone => Ok (Some "Sin entrada")
          | Ok input_num => Ok (Some ("Entrada " ++ py_str input_num))
          end
    end.

(** [HDTVMatrixOutputSensor.extra_state_attributes] *)
Definition extra_state_attributes (c : Coordinator.HDTVCoordinator)
    (output_number : Z) : result (list (string * pyval)) :=
  if Coordinator.no_data c then Ok []
  else
    match Coordinator.get_output_state c output_number with
    | Raise e => Raise e
    | Ok output_state =>
        if negb (truthy output_state) then Ok []
        else
          match py_get output_state "input" PNone with
          | Raise e => Raise e
          | Ok input_num =>
              match py_get output_state "raw_value" PNone with
              | Raise e => Raise e
              | Ok raw =>
                  let connected :=
                    match input_num with PNone => false | _ => true end in
                  let attributes :=
                    [("output_number", PInt output_number);
                     ("raw_value", raw);
                     ("connected", PBool connected)] in
                  if connected
                  then Ok (dict_set "input_number" input_num attributes)
                  else Ok attributes
              end
          end
    end.

End Sensor.

(* ===================================================================== *)
(** ** button.py                                                          *)
(* ===================================================================== *)

Module Button.
Section Buttons.
Variable dev : Device.
Variable api : HDTVMatrixApi.
(** [coordinator.async_request_refresh], a method of the host's base class. *)
Variable request_refresh : Coordinator.Poll unit.

(** [HDTVMatrixResetButton.async_press] *)
Definition reset_press : Coordinator.Poll unit :=
  try_except
    (Coordinator.lift_io (clear_videowall_mode dev api) ;;;
     request_refresh)
    (fun err => raise err).

(** [HDTVMatrixVideowallButton.async_press] *)
Definition videowall_press : Coordinator.Poll unit :=
  try_except
    (let input_port := 1 in
     let outputs := [1; 2; 3; 4] in
     for_each
       (fun output_port =>
          Coordinator.lift_io (set_route dev api input_port output_port) ;;;
          ret tt)
       outputs ;;;
     Coordinator.lift_io (set_splice_and_video dev api) ;;;
     request_refresh)
    (fun err => raise err).

End Buttons.
End Button.

(* ===================================================================== *)
(** ** services.py                                                        *)
(* ===================================================================== *)

Module Services.

(** The loop of [_generate_videowall_splice_data]. *)
Fixpoint videowall_loop (num_outputs input_idx start_output_idx total_elements : Z)
    (screens : list Z) (data : list string) : result (list string) :=
  match screens with
  | [] => Ok data
  | screen :: rest =>
      let output_idx := start_output_idx + screen in
      if (output_idx >=? num_outputs)%Z then Ok data   (* break *)
      else
        let position := input_idx * num_outputs + output_idx in
        if (position <? total_elements)%Z then
          match list_assign data position (str_int input_idx) with
          | Raise e => Raise e
          | Ok data' =>
              videowall_loop num_outputs input_idx start_output_idx
                total_elements rest data'
          end
        else
          videowall_loop num_outputs input_idx start_output_idx
            total_elements rest data
  end.

(** [_generate_videowall_splice_data] *)
Definition generate_videowall_splice_data
    (num_inputs num_outputs input_port grid_width grid_height start_output : Z)
    : result (list string) :=
  let total_elements := num_inputs * num_outputs in
  let data := repeat "-1" (Z.to_nat total_elements) in
  let input_idx := input_port - 1 in
  let start_output_idx := start_output - 1 in
  let screens_needed := grid_width * grid_height in
  videowall_loop num_outputs input_idx start_output_idx total_elements
    (range 0 screens_needed) data.

(** A config entry: [entry.options] and [entry.data].  The port counts in
    them are integers, as the schemas of the config flow coerce them. *)
Record ConfigEntry : Type := mkConfigEntry {
  options : list (string * Z);
  entry_data : list (string * Z)
}.

(** What [hass.data[DOMAIN][entry_id]] holds: the client, the entry and
    whether there is a coordinator. *)
Record EntryData : Type := mkEntryData {
  ed_api : HDTVMatrixApi;
  ed_entry : option ConfigEntry;
  ed_coordinator : bool
}.

Definition CONF_INPUTS : string := "inputs".
Definition CONF_OUTPUTS : string := "outputs".

(** [entry.options.get(key, entry.data.get(key, default))] *)
Definition configured (entry : ConfigEntry) (key : string) (default : Z) : Z :=
  match dict_get key (options entry) with
  | Some v => v
  | None =>
      match dict_get key (entry_data entry) with
      | Some v => v
      | None => default
      end
  end.

(** [_get_first_entry_data(hass)], on [hass.data.get(DOMAIN, {})]. *)
Definition get_first_entry_data (domain_data : list (string * EntryData))
    : option EntryData :=
  match domain_data with
  | [] => None
  | (_, entry_data) :: _ => Some entry_data
  end.

(** How a service call ends: it returns, it raises [HomeAssistantError],
    or another exception leaves it. *)
Inductive service_result : Type :=
| Served
| HomeAssistantError (msg : string)
| Uncaught (e : exn).

Definition Handler : Type :=
  Coordinator.HDTVCoordinator * list event ->
  service_result * (Coordinator.HDTVCoordinator * list event).

Definition NO_INTEGRATION : string :=
  "No HDTV Matrix integration found. Please add the integration first.".

(** [api.set_splice(...)]: the class [HDTVMatrixApi] has no such method,
    so the attribute lookup raises. *)
Definition set_splice (num_inputs num_outputs : Z) (data : list string)
    : Coordinator.Poll unit :=
  raise (Exn AttributeError
           "'HDTVMatrixApi' object has no attribute 'set_splice'").

Section Handlers.
Variable dev : Device.
Variable domain_data : list (string * EntryData).
(** [coordinator.async_request_refresh], a method of the host's base class. *)
Variable request_refresh : Coordinator.Poll unit.
(** [json.loads]; what it raises on a string is its [JSONDecodeError]. *)
Variable json_loads : string -> result pyval.

(** The [try] of a handler with its [except] clauses for the command and
    the connection error; [what] is the text for the command error. *)
Definition guarded (what : string) (body : Coordinator.Poll unit) : Handler :=
  fun s =>
    match body s with
    | (Ok _, s') => (Served, s')
    | (Raise err, s') =>
        (match exn_cls err with
         | CommandError => HomeAssistantError (what ++ exn_msg err)
         | ConnectionError =>
             HomeAssistantError ("Connection error: " ++ exn_msg err)
         | _ => Uncaught err
         end, s')
    end.

Definition refresh_if (coordinator : bool) : Coordinator.Poll unit :=
  if coordinator then request_refresh else ret tt.

(** [handle_set_route], for [call.data = {"output": output, "input": input_port}]. *)
Definition handle_set_route (output input_port : Z) : Handler :=
  fun s =>
    match get_first_entry_data domain_data with
    | None => (HomeAssistantError NO_INTEGRATION, s)
    | Some ed =>
        let api := ed_api ed in
        let rejected :=
          match ed_entry ed with
          | Some entry =>
              let max_inputs := configured entry CONF_INPUTS 36 in
              let max_outputs := configured entry CONF_OUTPUTS 36 in
              if ((input_port <? 1) || (input_port >? max_inputs))%Z then
                Some ("Input " ++ str_int input_port ++ " is out of range (1-"
                      ++ str_int max_inputs ++ ")")
              else if ((output <? 1) || (output >? max_outputs))%Z then
                Some ("Output " ++ str_int output ++ " is out of range (1-"
                      ++ str_int max_outputs ++ ")")
              else None
          | None => None
          end in
        match rejected with
        | Some msg => (HomeAssistantError msg, s)
        | None =>
            guarded "Failed to set route: "
              (Coordinator.lift_io (set_route dev api input_port output) ;;;
               refresh_if (ed_coordinator ed)) s
        end
    end.

(** [handle_set_all_to_input], for [call.data = {"input": input_port}]. *)
Definition handle_set_all_to_input (input_port : Z) : Handler :=
  fun s =>
    match get_first_entry_data domain_data with
    | None => (HomeAssistantError NO_INTEGRATION, s)
    | Some ed =>
        let api := ed_api ed in
        let checked :=
          match ed_entry ed with
          | Some entry =>
              let num_outputs := configured entry CONF_OUTPUTS 36 in
              let max_inputs := configured entry CONF_INPUTS 36 in
              if ((input_port <? 1) || (input_port >? max_inputs))%Z then
                inl ("Input " ++ str_int input_port ++ " is out of range (1-"
                     ++ str_int max_inputs ++ ")")
              else inr num_outputs
          | None => inr 36
          end in
        match checked with
        | inl msg => (HomeAssistantError msg, s)
        | inr num_outputs =>
            guarded "Failed to set all outputs: "
              (Coordinator.lift_io (set_all_to_input dev api input_port num_outputs) ;;;
               refresh_if (ed_coordinator ed)) s
        end
    end.

(** [handle_set_videowall], for [call.data] with the keys [input],
    [grid_width], [grid_height] and [start_output]. *)
Definition handle_set_videowall
    (input_port grid_width grid_height start_output : Z) : Handler :=
  fun s =>
    let screens_needed := grid_width * grid_height in
    match get_first_entry_data domain_data with
    | None => (HomeAssistantError NO_INTEGRATION, s)
    | Some ed =>
        let checked :=
          match ed_entry ed with
          | Some entry =>
              let num_inputs := configured entry CONF_INPUTS 36 in
              let num_outputs := configured entry CONF_OUTPUTS 36 in
              if ((input_port <? 1) || (input_port >? num_inputs))%Z then
                inl ("Input " ++ str_int input_port ++ " is out of range (1-"
                     ++ str_int num_inputs ++ ")")
              else if (start_output + screens_needed - 1 >? num_outputs)%Z then
                inl ("Videowall requires " ++ str_int screens_needed
                     ++ " outputs starting from " ++ str_int start_output
                     ++ ", but only " ++ str_int num_outputs
                     ++ " outputs available")
              else inr (num_inputs, num_outputs)
          | None => inr (36, 36)
          end in
        match checked with
        | inl msg => (HomeAssistantError msg, s)
        | inr (num_inputs, num_outputs) =>
            guarded "Failed to configure videowall: "
              (data <- lift_result
                         (generate_videowall_splice_data num_inputs num_outputs
                            input_port grid_width grid_height start_output) ;;
               set_splice num_inputs num_outputs data ;;;
               refresh_if (ed_coordinator ed)) s
        end
    end.

(** [handle_set_splice], for [call.data = {"splice_data": splice_data_str}].
    The decoder's error is caught by its own [except] clause; the
    [HomeAssistantError]s raised inside the [try] are caught by none. *)
Definition handle_set_splice (splice_data_str : string) : Handler :=
  fun s =>
    match get_first_entry_data domain_data with
    | None => (HomeAssistantError NO_INTEGRATION, s)
    | Some ed =>
        let '(num_inputs, num_outputs) :=
          match ed_entry ed with
          | Some entry =>
              (configured entry CONF_INPUTS 36, configured entry CONF_OUTPUTS 36)
          | None => (36, 36)
          end in
        match json_loads splice_data_str with
        | Raise err =>
            (HomeAssistantError ("Invalid JSON in splice_data: " ++ exn_msg err), s)
        | Ok (PList splice_config) =>
            let data := map py_str splice_config in
            let expected_length := num_inputs * num_outputs in
            if negb (Z.of_nat (length data) =? expected_length)%Z then
              (HomeAssistantError
                 ("splice_data must contain " ++ str_int expected_length
                  ++ " elements (" ++ str_int num_inputs ++ " inputs "
                  ++ String (ascii_of_nat 215) " "   (* the sign U+00D7 *)
                  ++ str_int num_outputs ++ " outputs), got "
                  ++ str_int (Z.of_nat (length data))), s)
            else
              guarded "Failed to execute splice: "
                (set_splice num_inputs num_outputs data ;;;
                 refresh_if (ed_coordinator ed)) s
        | Ok _ => (HomeAssistantError "splice_data must be a JSON array", s)
        end
    end.

End Handlers.
End Services.

(** Names for two definitions of api.py that coordinator.py has namesakes
    of. *)
Abbreviation matrix_connected_outputs := get_connected_outputs (only parsing).
Abbreviation response_data := data (only parsing).

(** The GET of [clear_videowall_mode]. *)
Definition clear_request (api : HDTVMatrixApi) : request :=
  {| req_url := base_url api ++ "get_json_splice.php";
     req_params := Some [("splice", "[]")];
     req_headers := [("Content-Type", "application/json")];
     req_timeout := None |}.

(** The numbers of the connected outputs among the items of a state. *)
Definition connected_keys (items : list (Z * MatrixOutput)) : list Z :=
  map fst (filter (fun it => is_connected_output (snd it) = true) items).

(** A sample configuration: one entry with four inputs and four outputs. *)
Definition sample_entry : Services.ConfigEntry :=
  {| Services.options := [];
     Services.entry_data := [("inputs", 4); ("outputs", 4)] |}.

Definition sample_domain (coordinator : bool)
    : list (string * Services.EntryData) :=
  [("entry_1",
    {| Services.ed_api := sample_api;
       Services.ed_entry := Some sample_entry;
       Services.ed_coordinator := coordinator |})].

(** A refresh request that refreshes at once. *)
Definition refresh_now (dev : Device) (api : HDTVMatrixApi)
    : Coordinator.Poll unit :=
  fun s => (Ok tt, Coordinator.async_refresh dev api s).

(** A decoder that knows three texts. *)
Definition sample_json_loads (s : string) : result pyval :=
  if String.eqb s "[1, 2]" then Ok (PList [PInt 1; PInt 2])
  else if String.eqb s "5" then Ok (PInt 5)
  else Raise (Exn ValueError "Expecting value: line 1 column 1 (char 0)").


(** The requests of a complete press of the videowall button: input 1 to
    the outputs 1 to 4, then the requests of the preset. *)
Definition press_requests (api : HDTVMatrixApi) : list request :=
  app (map (fun o => api_request api COMMAND (Some (route_params 1 o)))
           [1; 2; 3; 4])
      (case_requests api cases).

(** What step 1 of a case makes of the device's answer: the body is read
    first, then the status decides. *)
Definition cmd_step_result (api : HDTVMatrixApi) (idx : Z) (o : outcome)
    : result unit :=
  let handled (e : exn) :=
    match exn_cls e with
    | TimeoutError =>
        Exn ConnectionError
          ("Splice CMD timeout after " ++ str_int (timeout api) ++ "s")
    | ClientError =>
        Exn ConnectionError ("Splice CMD connection error: " ++ exn_msg e)
    | _ => e
    end in
  match o with
  | Fails e => Raise (handled e)
  | Responds r =>
      match resp_text r with
      | Raise e => Raise (handled e)
      | Ok _ =>
          if (resp_status r =? 200)%Z then Ok tt
          else Raise (Exn CommandError
                        ("Splice CMD failed (case " ++ str_int idx ++ "): HTTP "
                         ++ str_int (resp_status r)))
      end
  end.

(** What step 2 makes of it: the body is read only after a status other
    than 200, and every exception becomes a command error. *)
Definition data_step_result (idx : Z) (o : outcome) : result unit :=
  let wrapped (msg : string) :=
    Exn CommandError
      ("Error configurando videowall DATA (case " ++ str_int idx ++ "): " ++ msg) in
  match o with
  | Fails e => Raise (wrapped (exn_msg e))
  | Responds r =>
      if (resp_status r =? 200)%Z then Ok tt
      else match resp_text r with
           | Raise e => Raise (wrapped (exn_msg e))
           | Ok text =>
               Raise (wrapped ("Videowall splice DATA failed (case "
                               ++ str_int idx ++ "): " ++ "HTTP "
                               ++ str_int (resp_status r) ++ " - " ++ text))
           end
  end.

(** A response whose body is not text in its charset: [resp.text()] and
    [resp.json()] both raise. *)
Definition undecodable_response (status : Z) : response :=
  let e := Exn UnicodeDecodeError
             "'utf-8' codec can't decode byte 0xff in position 0: invalid start byte" in
  {| resp_status := status; resp_text := Raise e; resp_json := Raise e |}.

(** The eight calls of the preset as the specification gives them: the
    command calls to the command endpoint of the client, and [x] and [y]
    the numbers 2. *)
Definition spec_cmd_request (api : HDTVMatrixApi) (prm : string) : request :=
  {| req_url := base_url api ++ "get_json_cmd.php" ++ "?cmd=splice&prm=" ++ prm;
     req_params := None;
     req_headers := [("Content-Type", "application/json")];
     req_timeout := Some (timeout api) |}.

Definition spec_preset_requests (api : HDTVMatrixApi) : list request :=
  [ spec_cmd_request api "1,1,1,2,2,1,";
    preset_data_request api (PInt 2) (PInt 2) ["1"; "-1"; "-1"; "-1"];
    spec_cmd_request api "2,1,2,2,2,1,";
    preset_data_request api (PInt 2) (PInt 2) ["1"; "2"; "-1"; "-1"];
    spec_cmd_request api "3,1,3,2,2,1,";
    preset_data_request api (PInt 2) (PInt 2) ["1"; "2"; "3"; "-1"];
    spec_cmd_request api "4,1,4,2,2,1,";
    preset_data_request api (PInt 2) (PInt 2) ["1"; "2"; "3"; "4"] ].

(** The "matrix" entry of the snapshot, when the snapshot is a mapping that
    has one. *)
Definition matrix_entry (c : Coordinator.HDTVCoordinator) : option pyval :=
  match Coordinator.data c with
  | Some (PDict d) => dict_get "matrix" d
  | _ => None
  end.

(** An entry of the matrix mapping of the shape that [to_dict] gives them:
    a mapping under a key [output_<number>]. *)
Definition output_entry (item : string * pyval) : Prop :=
  exists (k : Z) (e : list (string * pyval)),
    item = ("output_" ++ str_int k, PDict e).
(** [s] occurs in [t]. *)
Definition occurs_in (s t : string) : Prop :=
  exists pre post, t = pre ++ s ++ post.

(* ===================================================================== *)
(** * Properties                                                          *)
(* ===================================================================== *)

(** ** Dictionaries *)

Section DictFacts.
Context {K V : Type} `{EqDecision K}.

Lemma dict_get_app (k : K) (d1 d2 : list (K * V)) :
  dict_get k (app d1 d2) =
  match dict_get k d1 with Some v => Some v | None => dict_get k d2 end.
Proof.
  induction d1 as [|[k' v'] d1 IH]; simpl; [reflexivity|].
  destruct (decide (k = k')); [reflexivity | exact IH].
Qed.

Lemma dict_get_None_keys (k : K) (d : list (K * V)) :
  dict_get k d = None <-> ~ In k (dict_keys d).
Proof.
  induction d as [|[k' v'] d IH]; simpl.
  - split; [intros _ [] | reflexivity].
  - destruct (decide (k = k')) as [->|Hne].
    + split; [discriminate | intros Hn; exfalso; apply Hn; now left].
    + rewrite IH. split.
      * intros Hn [Heq|Hin]; [congruence | exact (Hn Hin)].
      * intros Hn Hin. apply Hn. now right.
Qed.

(** Setting a key that is not there appends the item. *)
Lemma dict_set_fresh (k : K) (v : V) (d : list (K * V)) :
  ~ In k (dict_keys d) -> dict_set k v d = app d [(k, v)].
Proof.
  induction d as [|[k' v'] d IH]; simpl; intros Hn; [reflexivity|].
  destruct (decide (k = k')) as [->|Hne].
  - exfalso. apply Hn. now left.
  - f_equal. apply IH. intros Hin. apply Hn. now right.
Qed.

End DictFacts.

(** ** The state parser *)

Lemma enumerate_keys_from {A} (start : Z) (l : list A) :
  map fst (enumerate start l) =
  map (fun i => start + Z.of_nat i) (seq 0 (length l)).
Proof.
  revert start. induction l as [|x l IH]; intros start; simpl; [reflexivity|].
  f_equal; [lia|].
  rewrite IH, <- seq_shift, map_map.
  apply map_ext. intros i. lia.
Qed.

Lemma enumerate_fst_bounds {A} (start : Z) (l : list A) (i : Z) (x : A) :
  In (i, x) (enumerate start l) -> start <= i < start + Z.of_nat (length l).
Proof.
  revert start. induction l as [|y l IH]; intros start; simpl; [intros []|].
  intros [Heq|Hin].
  - inversion Heq; subst. lia.
  - apply IH in Hin. lia.
Qed.

Lemma parse_loop_appends (A : list Z) (start : Z) (acc : list (Z * MatrixOutput)) :
  (forall k, In k (dict_keys acc) -> k <= start) ->
  foldl StateParser.parse_entry acc (enumerate start A) =
  app acc (map parsed_item (enumerate start A)).
Proof.
  revert start acc. induction A as [|raw A IH]; intros start acc Hacc; simpl.
  - now rewrite app_nil_r.
  - rewrite dict_set_fresh.
    + rewrite IH.
      * rewrite <- app_assoc. reflexivity.
      * intros k. unfold dict_keys. rewrite map_app, in_app_iff. simpl.
        intros [Hin|[<-|[]]]; [apply Hacc in Hin|]; lia.
    + intros Hin. apply Hacc in Hin. lia.
Qed.

Lemma parsed_outputs (A : list Z) (now : Z) :
  outputs (StateParser.parse_status_array A now) =
  map parsed_item (enumerate 0 A).
Proof.
  unfold StateParser.parse_status_array. simpl.
  rewrite parse_loop_appends; [reflexivity | intros k []].
Qed.

Lemma dict_get_parsed (A : list Z) (start k : Z) :
  start + 1 <= k <= start + Z.of_nat (length A) ->
  dict_get k (map parsed_item (enumerate start A)) =
  Some (snd (parsed_item (k - 1, nth (Z.to_nat (k - 1 - start)) A 0))).
Proof.
  revert start. induction A as [|raw A IH]; intros start Hk; simpl in *; [lia|].
  destruct (decide (k = start + 1)) as [->|Hne].
  - replace (start + 1 - 1 - start) with 0 by lia. simpl.
    replace (start + 1 - 1) with start by lia. reflexivity.
  - rewrite IH by lia.
    replace (Z.to_nat (k - 1 - start)) with (S (Z.to_nat (k - 1 - (start + 1))))
      by lia.
    reflexivity.
Qed.

Lemma parsed_keys (A : list Z) :
  map fst (map parsed_item (enumerate 0 A)) = range 1 (Z.of_nat (length A) + 1).
Proof.
  unfold range.
  transitivity (map (fun i => i + 1) (map fst (enumerate 0 A))).
  { rewrite !map_map. reflexivity. }
  rewrite enumerate_keys_from, map_map.
  replace (Z.to_nat (Z.of_nat (length A) + 1 - 1)) with (length A) by lia.
  apply map_ext. intros i. lia.
Qed.

Lemma enumerate_length {A} (start : Z) (l : list A) :
  length (enumerate start l) = length l.
Proof.
  pose proof (f_equal (@length Z) (enumerate_keys_from start l)) as Hlen.
  now rewrite !length_map, length_seq in Hlen.
Qed.

(** C1.  Parsing a raw status array [A] gives a state with exactly the
    output numbers 1..len(A), in order and without gaps, with
    [total_outputs = len(A)]; for every 1-indexed [k <= len(A)] the entry
    of output [k] has [raw_value = A[k-1]], and its [input_number] is null
    iff [A[k-1] = 65535] and is [A[k-1] + 1] otherwise. *)
Theorem parse_status_array_entries (A : list Z) (now : Z) :
  let st := StateParser.parse_status_array A now in
  dict_keys (outputs st) = range 1 (Z.of_nat (length A) + 1) /\
  total_outputs st = Z.of_nat (length A) /\
  forall k : Z, 1 <= k <= Z.of_nat (length A) ->
    let raw := nth (Z.to_nat (k - 1)) A 0 in
    exists entry,
      get_output st k = Some entry /\
      output_number entry = k /\
      raw_value entry = raw /\
      (input_number entry = None <-> raw = 65535) /\
      (raw <> 65535 -> input_number entry = Some (raw + 1)).
Proof.
  intros st. unfold st, total_outputs, get_output.
  rewrite parsed_outputs. split; [|split].
  - unfold dict_keys, range.
    transitivity (map (fun i => i + 1) (map fst (enumerate 0 A))).
    { rewrite !map_map. reflexivity. }
    rewrite enumerate_keys_from, map_map.
    replace (Z.to_nat (Z.of_nat (length A) + 1 - 1)) with (length A) by lia.
    apply map_ext. intros i. lia.
  - rewrite length_map.
    pose proof (f_equal (@length Z) (enumerate_keys_from 0 A)) as Hlen.
    rewrite !length_map, length_seq in Hlen. now rewrite Hlen.
  - intros k Hk. cbv zeta.
    rewrite (dict_get_parsed A 0 k) by lia.
    replace (k - 1 - 0) with (k - 1) by lia.
    set (raw := nth (Z.to_nat (k - 1)) A 0).
    eexists. split; [reflexivity|]. simpl.
    unfold DISCONNECTED_VALUE.
    repeat split; try lia.
    + destruct (Z.eqb_spec raw 65535); [trivial | discriminate].
    + intros ->. reflexivity.
    + intros Hne. destruct (Z.eqb_spec raw 65535); [contradiction | reflexivity].
Qed.

Lemma parse_status_array_entries_witness :
  exists entry,
    get_output (StateParser.parse_status_array [0; 65535; 2] 0) 2 = Some entry /\
    output_number entry = 2 /\
    raw_value entry = 65535 /\
    (input_number entry = None <-> 65535 = 65535) /\
    (65535 <> 65535 -> input_number entry = Some (65535 + 1)).
Proof.
  apply (parse_status_array_entries [0; 65535; 2] 0). simpl. lia.
Defined.

(** ** The client: one request *)

Lemma gets_app (t1 t2 : list event) : gets (app t1 t2) = app (gets t1) (gets t2).
Proof. unfold gets. apply flat_map_app. Qed.

Lemma callbacks_app (t1 t2 : list event) :
  callbacks (app t1 t2) = (callbacks t1 + callbacks t2)%nat.
Proof. unfold callbacks. now rewrite flat_map_app, length_app. Qed.

Lemma gets_notified (api : HDTVMatrixApi) : gets (notified api) = [].
Proof. unfold notified. now destruct (change_callback api). Qed.

Lemma notify_change_run (api : HDTVMatrixApi) (tr : list event) :
  notify_change api tr = (Ok tt, app tr (notified api)).
Proof.
  unfold notify_change, notified.
  destruct (change_callback api); [reflexivity | now rewrite app_nil_r].
Qed.

(** Whatever the device does, [_execute_request] issues its one GET. *)
Lemma execute_request_trace (dev : Device) (api : HDTVMatrixApi)
    (endpoint : APIEndpoint) (ps : option (list (string * string)))
    (tr : list event) :
  snd (execute_request dev api endpoint ps tr) =
  app tr [Get (api_request api endpoint ps)].
Proof.
  unfold execute_request, try_except, bind, session_get, api_request, lift_result.
  destruct (respond dev tr _) as [r|e]; simpl.
  - destruct (resp_json r); simpl.
    + destruct (resp_status r =? 200)%Z; simpl; [reflexivity|].
      destruct (resp_status r >=? 500)%Z; simpl; [reflexivity|].
      destruct (resp_status r >=? 400)%Z; reflexivity.
    + destruct (resp_text r) as [text|e']; simpl.
      * destruct (resp_status r >=? 500)%Z; simpl; [reflexivity|].
        destruct (resp_status r >=? 400)%Z; reflexivity.
      * destruct (exn_cls e'); reflexivity.
  - destruct (exn_cls e); reflexivity.
Qed.

Lemma set_route_trace (dev : Device) (api : HDTVMatrixApi)
    (input_port output_port : Z) (tr : list event) :
  snd (set_route dev api input_port output_port tr) =
  app tr (Get (api_request api COMMAND (Some (route_params input_port output_port)))
          :: (if is_ok (fst (set_route dev api input_port output_port tr))
              then notified api else [])).
Proof.
  unfold set_route, try_except, bind.
  fold (route_params input_port output_port).
  pose proof (execute_request_trace dev api COMMAND
                (Some (route_params input_port output_port)) tr) as Htr.
  destruct (execute_request dev api COMMAND _ tr) as [[resp|e] tr'];
    simpl in Htr; subst tr'.
  - rewrite notify_change_run. simpl. now rewrite <- app_assoc.
  - destruct (exn_cls e); reflexivity.
Qed.

(** C8.  For every pair of ports, [set_route(i, o)] issues one request, to
    the command endpoint, with [cmd = "o2ox"] and [prm = "{i-1},{o-1}"];
    for [set_route(3, 5)] the parameters are [cmd = "o2ox"], [prm = "2,4"]. *)
Theorem set_route_sends_zero_indexed (dev : Device) (api : HDTVMatrixApi)
    (i o : Z) (tr : list event) :
  gets (snd (set_route dev api i o tr)) =
    app (gets tr)
      [ {| req_url := base_url api ++ "get_json_cmd.php";
           req_params :=
             Some [("cmd", "o2ox");
                   ("prm", str_int (i - 1) ++ "," ++ str_int (o - 1))];
           req_headers := [("Content-Type", "application/json")];
           req_timeout := Some (timeout api) |} ] /\
  gets (snd (set_route dev api 3 5 tr)) =
    app (gets tr)
      [ {| req_url := base_url api ++ "get_json_cmd.php";
           req_params := Some [("cmd", "o2ox"); ("prm", "2,4")];
           req_headers := [("Content-Type", "application/json")];
           req_timeout := Some (timeout api) |} ].
Proof.
  split; rewrite set_route_trace, gets_app; f_equal; simpl;
    (destruct (is_ok _); [rewrite gets_notified|]; reflexivity).
Qed.

(** ** Connection test *)

(** C9.  [test_connection] never raises: whatever the status request does,
    it returns a boolean, [True] when [get_status] returns and [False] when
    [get_status] raises. *)
Theorem test_connection_never_raises (dev : Device) (api : HDTVMatrixApi)
    (tr : list event) :
  fst (test_connection dev api tr) = Ok (is_ok (fst (get_status dev api tr))) /\
  snd (test_connection dev api tr) = snd (get_status dev api tr).
Proof.
  unfold test_connection, try_except, bind.
  destruct (get_status dev api tr) as [[v|e] tr']; split; reflexivity.
Qed.

(** ** Routing one input to every output *)

Lemma range_from_one (n : Z) :
  range 1 (n + 1) = map (fun i => 1 + Z.of_nat i) (seq 0 (Z.to_nat n)).
Proof. unfold range. now replace (n + 1 - 1) with n by lia. Qed.

Lemma set_all_loop_run (dev : Device) (api : HDTVMatrixApi) (input_port : Z)
    (outs : list Z) (errors : list string) (tr : list event) :
  set_all_loop dev api input_port outs errors tr =
  (Ok (app errors (failure_notes (route_results dev api input_port outs tr))),
   trace_after_routes dev api input_port outs tr).
Proof.
  revert errors tr. induction outs as [|o outs IH]; intros errors tr; simpl.
  - unfold ret. now rewrite app_nil_r.
  - unfold bind at 1. unfold try_except, bind at 1.
    destruct (set_route dev api input_port o tr) as [[v|e] tr'] eqn:Hroute;
      simpl; rewrite IH; simpl.
    + reflexivity.
    + now rewrite <- app_assoc.
Qed.

Lemma gets_trace_after_routes (dev : Device) (api : HDTVMatrixApi)
    (input_port : Z) (outs : list Z) (tr : list event) :
  gets (trace_after_routes dev api input_port outs tr) =
  app (gets tr)
    (map (fun o => api_request api COMMAND (Some (route_params input_port o))) outs).
Proof.
  revert tr. induction outs as [|o outs IH]; intros tr; simpl.
  - now rewrite app_nil_r.
  - rewrite IH, set_route_trace, gets_app. simpl.
    rewrite <- app_assoc. f_equal. simpl. f_equal.
    destruct (is_ok _); [rewrite gets_notified|]; reflexivity.
Qed.

Lemma string_app_nil_r (s : string) : s ++ "" = s.
Proof.
  induction s as [|c s IH]; [reflexivity|].
  change (String c (s ++ "") = String c s). now rewrite IH.
Qed.

Lemma string_app_assoc (s t u : string) : (s ++ t) ++ u = s ++ t ++ u.
Proof.
  induction s as [|c s IH]; [reflexivity|].
  change (String c ((s ++ t) ++ u) = String c (s ++ t ++ u)). now rewrite IH.
Qed.

Lemma occurs_in_join (sep part : string) (parts : list string) :
  In part parts -> occurs_in part (join sep parts).
Proof.
  induction parts as [|p parts IH]; [intros []|].
  intros [->|Hin].
  - destruct parts as [|q parts].
    + exists "", "". simpl. now rewrite string_app_nil_r.
    + exists "", (sep ++ join sep (q :: parts)). reflexivity.
  - destruct parts as [|q parts]; [destruct Hin|].
    destruct (IH Hin) as (pre & post & Heq).
    exists (p ++ sep ++ pre), post.
    change (join sep (p :: q :: parts)) with (p ++ sep ++ join sep (q :: parts)).
    rewrite Heq. now rewrite !string_app_assoc.
Qed.

Lemma failure_note_recorded (rs : list (Z * result pyval)) (o : Z) (e : exn) :
  In (o, Raise e) rs -> In (failure_note o e) (failure_notes rs).
Proof.
  intros Hin. unfold failure_notes. apply in_flat_map.
  exists (o, Raise e). split; [exact Hin | now left].
Qed.

Lemma set_all_to_input_run (dev : Device) (api : HDTVMatrixApi)
    (input_port num_outputs : Z) (tr : list event) :
  set_all_to_input dev api input_port num_outputs tr =
  (match failure_notes
           (route_results dev api input_port (range 1 (num_outputs + 1)) tr) with
   | [] => Ok tt
   | notes =>
       Raise (Exn CommandError
                ("Failed to set all num_outputs: " ++ join "; " notes))
   end,
   trace_after_routes dev api input_port (range 1 (num_outputs + 1)) tr).
Proof.
  unfold set_all_to_input, bind. rewrite set_all_loop_run. simpl.
  destruct (failure_notes _); reflexivity.
Qed.

(** C6.  [set_all_to_input(i, N)] calls [set_route(i, o)] for every output
    [o] in 1..N, in order, also after failures; it succeeds when no call
    failed, and otherwise raises a command error whose message holds, for
    every failed output, the note naming that output. *)
Theorem set_all_to_input_tries_all (dev : Device) (api : HDTVMatrixApi)
    (i N : Z) (tr : list event) :
  let outs := range 1 (N + 1) in
  let rs := route_results dev api i outs tr in
  let res := fst (set_all_to_input dev api i N tr) in
  gets (snd (set_all_to_input dev api i N tr)) =
    app (gets tr)
      (map (fun o =>
              {| req_url := base_url api ++ "get_json_cmd.php";
                 req_params :=
                   Some [("cmd", "o2ox");
                         ("prm", str_int (i - 1) ++ "," ++ str_int (o - 1))];
                 req_headers := [("Content-Type", "application/json")];
                 req_timeout := Some (timeout api) |}) outs) /\
  map fst rs = outs /\
  ((forall o e, ~ In (o, Raise e) rs) -> res = Ok tt) /\
  (forall o e, In (o, Raise e) rs ->
     exists msg,
       res = Raise (Exn CommandError msg) /\
       occurs_in ("num_outputs " ++ str_int o ++ ": " ++ exn_msg e) msg).
Proof.
  intros outs rs res. unfold res. rewrite set_all_to_input_run. simpl.
  fold outs. fold rs. repeat split.
  - apply gets_trace_after_routes.
  - unfold rs. generalize tr. induction outs as [|o outs' IH]; intros tr0; simpl.
    + reflexivity.
    + destruct (set_route dev api i o tr0) as [r tr']. simpl. now rewrite IH.
  - intros Hnone. destruct (failure_notes rs) as [|note notes] eqn:Hnotes;
      [reflexivity|].
    exfalso. assert (Hin : In note (failure_notes rs)) by (rewrite Hnotes; now left).
    unfold failure_notes in Hin. apply in_flat_map in Hin.
    destruct Hin as ([o r] & Hin & Hnote). simpl in Hnote.
    destruct r as [v|e]; [destruct Hnote|]. exact (Hnone o e Hin).
  - intros o e Hin. apply failure_note_recorded in Hin.
    destruct (failure_notes rs) as [|note notes] eqn:Hnotes; [destruct Hin|].
    eexists. split; [reflexivity|].
    destruct (occurs_in_join "; " _ _ Hin) as (pre & post & Heq).
    exists ("Failed to set all num_outputs: " ++ pre), post.
    change (match notes with
            | [] => note
            | _ :: _ => note ++ "; " ++ join "; " notes
            end) with (join "; " (note :: notes)).
    rewrite Heq. unfold failure_note. now rewrite !string_app_assoc.
Qed.

Lemma set_all_to_input_tries_all_witness :
  fst (set_all_to_input steady_device sample_api 1 3 []) = Ok tt /\
  exists msg,
    fst (set_all_to_input
           (device_with 1 (Fails (Exn TimeoutError ""))) sample_api 1 3 []) =
      Raise (Exn CommandError msg) /\
    occurs_in
      ("num_outputs " ++ str_int 2 ++ ": "
       ++ exn_msg (Exn CommandError "Failed to set route: Request timeout after 10s"))
      msg.
Proof.
  split.
  - apply (set_all_to_input_tries_all steady_device sample_api 1 3 []).
    intros o e Hin. vm_compute in Hin.
    destruct Hin as [H|[H|[H|[]]]]; discriminate H.
  - apply (set_all_to_input_tries_all
             (device_with 1 (Fails (Exn TimeoutError ""))) sample_api 1 3 []).
    vm_compute. right. left. reflexivity.
Defined.

(** ** The videowall preset *)

Lemma for_each_app {S A} (body : A -> M S unit) (l1 l2 : list A) (s : S) :
  for_each body (app l1 l2) s =
  match for_each body l1 s with
  | (Ok _, s') => for_each body l2 s'
  | (Raise e, s') => (Raise e, s')
  end.
Proof.
  revert s. induction l1 as [|x l1 IH]; intros s; simpl; [reflexivity|].
  unfold bind. destruct (body x s) as [[[]|e] s']; [apply IH | reflexivity].
Qed.

Lemma enumerate_nth {A} (start : Z) (l : list A) (n : nat) (x : A) :
  nth_error l n = Some x ->
  enumerate start l =
  app (firstn n (enumerate start l))
      ((start + Z.of_nat n, x) :: skipn (S n) (enumerate start l)).
Proof.
  revert start n. induction l as [|y l IH]; intros start n Hn.
  - destruct n; discriminate Hn.
  - destruct n as [|n]; simpl in *.
    + inversion Hn; subst.
      replace (start + Z.of_nat 0) with start by lia. reflexivity.
    + f_equal. rewrite (IH (start + 1) n Hn) at 1.
      replace (start + 1 + Z.of_nat n) with (start + Z.of_nat (S n)) by lia.
      reflexivity.
Qed.

(** Step 1 of a case issues its one GET. *)
Lemma splice_cmd_step_run (dev : Device) (api : HDTVMatrixApi) (idx : Z)
    (case : splice_case) (tr : list event) :
  splice_cmd_step dev api idx case tr =
  (cmd_step_result api idx (respond dev tr (splice_cmd_request api case)),
   app tr [Get (splice_cmd_request api case)]).
Proof.
  unfold splice_cmd_step, try_except, bind, session_get, lift_result,
    cmd_step_result.
  destruct (respond dev tr _) as [r|e]; simpl.
  - destruct (resp_text r) as [text|e]; simpl.
    + destruct (resp_status r =? 200)%Z; reflexivity.
    + destruct (exn_cls e); reflexivity.
  - destruct (exn_cls e); reflexivity.
Qed.

Lemma splice_cmd_step_trace (dev : Device) (api : HDTVMatrixApi) (idx : Z)
    (case : splice_case) (tr : list event) :
  snd (splice_cmd_step dev api idx case tr) =
  app tr [Get (splice_cmd_request api case)].
Proof. now rewrite splice_cmd_step_run. Qed.

Lemma splice_cmd_step_rejected (dev : Device) (api : HDTVMatrixApi) (idx : Z)
    (case : splice_case) (tr : list event) (r : response) (text : string) :
  respond dev tr (splice_cmd_request api case) = Responds r ->
  resp_text r = Ok text ->
  resp_status r <> 200 ->
  fst (splice_cmd_step dev api idx case tr) =
  Raise (Exn CommandError
           ("Splice CMD failed (case " ++ str_int idx ++ "): HTTP "
            ++ str_int (resp_status r))).
Proof.
  intros Hresp Htext Hst. rewrite splice_cmd_step_run.
  unfold cmd_step_result. rewrite Hresp, Htext. cbn [fst].
  destruct (Z.eqb_spec (resp_status r) 200); [contradiction | reflexivity].
Qed.

Lemma splice_cmd_step_accepted (dev : Device) (api : HDTVMatrixApi) (idx : Z)
    (case : splice_case) (tr : list event) :
  is_ok (fst (splice_cmd_step dev api idx case tr)) = true <->
  exists r, respond dev tr (splice_cmd_request api case) = Responds r /\
            resp_status r = 200 /\ is_ok (resp_text r) = true.
Proof.
  rewrite splice_cmd_step_run. unfold cmd_step_result. cbn [fst].
  destruct (respond dev tr _) as [r|e].
  - destruct (resp_text r) as [text|e] eqn:Htext.
    + destruct (Z.eqb_spec (resp_status r) 200) as [Heq|Hne]; simpl.
      * split; [intros _; exists r; now rewrite Htext | reflexivity].
      * split; [discriminate|]. intros (r' & Hr & Hst & _). congruence.
    + split; [discriminate|]. intros (r' & Hr & _ & Hok).
      inversion Hr; subst r'. rewrite Htext in Hok. discriminate Hok.
  - split; [discriminate|]. intros (r' & Hr & _). discriminate Hr.
Qed.

Lemma splice_data_step_run (dev : Device) (api : HDTVMatrixApi) (idx : Z)
    (case : splice_case) (tr : list event) :
  splice_data_step dev api idx case tr =
  (data_step_result idx (respond dev tr (splice_data_request api case)),
   app tr [Get (splice_data_request api case)]).
Proof.
  unfold splice_data_step, try_except, bind, session_get, lift_result,
    data_step_result.
  destruct (respond dev tr _) as [r|e]; simpl; [|reflexivity].
  destruct (resp_status r =? 200)%Z; simpl; [reflexivity|].
  destruct (resp_text r) as [text|e]; reflexivity.
Qed.

Lemma splice_data_step_trace (dev : Device) (api : HDTVMatrixApi) (idx : Z)
    (case : splice_case) (tr : list event) :
  snd (splice_data_step dev api idx case tr) =
  app tr [Get (splice_data_request api case)].
Proof. now rewrite splice_data_step_run. Qed.

Lemma splice_data_step_accepted (dev : Device) (api : HDTVMatrixApi) (idx : Z)
    (case : splice_case) (tr : list event) :
  is_ok (fst (splice_data_step dev api idx case tr)) = true <->
  exists r, respond dev tr (splice_data_request api case) = Responds r /\
            resp_status r = 200.
Proof.
  rewrite splice_data_step_run. unfold data_step_result. cbn [fst].
  destruct (respond dev tr _) as [r|e].
  - destruct (Z.eqb_spec (resp_status r) 200) as [Heq|Hne]; simpl.
    + split; [intros _; eauto | reflexivity].
    + split; [destruct (resp_text r); discriminate|].
      intros (r' & Hr & Hst). congruence.
  - split; [discriminate|]. intros (r' & Hr & _). discriminate Hr.
Qed.

Lemma splice_case_body_run (dev : Device) (api : HDTVMatrixApi) (idx : Z)
    (case : splice_case) (tr : list event) :
  splice_case_body dev api (idx, case) tr =
  match splice_cmd_step dev api idx case tr with
  | (Ok _, tr1) => splice_data_step dev api idx case tr1
  | (Raise e, tr1) => (Raise e, tr1)
  end.
Proof. reflexivity. Qed.

Lemma splice_loop_step (dev : Device) (api : HDTVMatrixApi) (start : Z)
    (c : splice_case) (l : list splice_case) (tr : list event) :
  for_each (splice_case_body dev api) (enumerate start (c :: l)) tr =
  match splice_cmd_step dev api start c tr with
  | (Ok _, tr1) =>
      match splice_data_step dev api start c tr1 with
      | (Ok _, tr2) =>
          for_each (splice_case_body dev api) (enumerate (start + 1) l) tr2
      | (Raise e, tr2) => (Raise e, tr2)
      end
  | (Raise e, tr1) => (Raise e, tr1)
  end.
Proof.
  cbn [enumerate for_each]. unfold bind at 1. rewrite splice_case_body_run.
  destruct (splice_cmd_step dev api start c tr) as [[[]|e] tr1]; [|reflexivity].
  destruct (splice_data_step dev api start c tr1) as [[[]|e] tr2]; reflexivity.
Qed.

(** The loop over the cases issues a prefix of the requests of the table,
    and all of them if it completes. *)
Lemma splice_loop_shape (dev : Device) (api : HDTVMatrixApi)
    (l : list splice_case) (start : Z) (tr : list event) :
  exists n : nat,
    (n <= 2 * length l)%nat /\
    snd (for_each (splice_case_body dev api) (enumerate start l) tr) =
      app tr (map Get (firstn n (case_requests api l))) /\
    (is_ok (fst (for_each (splice_case_body dev api) (enumerate start l) tr)) = true ->
     n = (2 * length l)%nat).
Proof.
  revert start tr. induction l as [|c l IH]; intros start tr.
  - exists 0%nat. simpl. rewrite app_nil_r. repeat split; lia.
  - rewrite splice_loop_step.
    cbn [length case_requests flat_map app].
    pose proof (splice_cmd_step_trace dev api start c tr) as Hcmd.
    destruct (splice_cmd_step dev api start c tr) as [[[]|e] tr1];
      simpl in Hcmd; subst tr1.
    + pose proof (splice_data_step_trace dev api start c
                    (app tr [Get (splice_cmd_request api c)])) as Hdata.
      destruct (splice_data_step dev api start c _) as [[[]|e] tr2];
        simpl in Hdata; subst tr2.
      * destruct (IH (start + 1)
                    (app (app tr [Get (splice_cmd_request api c)])
                         [Get (splice_data_request api c)]))
          as (n & Hn & Htr & Hok).
        exists (S (S n)). split; [lia|]. split.
        -- rewrite Htr. simpl. rewrite <- !app_assoc. reflexivity.
        -- intros H. specialize (Hok H). lia.
      * exists 2%nat. split; [lia|]. split.
        -- simpl. rewrite <- app_assoc. reflexivity.
        -- discriminate.
    + exists 1%nat. split; [lia|]. split; [reflexivity | discriminate].
Qed.

Lemma case_requests_length (api : HDTVMatrixApi) (l : list splice_case) :
  length (case_requests api l) = (2 * length l)%nat.
Proof. induction l as [|c l IH]; simpl; [reflexivity | rewrite IH; lia]. Qed.

Lemma set_splice_and_video_run (dev : Device) (api : HDTVMatrixApi)
    (tr : list event) :
  set_splice_and_video dev api tr =
  match for_each (splice_case_body dev api) (enumerate 1 cases) tr with
  | (Ok _, tr') => (Ok tt, app tr' (notified api))
  | (Raise e, tr') => (Raise e, tr')
  end.
Proof.
  unfold set_splice_and_video, bind.
  destruct (for_each _ _ tr) as [[[]|e] tr']; [apply notify_change_run | reflexivity].
Qed.

Lemma gets_map_Get (l : list request) : gets (map Get l) = l.
Proof. induction l as [|r l IH]; simpl; [reflexivity | now rewrite IH]. Qed.

Lemma callbacks_map_Get (l : list request) : callbacks (map Get l) = 0%nat.
Proof. induction l as [|r l IH]; [reflexivity | exact IH]. Qed.

(** The preset, whatever the device does: a prefix of the eight requests,
    all eight and then the notification when it completes. *)
Lemma set_splice_and_video_shape (dev : Device) (api : HDTVMatrixApi)
    (tr : list event) :
  exists n : nat,
    (n <= 8)%nat /\
    snd (set_splice_and_video dev api tr) =
      app tr (app (map Get (firstn n (case_requests api cases)))
                  (if is_ok (fst (set_splice_and_video dev api tr))
                   then notified api else [])) /\
    (is_ok (fst (set_splice_and_video dev api tr)) = true -> n = 8%nat).
Proof.
  rewrite set_splice_and_video_run.
  destruct (splice_loop_shape dev api cases 1 tr) as (n & Hn & Htr & Hok).
  exists n. split; [exact Hn|].
  destruct (for_each _ _ tr) as [[[]|e] tr']; simpl in *; subst tr'.
  - split; [now rewrite <- app_assoc | exact Hok].
  - split; [now rewrite app_nil_r | discriminate].
Qed.

(** C2 (the code at the failing input).  Against a device that answers
    every call with a 200 the preset completes and has made eight calls in
    the order of the table, but not the eight of the specification.  In each
    splice-data call [x] and [y] are the strings "2", where the payload
    format and [build_payload] have the numbers 2; and the command calls go
    to [<base>//get_json_cmd.php], with a doubled slash, where every other
    call of the client goes to [<base>/<endpoint>]. *)
Theorem videowall_preset_payload_has_strings :
  let run := set_splice_and_video steady_device sample_api [] in
  fst run = Ok tt /\
  gets (snd run) =
    [ preset_cmd_request sample_api "1,1,1,2,2,1,";
      preset_data_request sample_api (PStr "2") (PStr "2") ["1"; "-1"; "-1"; "-1"];
      preset_cmd_request sample_api "2,1,2,2,2,1,";
      preset_data_request sample_api (PStr "2") (PStr "2") ["1"; "2"; "-1"; "-1"];
      preset_cmd_request sample_api "3,1,3,2,2,1,";
      preset_data_request sample_api (PStr "2") (PStr "2") ["1"; "2"; "3"; "-1"];
      preset_cmd_request sample_api "4,1,4,2,2,1,";
      preset_data_request sample_api (PStr "2") (PStr "2") ["1"; "2"; "3"; "4"] ] /\
  gets (snd run) <> spec_preset_requests sample_api /\
  map req_params (firstn 1 (skipn 1 (gets (snd run)))) =
    [ Some [("splice",
             "[{" ++ json_string "x" ++ ": " ++ json_string "2" ++ ", "
             ++ json_string "y" ++ ": " ++ json_string "2" ++ ", "
             ++ json_string "data" ++ ": [" ++ json_string "1" ++ ", "
             ++ json_string "-1" ++ ", " ++ json_string "-1" ++ ", "
             ++ json_string "-1" ++ "]}]")] ] /\
  map req_url (firstn 1 (gets (snd run))) =
    [ "http://192.168.1.100//get_json_cmd.php?cmd=splice&prm=1,1,1,2,2,1," ] /\
  req_url (api_request sample_api COMMAND None) =
    "http://192.168.1.100/get_json_cmd.php".
Proof.
  cbv zeta. split; [reflexivity|]. split; [reflexivity|].
  split; [|repeat split].
  vm_compute. intros H. discriminate H.
Qed.

(** In [set_splice_and_video], when the command call of a case answers with
    a readable body and a status other than 200 after the earlier cases
    went through, the whole sequence raises a command error that names the
    case, and that call is the last thing done.  A run that fails stops
    within the eight calls and never runs the change callback; a run that
    completes has made all eight calls and then runs the callback, once. *)
Lemma videowall_preset_fails_closed_on_readable (dev : Device)
    (api : HDTVMatrixApi) (tr : list event) :
  (forall (n : nat) (case : splice_case) (tr_n : list event) (r : response)
          (text : string),
     nth_error cases n = Some case ->
     for_each (splice_case_body dev api) (firstn n (enumerate 1 cases)) tr =
       (Ok tt, tr_n) ->
     respond dev tr_n (splice_cmd_request api case) = Responds r ->
     resp_text r = Ok text ->
     resp_status r <> 200 ->
     set_splice_and_video dev api tr =
       (Raise (Exn CommandError
                 ("Splice CMD failed (case " ++ str_int (Z.of_nat n + 1)
                  ++ "): HTTP " ++ str_int (resp_status r))),
        app tr_n [Get (splice_cmd_request api case)])) /\
  (is_ok (fst (set_splice_and_video dev api tr)) = false ->
   (exists n : nat,
      (n <= 8)%nat /\
      snd (set_splice_and_video dev api tr) =
        app tr (map Get (firstn n (case_requests api cases)))) /\
   callbacks (snd (set_splice_and_video dev api tr)) = callbacks tr) /\
  (is_ok (fst (set_splice_and_video dev api tr)) = true ->
   snd (set_splice_and_video dev api tr) =
     app tr (app (map Get (case_requests api cases)) (notified api)) /\
   forall cb, change_callback api = Some cb ->
     callbacks (snd (set_splice_and_video dev api tr)) = S (callbacks tr)).
Proof.
  split; [|split].
  - intros n case tr_n r text Hcase Hprefix Hresp Htext Hst.
    rewrite set_splice_and_video_run.
    rewrite (enumerate_nth 1 cases n case Hcase), for_each_app, Hprefix.
    pose proof (nth_error_Some cases n) as Hlen.
    destruct (skipn (S n) (enumerate 1 cases)) eqn:Hrest.
    + change (for_each (splice_case_body dev api) [(1 + Z.of_nat n, case)] tr_n)
        with (for_each (splice_case_body dev api)
                (enumerate (1 + Z.of_nat n) [case]) tr_n).
      rewrite splice_loop_step.
      pose proof (splice_cmd_step_trace dev api (1 + Z.of_nat n) case tr_n) as Htr.
      pose proof (splice_cmd_step_rejected dev api (1 + Z.of_nat n) case tr_n r
                    text Hresp Htext Hst) as Hres.
      destruct (splice_cmd_step dev api (1 + Z.of_nat n) case tr_n) as [res tr1].
      simpl in Htr, Hres. subst res tr1.
      now replace (Z.of_nat n + 1) with (1 + Z.of_nat n) by lia.
    + cbn [for_each]. unfold bind at 1. rewrite splice_case_body_run.
      pose proof (splice_cmd_step_trace dev api (1 + Z.of_nat n) case tr_n) as Htr.
      pose proof (splice_cmd_step_rejected dev api (1 + Z.of_nat n) case tr_n r
                    text Hresp Htext Hst) as Hres.
      destruct (splice_cmd_step dev api (1 + Z.of_nat n) case tr_n) as [res tr1].
      simpl in Htr, Hres. subst res tr1.
      now replace (Z.of_nat n + 1) with (1 + Z.of_nat n) by lia.
  - intros Hfail.
    destruct (set_splice_and_video_shape dev api tr) as (n & Hn & Htr & _).
    rewrite Hfail, app_nil_r in Htr. split.
    + exists n. split; [exact Hn | exact Htr].
    + rewrite Htr, callbacks_app, callbacks_map_Get. apply Nat.add_0_r.
  - intros Hok.
    destruct (set_splice_and_video_shape dev api tr) as (n & Hn & Htr & Hall).
    rewrite Hok in Htr. rewrite (Hall Hok) in Htr.
    change (firstn 8 (case_requests api cases)) with (case_requests api cases) in Htr.
    split; [exact Htr|].
    intros cb Hcb. rewrite Htr, !callbacks_app, callbacks_map_Get.
    unfold notified. rewrite Hcb. change (callbacks [Callback cb]) with 1%nat.
    now rewrite Nat.add_0_l, Nat.add_1_r.
Qed.

(** C3 (the code at the failing input).  The command call of case 2 is
    answered with HTTP 500 and a body that is not text in the charset of the
    response.  The body is read before the status is looked at, outside the
    [except] clauses that make command errors: the sequence stops after this
    third call without running the callback, but what it raises is the
    decoding error, not a command error naming case 2.  With a readable body
    the same answer does raise that command error. *)
Theorem videowall_preset_undecodable_rejection :
  let run := set_splice_and_video
               (device_with 2 (Responds (undecodable_response 500))) sample_api [] in
  fst run =
    Raise (Exn UnicodeDecodeError
             "'utf-8' codec can't decode byte 0xff in position 0: invalid start byte") /\
  gets (snd run) = firstn 3 (case_requests sample_api cases) /\
  callbacks (snd run) = 0%nat /\
  fst (set_splice_and_video
         (device_with 2 (Responds (error_response 500))) sample_api []) =
    Raise (Exn CommandError "Splice CMD failed (case 2): HTTP 500").
Proof. vm_compute. repeat split. Qed.

(** ** Transport: a 200 whose body is not JSON *)

(** A readable body that does not parse with a status below 400 is handed
    back to the caller: the response is marked as failed, nothing is
    raised. *)
Lemma execute_request_unparseable_below_400 (dev : Device) (api : HDTVMatrixApi)
    (endpoint : APIEndpoint) (ps : option (list (string * string)))
    (tr : list event) (r : response) (json_error : exn) (text : string) :
  respond dev tr (api_request api endpoint ps) = Responds r ->
  resp_json r = Raise json_error ->
  resp_text r = Ok text ->
  resp_status r < 400 ->
  fst (execute_request dev api endpoint ps tr) =
  Ok {| request_of :=
          {| url := base_url api ++ endpoint_value endpoint; method := GET;
             params := ps; headers := Some build_headers |};
        status_code := resp_status r;
        data := PStr text;
        success := false;
        error_message := Some ("JSON parse error: " ++ exn_msg json_error) |}.
Proof.
  intros Hresp Hjson Htext Hst.
  unfold execute_request, try_except, bind, session_get, lift_result.
  unfold api_request in Hresp. rewrite Hresp. simpl. rewrite Hjson, Htext. simpl.
  destruct (Z.geb_spec (resp_status r) 500); [lia|].
  destruct (Z.geb_spec (resp_status r) 400); [lia|]. reflexivity.
Qed.

(** The same body with a 4xx status does raise the invalid-response error. *)
Lemma execute_request_unparseable_4xx (dev : Device) (api : HDTVMatrixApi)
    (endpoint : APIEndpoint) (ps : option (list (string * string)))
    (tr : list event) (r : response) (json_error : exn) (text : string) :
  respond dev tr (api_request api endpoint ps) = Responds r ->
  resp_json r = Raise json_error ->
  resp_text r = Ok text ->
  400 <= resp_status r < 500 ->
  fst (execute_request dev api endpoint ps tr) =
  Raise (Exn InvalidResponseError
           ("Client error: JSON parse error: " ++ exn_msg json_error)).
Proof.
  intros Hresp Hjson Htext Hst.
  unfold execute_request, try_except, bind, session_get, lift_result.
  unfold api_request in Hresp. rewrite Hresp. simpl. rewrite Hjson, Htext. simpl.
  destruct (Z.geb_spec (resp_status r) 500); [lia|].
  destruct (Z.geb_spec (resp_status r) 400); [|lia]. reflexivity.
Qed.

(** C5 (the code at the failing input).  The device answers the status
    request with HTTP 200 and a body that is not JSON: [_execute_request]
    returns a response, [get_status] returns the body text as if it were
    the status, and the connection test passes. *)
Theorem execute_request_200_not_json_returns :
  let dev := scripted_device [Responds (error_response 200)] in
  fst (execute_request dev sample_api STATUS (Some [("id", "0")]) []) =
    Ok {| request_of :=
            {| url := "http://192.168.1.100/get_json_scene.php"; method := GET;
               params := Some [("id", "0")];
               headers := Some [("Content-Type", "application/json")] |};
          status_code := 200;
          data := PStr "<html>error</html>";
          success := false;
          error_message :=
            Some "JSON parse error: Expecting value: line 1 column 1 (char 0)" |} /\
  fst (get_status dev sample_api []) = Ok (PStr "<html>error</html>") /\
  fst (test_connection dev sample_api []) = Ok true.
Proof. vm_compute. repeat split. Qed.

(** ** The splice payload builder *)

Lemma build_payload_length_checked (num_inputs num_outputs : Z) (d : list string) :
  Z.of_nat (length d) <> num_inputs * num_outputs ->
  SplicePayloadBuilder.build_payload num_inputs num_outputs (Some d) =
  Raise (Exn ValueError
           ("Data length must be " ++ str_int (num_inputs * num_outputs)
            ++ " (num_inputs * num_outputs), got "
            ++ str_int (Z.of_nat (length d)))).
Proof.
  intros Hlen. unfold SplicePayloadBuilder.build_payload.
  destruct (Z.eqb_spec (Z.of_nat (length d)) (num_inputs * num_outputs));
    [contradiction | reflexivity].
Qed.

Lemma build_payload_of_checked (num_inputs num_outputs : Z) (d : list string) :
  Z.of_nat (length d) = num_inputs * num_outputs ->
  SplicePayloadBuilder.build_payload num_inputs num_outputs (Some d) =
  Ok (spec_splice_payload 2 2 d).
Proof.
  intros Hlen. unfold SplicePayloadBuilder.build_payload.
  destruct (Z.eqb_spec (Z.of_nat (length d)) (num_inputs * num_outputs));
    [reflexivity | contradiction].
Qed.

(** C4 (the code at the failing input).  For a 1 x 3 splice with three
    data items the builder accepts the data and returns the payload with
    [x] and [y] both 2, not the payload [[{x:1, y:3, data:data}]]. *)
Theorem build_payload_ignores_dimensions :
  SplicePayloadBuilder.build_payload 1 3 (Some ["1"; "2"; "3"]) =
    Ok (spec_splice_payload 2 2 ["1"; "2"; "3"]) /\
  SplicePayloadBuilder.build_payload 1 3 (Some ["1"; "2"; "3"]) <>
    Ok (spec_splice_payload 1 3 ["1"; "2"; "3"]).
Proof.
  split; [reflexivity|]. vm_compute. intros H. discriminate H.
Qed.

(** ** The poller *)

Import Coordinator.

Lemma async_update_data_run (dev : Device) (api : HDTVMatrixApi)
    (c : HDTVCoordinator) (tr : list event) :
  async_update_data dev api (c, tr) =
  match get_status dev api tr with
  | (Ok d, tr') =>
      let c0 := if (consecutive_failures c >? 0)%Z then set_failures 0 c else c in
      match py_get d "total_outputs" (PInt 0) with
      | Ok _ => (Ok d, (c0, tr'))
      | Raise e =>
          (Raise (Exn UpdateFailed ("Unexpected error: " ++ exn_msg e)),
           (set_failures (consecutive_failures c0 + 1) c0, tr'))
      end
  | (Raise e, tr') =>
      (Raise (Exn UpdateFailed
                (match exn_cls e with
                 | ConnectionError => "Connection error: "
                 | InvalidResponseError => "Invalid response: "
                 | _ => "Unexpected error: "
                 end ++ exn_msg e)),
       (set_failures (consecutive_failures c + 1) c, tr'))
  end.
Proof.
  unfold async_update_data, try_except, bind, lift_io, get_self, modify_self,
    lift_result.
  destruct (get_status dev api tr) as [[d|e] tr']; simpl.
  - destruct (consecutive_failures c >? 0)%Z; simpl;
      destruct d; simpl; reflexivity.
  - destruct (exn_cls e); reflexivity.
Qed.

(** X13.  A refresh in which [get_status] raises counts one more failure,
    keeps the snapshot and marks the last update as failed. *)
Lemma refresh_status_raises (dev : Device) (api : HDTVMatrixApi)
    (c : HDTVCoordinator) (tr : list event) (e : exn) :
  fst (get_status dev api tr) = Raise e ->
  let c' := fst (async_refresh dev api (c, tr)) in
  consecutive_failures c' = consecutive_failures c + 1 /\
  data c' = data c /\
  last_update_success c' = false.
Proof.
  intros Hst. unfold async_refresh. rewrite async_update_data_run.
  destruct (get_status dev api tr) as [[d|e'] tr']; [discriminate Hst|].
  simpl. repeat split.
Qed.

(** X11.  A refresh that fails, for whatever reason, keeps the snapshot: the
    poller reports itself disconnected, still serves the old data through
    [get_all_outputs], and its counter is at least 1. *)
Lemma refresh_failure_is_stale (dev : Device) (api : HDTVMatrixApi)
    (s : HDTVCoordinator * list event) :
  0 <= consecutive_failures (fst s) ->
  refresh_succeeds dev api s = false ->
  let c' := fst (async_refresh dev api s) in
  data c' = data (fst s) /\
  is_connected c' = false /\
  get_all_outputs c' = get_all_outputs (fst s) /\
  1 <= consecutive_failures c'.
Proof.
  destruct s as [c tr]. unfold refresh_succeeds, async_refresh.
  rewrite async_update_data_run. simpl. intros Hge.
  destruct (get_status dev api tr) as [[d|e] tr']; simpl.
  - destruct (py_get d "total_outputs" (PInt 0)) as [v|e]; [discriminate|].
    intros _. destruct (Z.gtb_spec (consecutive_failures c) 0); simpl;
      repeat split; lia.
  - intros _. repeat split. lia.
Qed.

(** X12.  A refresh that succeeds makes what [get_status] returned the
    snapshot, leaves the counter at zero and the poller connected. *)
Lemma refresh_success_replaces (dev : Device) (api : HDTVMatrixApi)
    (s : HDTVCoordinator * list event) :
  0 <= consecutive_failures (fst s) ->
  refresh_succeeds dev api s = true ->
  let c' := fst (async_refresh dev api s) in
  (exists d, fst (get_status dev api (snd s)) = Ok d /\ data c' = Some d) /\
  consecutive_failures c' = 0 /\
  is_connected c' = true.
Proof.
  destruct s as [c tr]. unfold refresh_succeeds, async_refresh.
  rewrite async_update_data_run. simpl.
  destruct (get_status dev api tr) as [[d|e] tr']; simpl; [|discriminate].
  destruct (py_get d "total_outputs" (PInt 0)) as [v|e]; [|discriminate].
  intros Hge _. simpl. split; [eauto|].
  destruct (Z.gtb_spec (consecutive_failures c) 0); simpl; split;
    try reflexivity; lia.
Qed.

(** C7 (the code at the failing input).  One good poll, three timeouts,
    then a status answer with HTTP 200 and a body that is not JSON.  After
    the three timeouts the counter is 3 and the poller is disconnected with
    the snapshot kept; the next refresh fails too, and leaves the counter at
    1 instead of 4. *)
Theorem failed_refresh_restarts_counter :
  let timeout_ := Fails (Exn TimeoutError "") in
  let dev := scripted_device [Responds ok_response; timeout_; timeout_; timeout_;
                              Responds (error_response 200)] in
  let s1 := refreshes dev sample_api 1 (new_coordinator, []) in
  let s4 := refreshes dev sample_api 4 (new_coordinator, []) in
  let s5 := async_refresh dev sample_api s4 in
  consecutive_failures (fst s4) = 3 /\
  is_connected (fst s4) = false /\
  get_all_outputs (fst s4) = get_all_outputs (fst s1) /\
  refresh_succeeds dev sample_api s4 = false /\
  consecutive_failures (fst s5) = 1 /\
  is_connected (fst s5) = false /\
  get_all_outputs (fst s5) = get_all_outputs (fst s1).
Proof. vm_compute. repeat split. Qed.

(** ** Decimal strings and output keys *)

Lemma string_forall_app (P : ascii -> bool) (s t : string) :
  string_forall P (s ++ t) = string_forall P s && string_forall P t.
Proof.
  induction s as [|c s IH]; [reflexivity|].
  change (string_forall P (String c (s ++ t)) =
          string_forall P (String c s) && string_forall P t).
  simpl. now rewrite IH, andb_assoc.
Qed.

Lemma string_forall_impl (P Q : ascii -> bool) (s : string) :
  (forall c, P c = true -> Q c = true) ->
  string_forall P s = true -> string_forall Q s = true.
Proof.
  intros HPQ. induction s as [|c s IH]; simpl; [reflexivity|].
  rewrite !andb_true_iff. intros [Hc Hs]. split; [now apply HPQ | now apply IH].
Qed.

Lemma uint_digits (d : Decimal.uint) :
  string_forall is_digit_or_minus (NilEmpty.string_of_uint d) = true.
Proof. induction d; simpl; try reflexivity; exact IHd. Qed.

Lemma str_int_digits (z : Z) : string_forall is_digit_or_minus (str_int z) = true.
Proof.
  unfold str_int. destruct z as [|p|p]; simpl; [reflexivity| |].
  - pose proof (uint_digits (Pos.to_uint p)) as H.
    now destruct (Pos.to_uint p).
  - pose proof (uint_digits (Pos.to_uint p)) as H.
    now destruct (Pos.to_uint p).
Qed.

Lemma is_digit_or_minus_cases (c : ascii) :
  is_digit_or_minus c = true ->
  is_int_space c = false /\ Ascii.eqb c "_" = false /\ Ascii.eqb c "+" = false.
Proof.
  destruct c as [[] [] [] [] [] [] [] []]; vm_compute; intros H;
    try discriminate H; repeat split.
Qed.

Lemma string_rev_app (s t : string) :
  string_rev (s ++ t) = string_rev t ++ string_rev s.
Proof.
  induction s as [|c s IH].
  - simpl. now rewrite string_app_nil_r.
  - change (string_rev (s ++ t) ++ String c "" =
            string_rev t ++ string_rev s ++ String c "").
    now rewrite IH, string_app_assoc.
Qed.

Lemma string_rev_involutive (s : string) : string_rev (string_rev s) = s.
Proof.
  induction s as [|c s IH]; [reflexivity|].
  simpl. rewrite string_rev_app, IH. reflexivity.
Qed.

Lemma string_forall_rev (P : ascii -> bool) (s : string) :
  string_forall P (string_rev s) = string_forall P s.
Proof.
  induction s as [|c s IH]; [reflexivity|].
  simpl. rewrite string_forall_app, IH. simpl.
  now rewrite andb_true_r, andb_comm.
Qed.

Lemma lstrip_without_space (s : string) :
  string_forall (fun c => negb (is_int_space c)) s = true -> lstrip s = s.
Proof.
  destruct s as [|c s]; simpl; [reflexivity|].
  rewrite andb_true_iff, negb_true_iff. intros [-> _]. reflexivity.
Qed.

Lemma strip_without_space (s : string) :
  string_forall (fun c => negb (is_int_space c)) s = true -> strip s = s.
Proof.
  intros H. unfold strip. rewrite (lstrip_without_space s H).
  rewrite lstrip_without_space by now rewrite string_forall_rev.
  apply string_rev_involutive.
Qed.

Lemma split_without_sep (sep : ascii) (s : string) :
  string_forall (fun c => negb (Ascii.eqb c sep)) s = true -> split sep s = [s].
Proof.
  induction s as [|c s IH]; simpl; [reflexivity|].
  rewrite andb_true_iff, negb_true_iff. intros [-> Hs].
  now rewrite (IH Hs).
Qed.

Lemma to_int_not_nil (z : Z) :
  Z.to_int z <> Decimal.Pos Decimal.Nil /\ Z.to_int z <> Decimal.Neg Decimal.Nil.
Proof.
  destruct z as [|p|p]; simpl; split; try discriminate;
    intros H; inversion H as [Hnil];
    exact (DecimalPos.Unsigned.to_uint_nonnil p Hnil).
Qed.

(** [int(str(z)) = z] *)
Lemma py_int_str_int (z : Z) : py_int (str_int z) = Ok z.
Proof.
  pose proof (str_int_digits z) as Hdig.
  unfold py_int.
  rewrite strip_without_space.
  2:{ apply (string_forall_impl _ _ _ (fun c H =>
        proj2 (negb_true_iff _) (proj1 (is_digit_or_minus_cases c H))) Hdig). }
  assert (Hparse : NilZero.int_of_string (str_int z) = Some (Z.to_int z)).
  { unfold str_int. destruct (to_int_not_nil z) as [Hp Hn].
    now apply NilZero.isi. }
  destruct (str_int z) as [|c r] eqn:Hs; [discriminate Hparse|].
  simpl in Hdig. apply andb_true_iff in Hdig. destruct Hdig as [Hc _].
  destruct (is_digit_or_minus_cases c Hc) as (_ & _ & Hplus).
  rewrite Hplus, Hparse. now rewrite DecimalZ.of_to.
Qed.

Lemma str_int_inj (a b : Z) : str_int a = str_int b -> a = b.
Proof.
  intros H. pose proof (py_int_str_int a) as Ha. rewrite H, py_int_str_int in Ha.
  now inversion Ha.
Qed.

Lemma output_key_inj (a b : Z) :
  "output_" ++ str_int a = "output_" ++ str_int b -> a = b.
Proof. intros H. apply str_int_inj. now inversion H. Qed.

Lemma split_output_key (z : Z) :
  split "_" ("output_" ++ str_int z) = ["output"; str_int z].
Proof.
  change ("output_" ++ str_int z)
    with (String "o" (String "u" (String "t" (String "p" (String "u"
           (String "t" (String "_" (str_int z)))))))).
  cbn [split Ascii.eqb Bool.eqb].
  rewrite split_without_sep; [reflexivity|].
  apply (string_forall_impl _ _ _ (fun c H =>
    proj2 (negb_true_iff _) (proj1 (proj2 (is_digit_or_minus_cases c H))))
    (str_int_digits z)).
Qed.

(** ** The legacy dictionary of a parsed state *)

Lemma to_dict_loop_appends (items : list (Z * MatrixOutput))
    (acc : list (string * pyval)) :
  List.NoDup (map fst items) ->
  (forall k, In k (map fst items) ->
             ~ In ("output_" ++ str_int k) (dict_keys acc)) ->
  foldl to_dict_entry acc items = app acc (map dict_item items).
Proof.
  revert acc. induction items as [|[num o] items IH]; intros acc Hnd Hfresh.
  - simpl. now rewrite app_nil_r.
  - simpl in Hnd. inversion Hnd as [|? ? Hnotin Hnd']; subst.
    cbn [foldl]. unfold to_dict_entry at 2.
    rewrite dict_set_fresh by (apply Hfresh; now left).
    rewrite IH.
    + rewrite <- app_assoc. reflexivity.
    + exact Hnd'.
    + intros k Hk. unfold dict_keys. rewrite map_app, in_app_iff.
      intros [Hin|[Heq|[]]].
      * apply (Hfresh k); [now right | exact Hin].
      * simpl in Heq. apply output_key_inj in Heq. subst k.
        exact (Hnotin Hk).
Qed.

Lemma parsed_keys_NoDup (A : list Z) (start : Z) :
  List.NoDup (map fst (map parsed_item (enumerate start A))).
Proof.
  rewrite map_map.
  replace (map (fun x : Z * Z => fst (parsed_item x)) (enumerate start A))
    with (map (fun i => start + 1 + Z.of_nat i) (seq 0 (length A))).
  - apply Injective_map_NoDup; [|apply List.seq_NoDup].
    intros i j Hij. lia.
  - transitivity (map (fun i => i + 1) (map fst (enumerate start A))).
    + rewrite enumerate_keys_from, map_map. apply map_ext. intros i. lia.
    + rewrite map_map. reflexivity.
Qed.

Lemma to_dict_of_parsed (A : list Z) (now : Z) :
  to_dict (StateParser.parse_status_array A now) =
  PDict [("matrix", PDict (map dict_item (map parsed_item (enumerate 0 A))));
         ("total_outputs", PInt (Z.of_nat (length A)));
         ("timestamp", PInt now)].
Proof.
  unfold to_dict.
  unfold total_outputs.
  rewrite parsed_outputs, length_map, enumerate_length, to_dict_loop_appends.
  - reflexivity.
  - apply parsed_keys_NoDup.
  - intros k _ [].
Qed.

Lemma dict_get_absent_output (items : list (Z * MatrixOutput)) (n : Z) :
  ~ In n (map fst items) ->
  dict_get ("output_" ++ str_int n) (map dict_item items) = None.
Proof.
  intros Hn. apply dict_get_None_keys. unfold dict_keys. rewrite map_map.
  intros Hin. apply in_map_iff in Hin. destruct Hin as ([k o] & Heq & Hin).
  simpl in Heq. apply output_key_inj in Heq. subst k.
  apply Hn. apply in_map_iff. now exists (n, o).
Qed.

Lemma connected_loop_of_items (items : list (Z * MatrixOutput)) (acc : list Z) :
  exists l, connected_loop (map dict_item items) acc = Ok l.
Proof.
  revert acc. induction items as [|[num o] items IH]; intros acc.
  - exists acc. reflexivity.
  - cbn [map connected_loop dict_item fst snd].
    unfold py_get at 1. cbn [dict_get].
    destruct (decide ("input" = "input")) as [_|Hne]; [|now contradiction Hne].
    destruct (input_number o) as [inp|]; cbn [opt_int].
    + rewrite split_output_key. cbn [py_index nth_error].
      rewrite py_int_str_int. apply IH.
    + apply IH.
Qed.

(** ** The read accessors of the poller *)

Lemma in_range (a b n : Z) : In n (range a b) <-> a <= n < b.
Proof.
  unfold range. rewrite in_map_iff. split.
  - intros (i & <- & Hi). apply in_seq in Hi. lia.
  - intros Hn. exists (Z.to_nat (n - a)). split; [lia|].
    apply in_seq. lia.
Qed.

Lemma dict_get_first {V} (k : string) (v : V) (r : list (string * V)) :
  dict_get k ((k, v) :: r) = Some v.
Proof. simpl. destruct (decide (k = k)); [reflexivity | contradiction]. Qed.

Lemma py_get_first (k : string) (v default : pyval) (r : list (string * pyval)) :
  py_get (PDict ((k, v) :: r)) k default = Ok v.
Proof. unfold py_get. now rewrite dict_get_first. Qed.

(** A snapshot that a refresh stores has passed [data.get]: it is a
    mapping. *)
Lemma refreshes_data_shape (dev : Device) (api : HDTVMatrixApi) (k : nat)
    (s : HDTVCoordinator * list event) :
  (data (fst s) = None \/ exists d, data (fst s) = Some (PDict d)) ->
  data (fst (refreshes dev api k s)) = None \/
  exists d, data (fst (refreshes dev api k s)) = Some (PDict d).
Proof.
  revert s. induction k as [|k IH]; intros s Hs; [exact Hs|].
  cbn [refreshes]. apply IH. destruct s as [c tr]. cbn [fst] in Hs.
  unfold async_refresh. rewrite async_update_data_run.
  destruct (get_status dev api tr) as [[d|e] tr']; cbn [fst].
  - cbv zeta. destruct (py_get d "total_outputs" (PInt 0)) as [v|e] eqn:Hget.
    + destruct d; try discriminate Hget. cbn [fst data]. right. eauto.
    + cbn [fst data set_failures].
      destruct (consecutive_failures c >? 0)%Z; exact Hs.
  - exact Hs.
Qed.

Lemma connected_loop_of_entries (m : list (string * pyval)) (acc : list Z) :
  Forall output_entry m -> exists l, connected_loop m acc = Ok l.
Proof.
  intros Hm. revert acc. induction Hm as [|item m (k & e & ->) _ IH]; intros acc.
  - exists acc. reflexivity.
  - cbn [connected_loop py_get].
    destruct (match dict_get "input" e with Some v => v | None => PNone end);
      try apply IH;
      rewrite split_output_key; cbn [py_index nth_error];
      rewrite py_int_str_int; apply IH.
Qed.

(** C10 (amended).  Without a snapshot the three accessors return an empty
    mapping, an empty mapping and an empty list.  On a snapshot built from
    a status array none of them raises, and [get_output_state(n)] is the
    empty mapping for every [n] outside 1..N.  On any snapshot whose
    "matrix" entry is a mapping, [get_output_state(n)] is the empty mapping
    when that mapping has no entry for output [n].  In every state that the
    poller reaches by refreshes, [get_all_outputs()] never raises; without a
    "matrix" entry in the snapshot the three accessors return the empty
    mapping, the empty mapping and the empty list; and when the "matrix"
    entry is a mapping, [get_output_state(n)] never raises, and
    [get_connected_outputs()] does not raise if every entry of it is a
    mapping under a key [output_<number>]. *)
Theorem poller_accessors_total :
  (forall (c : HDTVCoordinator) (n : Z),
     data c = None ->
     get_output_state c n = Ok (PDict []) /\
     get_all_outputs c = Ok (PDict []) /\
     get_connected_outputs c = Ok []) /\
  (forall (c : HDTVCoordinator) (A : list Z) (now n : Z),
     data c = Some (to_dict (StateParser.parse_status_array A now)) ->
     (exists v, get_output_state c n = Ok v) /\
     (exists v, get_all_outputs c = Ok v) /\
     (exists l, get_connected_outputs c = Ok l) /\
     (~ 1 <= n <= Z.of_nat (length A) -> get_output_state c n = Ok (PDict []))) /\
  (forall (c : HDTVCoordinator) (d m : list (string * pyval)) (n : Z),
     data c = Some (PDict d) ->
     dict_get "matrix" d = Some (PDict m) ->
     dict_get ("output_" ++ str_int n) m = None ->
     get_output_state c n = Ok (PDict [])) /\
  (forall (dev : Device) (api : HDTVMatrixApi) (k : nat) (tr : list event) (n : Z),
     let c := fst (refreshes dev api k (new_coordinator, tr)) in
     (exists v, get_all_outputs c = Ok v) /\
     (matrix_entry c = None ->
      get_output_state c n = Ok (PDict []) /\
      get_all_outputs c = Ok (PDict []) /\
      get_connected_outputs c = Ok []) /\
     (forall m, matrix_entry c = Some (PDict m) ->
        (exists v, get_output_state c n = Ok v) /\
        (Forall output_entry m -> exists l, get_connected_outputs c = Ok l))).
Proof.
  split; [|split; [|split]].
  - intros c n Hdata.
    unfold get_output_state, get_all_outputs, get_connected_outputs, no_data.
    rewrite Hdata. repeat split.
  - intros c A now n Hdata. rewrite to_dict_of_parsed in Hdata.
    unfold get_output_state, get_all_outputs, get_connected_outputs, no_data,
      the_data.
    rewrite Hdata. cbn [truthy negb]. rewrite !py_get_first. cbn [py_get py_items].
    split; [eauto|]. split; [eauto|]. split.
    + destruct (connected_loop_of_items (map parsed_item (enumerate 0 A)) [])
        as (l & Hl).
      rewrite Hl. eauto.
    + intros Hn. rewrite dict_get_absent_output; [reflexivity|].
      intros Hin.
      rewrite parsed_keys in Hin.
      apply in_range in Hin. lia.
  - intros c d m n Hdata Hmatrix Habsent.
    unfold get_output_state, no_data, the_data. rewrite Hdata.
    destruct d as [|item d]; [discriminate Hmatrix|].
    cbn [truthy negb py_get]. rewrite Hmatrix. cbn [py_get].
    now rewrite Habsent.
  - intros dev api k tr n c.
    destruct (refreshes_data_shape dev api k (new_coordinator, tr)
                (or_introl eq_refl)) as [Hdata|[d Hdata]]; fold c in Hdata.
    + unfold matrix_entry, get_output_state, get_all_outputs,
        get_connected_outputs, no_data.
      rewrite Hdata. split; [eauto|]. split; [repeat split | discriminate].
    + unfold matrix_entry, get_output_state, get_all_outputs,
        get_connected_outputs, no_data, the_data.
      rewrite Hdata. destruct d as [|item d].
      * cbn [truthy negb dict_get]. split; [eauto|].
        split; [repeat split | discriminate].
      * cbn [truthy negb py_get]. split; [eauto|]. split.
        -- intros ->. repeat split.
        -- intros m ->. cbn [py_get py_items]. split; [eauto|].
           intros Hm. destruct (connected_loop_of_entries m [] Hm) as (l & Hl).
           rewrite Hl. eauto.
Qed.

Lemma poller_accessors_total_witness :
  (get_output_state new_coordinator 1 = Ok (PDict []) /\
   get_all_outputs new_coordinator = Ok (PDict []) /\
   get_connected_outputs new_coordinator = Ok []) /\
  (exists l,
     get_connected_outputs
       (fst (async_refresh steady_device sample_api (new_coordinator, []))) = Ok l) /\
  get_output_state
    (fst (async_refresh steady_device sample_api (new_coordinator, []))) 4 =
    Ok (PDict []) /\
  get_output_state
    (fst (async_refresh (scripted_device
                           [Responds (json_response (PDict [("matrix", PDict [])]))])
            sample_api (new_coordinator, []))) 1 = Ok (PDict []) /\
  (get_output_state
     (fst (refreshes (scripted_device
                        [Responds (json_response (PDict [("total_outputs", PInt 0)]))])
             sample_api 1 (new_coordinator, []))) 1 = Ok (PDict []) /\
   get_all_outputs
     (fst (refreshes (scripted_device
                        [Responds (json_response (PDict [("total_outputs", PInt 0)]))])
             sample_api 1 (new_coordinator, []))) = Ok (PDict []) /\
   get_connected_outputs
     (fst (refreshes (scripted_device
                        [Responds (json_response (PDict [("total_outputs", PInt 0)]))])
             sample_api 1 (new_coordinator, []))) = Ok []) /\
  (exists l,
     get_connected_outputs
       (fst (refreshes
               (scripted_device
                  [Responds (json_response
                     (PDict [("matrix",
                              PDict [("output_" ++ str_int 7,
                                      PDict [("input", PInt 2)])])]))])
               sample_api 1 (new_coordinator, []))) = Ok l).
Proof.
  split; [|split; [|split; [|split; [|split]]]].
  - apply (proj1 poller_accessors_total new_coordinator 1). reflexivity.
  - apply (proj1 (proj2 poller_accessors_total)
             (fst (async_refresh steady_device sample_api (new_coordinator, [])))
             [0; 65535; 2] 0 1).
    reflexivity.
  - apply (proj1 (proj2 poller_accessors_total)
             (fst (async_refresh steady_device sample_api (new_coordinator, [])))
             [0; 65535; 2] 0 4).
    + reflexivity.
    + simpl. lia.
  - apply (proj1 (proj2 (proj2 poller_accessors_total))
             (fst (async_refresh (scripted_device
                     [Responds (json_response (PDict [("matrix", PDict [])]))])
                     sample_api (new_coordinator, [])))
             [("matrix", PDict [])] [] 1); reflexivity.
  - apply (proj1 (proj2 (proj2 (proj2 (proj2 poller_accessors_total))
             (scripted_device
                [Responds (json_response (PDict [("total_outputs", PInt 0)]))])
             sample_api 1%nat [] 1))).
    reflexivity.
  - apply (proj2 (proj2 (proj2 (proj2 (proj2 poller_accessors_total))
             (scripted_device
                [Responds (json_response
                   (PDict [("matrix",
                            PDict [("output_" ++ str_int 7,
                                    PDict [("input", PInt 2)])])]))])
             sample_api 1%nat [] 1))
             [("output_" ++ str_int 7, PDict [("input", PInt 2)])]).
    + reflexivity.
    + constructor; [|constructor]. exists 7, [("input", PInt 2)]. reflexivity.
Defined.

(** C10 as stated fails: a device answers the status request with the JSON
    object [{"matrix": []}], [get_status] passes the object through, the
    refresh succeeds and it becomes the snapshot.  Output 1 is not in it,
    and [get_output_state(1)] raises; so does [get_connected_outputs()]. *)
Lemma poller_accessor_raises_on_object_snapshot :
  let dev := scripted_device
               [Responds (json_response (PDict [("matrix", PList [])]))] in
  let c := fst (async_refresh dev sample_api (new_coordinator, [])) in
  data c = Some (PDict [("matrix", PList [])]) /\
  is_connected c = true /\
  get_output_state c 1 =
    Raise (Exn AttributeError "'list' object has no attribute 'get'") /\
  get_connected_outputs c =
    Raise (Exn AttributeError "'list' object has no attribute 'items'").
Proof. vm_compute. repeat split. Qed.

(* ===================================================================== *)
(** * Further properties of the client                                    *)
(* ===================================================================== *)

(** ** The base URL *)




(** ** Classification of a request *)

Lemma execute_request_cases (dev : Device) (api : HDTVMatrixApi)
    (endpoint : APIEndpoint) (ps : option (list (string * string)))
    (tr : list event) :
  fst (execute_request dev api endpoint ps tr) =
  let request :=
    {| url := base_url api ++ endpoint_value endpoint; method := GET;
       params := ps; headers := Some build_headers |} in
  let handled (e : exn) :=
    match exn_cls e with
    | TimeoutError =>
        Exn ConnectionError
          ("Request timeout after " ++ str_int (timeout api) ++ "s")
    | ClientError => Exn ConnectionError ("Connection error: " ++ exn_msg e)
    | _ => e
    end in
  match respond dev tr (api_request api endpoint ps) with
  | Responds r =>
      match resp_json r with
      | Ok d =>
          let error_msg := "HTTP " ++ str_int (resp_status r) in
          if (resp_status r =? 200)%Z then
            Ok {| request_of := request; status_code := resp_status r;
                  response_data := d; success := true; error_message := None |}
          else if (resp_status r >=? 500)%Z then
            Raise (Exn ConnectionError ("Server error: " ++ error_msg))
          else if (resp_status r >=? 400)%Z then
            Raise (Exn InvalidResponseError ("Client error: " ++ error_msg))
          else
            Ok {| request_of := request; status_code := resp_status r;
                  response_data := d; success := false;
                  error_message := Some error_msg |}
      | Raise je =>
          let error_msg := "JSON parse error: " ++ exn_msg je in
          match resp_text r with
          | Ok text =>
              if (resp_status r >=? 500)%Z then
                Raise (Exn ConnectionError ("Server error: " ++ error_msg))
              else if (resp_status r >=? 400)%Z then
                Raise (Exn InvalidResponseError ("Client error: " ++ error_msg))
              else
                Ok {| request_of := request; status_code := resp_status r;
                      response_data := PStr text; success := false;
                      error_message := Some error_msg |}
          | Raise e => Raise (handled e)
          end
      end
  | Fails e => Raise (handled e)
  end.
Proof.
  unfold execute_request, try_except, bind, session_get, api_request, lift_result.
  destruct (respond dev tr _) as [r|e]; simpl.
  - destruct (resp_json r) as [d|je]; simpl.
    + destruct (resp_status r =? 200)%Z; simpl; [reflexivity|].
      destruct (resp_status r >=? 500)%Z; simpl; [reflexivity|].
      destruct (resp_status r >=? 400)%Z; reflexivity.
    + destruct (resp_text r) as [text|e]; simpl.
      * destruct (resp_status r >=? 500)%Z; simpl; [reflexivity|].
        destruct (resp_status r >=? 400)%Z; reflexivity.
      * destruct (exn_cls e); reflexivity.
  - destruct (exn_cls e); reflexivity.
Qed.

(** X2.  [_execute_request] returns exactly when the device answers with a
    status below 400 and a body that parses as JSON or, failing that, reads
    as text; the response it returns is marked as a success exactly when
    the status is 200 and the body parsed.  With such a body a status of 500
    or more raises the connection error and a status from 400 to 499 the
    invalid-response error; a timeout or a client error of the session
    raises the connection error.  When the body neither parses nor reads as
    text, the decoding error of [resp.text()] leaves the method as it is,
    whatever the status. *)
Theorem execute_request_classification (dev : Device) (api : HDTVMatrixApi)
    (endpoint : APIEndpoint) (ps : option (list (string * string)))
    (tr : list event) :
  let res := fst (execute_request dev api endpoint ps tr) in
  let answer := respond dev tr (api_request api endpoint ps) in
  let readable r := (is_ok (resp_json r) || is_ok (resp_text r))%bool in
  (is_ok res = true <->
   exists r, answer = Responds r /\ resp_status r < 400 /\ readable r = true) /\
  (forall r resp, answer = Responds r -> res = Ok resp ->
     status_code resp = resp_status r /\
     success resp = (is_ok (resp_json r) && (resp_status r =? 200)%Z)%bool) /\
  (forall r, answer = Responds r -> readable r = true -> 500 <= resp_status r ->
     exists msg, res = Raise (Exn ConnectionError msg)) /\
  (forall r, answer = Responds r -> readable r = true ->
     400 <= resp_status r < 500 ->
     exists msg, res = Raise (Exn InvalidResponseError msg)) /\
  (forall r je e, answer = Responds r ->
     resp_json r = Raise je -> resp_text r = Raise e ->
     exn_cls e = UnicodeDecodeError ->
     res = Raise e) /\
  (forall e, answer = Fails e ->
     exn_cls e = TimeoutError \/ exn_cls e = ClientError ->
     exists msg, res = Raise (Exn ConnectionError msg)).
Proof.
  intros res answer readable. unfold res, readable.
  rewrite execute_request_cases. cbv zeta. fold answer.
  split; [|split; [|split; [|split; [|split]]]].
  - destruct answer as [r|e].
    + split.
      * intros Hok. exists r. split; [reflexivity|].
        destruct (resp_json r) as [d|je]; cbn [is_ok orb].
        -- split; [|reflexivity].
           destruct (Z.eqb_spec (resp_status r) 200); [lia|].
           destruct (Z.geb_spec (resp_status r) 500); [discriminate Hok|].
           destruct (Z.geb_spec (resp_status r) 400); [discriminate Hok | lia].
        -- destruct (resp_text r) as [text|e]; [|discriminate Hok].
           split; [|reflexivity].
           destruct (Z.geb_spec (resp_status r) 500); [discriminate Hok|].
           destruct (Z.geb_spec (resp_status r) 400); [discriminate Hok | lia].
      * intros (r' & Hr & Hst & Hread). inversion Hr; subst r'.
        destruct (resp_json r) as [d|je].
        -- destruct (resp_status r =? 200)%Z; [reflexivity|].
           destruct (Z.geb_spec (resp_status r) 500); [lia|].
           destruct (Z.geb_spec (resp_status r) 400); [lia | reflexivity].
        -- destruct (resp_text r) as [text|e]; [|discriminate Hread].
           destruct (Z.geb_spec (resp_status r) 500); [lia|].
           destruct (Z.geb_spec (resp_status r) 400); [lia | reflexivity].
    + split; [discriminate|]. intros (r & Hr & _). discriminate Hr.
  - intros r resp Hans. rewrite Hans.
    destruct (resp_json r) as [d|je]; cbn [is_ok andb].
    + destruct (resp_status r =? 200)%Z.
      * intros Hres. inversion Hres; subst resp. now split.
      * destruct (resp_status r >=? 500)%Z; [discriminate|].
        destruct (resp_status r >=? 400)%Z; [discriminate|].
        intros Hres. inversion Hres; subst resp. now split.
    + destruct (resp_text r) as [text|e]; [|discriminate].
      destruct (resp_status r >=? 500)%Z; [discriminate|].
      destruct (resp_status r >=? 400)%Z; [discriminate|].
      intros Hres. inversion Hres; subst resp. now split.
  - intros r Hans Hread Hst. rewrite Hans.
    destruct (resp_json r) as [d|je].
    + destruct (Z.eqb_spec (resp_status r) 200); [lia|].
      destruct (Z.geb_spec (resp_status r) 500); [eauto | lia].
    + destruct (resp_text r) as [text|e]; [|discriminate Hread].
      destruct (Z.geb_spec (resp_status r) 500); [eauto | lia].
  - intros r Hans Hread Hst. rewrite Hans.
    destruct (resp_json r) as [d|je].
    + destruct (Z.eqb_spec (resp_status r) 200); [lia|].
      destruct (Z.geb_spec (resp_status r) 500); [lia|].
      destruct (Z.geb_spec (resp_status r) 400); [eauto | lia].
    + destruct (resp_text r) as [text|e]; [|discriminate Hread].
      destruct (Z.geb_spec (resp_status r) 500); [lia|].
      destruct (Z.geb_spec (resp_status r) 400); [eauto | lia].
  - intros r je e Hans Hjson Htext Hcls. rewrite Hans, Hjson, Htext, Hcls.
    reflexivity.
  - intros e Hans Hcls. rewrite Hans.
    destruct Hcls as [-> | ->]; eauto.
Qed.

Lemma execute_request_classification_witness :
  is_ok (fst (execute_request steady_device sample_api STATUS None [])) = true /\
  (exists msg,
     fst (execute_request (scripted_device [Responds (error_response 503)])
            sample_api STATUS None []) = Raise (Exn ConnectionError msg)) /\
  (exists msg,
     fst (execute_request (scripted_device [Responds (error_response 404)])
            sample_api STATUS None []) = Raise (Exn InvalidResponseError msg)) /\
  fst (execute_request (scripted_device [Responds (undecodable_response 404)])
         sample_api STATUS None []) =
    Raise (Exn UnicodeDecodeError
             "'utf-8' codec can't decode byte 0xff in position 0: invalid start byte") /\
  (exists msg,
     fst (execute_request (scripted_device [Fails (Exn TimeoutError "")])
            sample_api STATUS None []) = Raise (Exn ConnectionError msg)).
Proof.
  split; [|split; [|split; [|split]]].
  - apply (proj1 (execute_request_classification steady_device sample_api
                    STATUS None [])).
    exists ok_response. split; [reflexivity|]. split; [simpl; lia | reflexivity].
  - apply (proj1 (proj2 (proj2 (execute_request_classification
             (scripted_device [Responds (error_response 503)]) sample_api
             STATUS None []))) (error_response 503)).
    + reflexivity.
    + reflexivity.
    + simpl. lia.
  - apply (proj1 (proj2 (proj2 (proj2 (execute_request_classification
             (scripted_device [Responds (error_response 404)]) sample_api
             STATUS None [])))) (error_response 404)).
    + reflexivity.
    + reflexivity.
    + simpl. lia.
  - apply (proj1 (proj2 (proj2 (proj2 (proj2 (execute_request_classification
             (scripted_device [Responds (undecodable_response 404)]) sample_api
             STATUS None []))))) (undecodable_response 404)
             (Exn UnicodeDecodeError
                "'utf-8' codec can't decode byte 0xff in position 0: invalid start byte")).
    + reflexivity.
    + reflexivity.
    + reflexivity.
    + reflexivity.
  - apply (proj2 (proj2 (proj2 (proj2 (proj2 (execute_request_classification
             (scripted_device [Fails (Exn TimeoutError "")]) sample_api
             STATUS None []))))) (Exn TimeoutError "")).
    + reflexivity.
    + left. reflexivity.
Defined.

(** ** Reading the status, typed and untyped *)

(** X3.  [get_status] and [get_status_typed] issue the same request and
    agree on an array response: when the typed one returns a state, the
    untyped one returns its dictionary.  What [get_status] passes through
    unchanged, [get_status_typed] rejects with the invalid-response
    error. *)
Theorem get_status_agrees_with_typed (dev : Device) (api : HDTVMatrixApi)
    (tr : list event) :
  snd (get_status_typed dev api tr) = snd (get_status dev api tr) /\
  (forall st, fst (get_status_typed dev api tr) = Ok st ->
     fst (get_status dev api tr) = Ok (to_dict st)) /\
  (forall v, fst (get_status dev api tr) = Ok v ->
     (exists st, fst (get_status_typed dev api tr) = Ok st /\ v = to_dict st) \/
     fst (get_status_typed dev api tr) =
       Raise (Exn InvalidResponseError
                ("Expected array response, got <class '" ++ type_name v ++ "'>"))) /\
  (forall e, fst (get_status dev api tr) = Raise e ->
     fst (get_status_typed dev api tr) = Raise e).
Proof.
  unfold get_status, get_status_typed, bind.
  destruct (execute_request dev api STATUS (Some [("id", "0")]) tr)
    as [[resp|e] tr1]; simpl.
  2:{ repeat split; try discriminate. intros e' He. now inversion He. }
  destruct (response_data resp) as [| b | z | s | l | d]; simpl;
    try (repeat split; try discriminate;
         intros v Hv; inversion Hv; subst v; right; reflexivity).
  unfold lift_result, time_time, ret.
  destruct (status_ints l) as [zs|e]; simpl.
  - repeat split; try discriminate.
    + intros st Hst. inversion Hst; subst st. reflexivity.
    + intros v Hv. inversion Hv; subst v. left. eauto.
  - repeat split; try discriminate. intros e' He. now inversion He.
Qed.

Lemma get_status_agrees_with_typed_witness :
  fst (get_status steady_device sample_api []) =
    Ok (to_dict (StateParser.parse_status_array [0; 65535; 2] 0)) /\
  fst (get_status_typed
         (scripted_device [Responds (json_response (PDict [("matrix", PList [])]))])
         sample_api []) =
    Raise (Exn InvalidResponseError
             ("Expected array response, got <class '"
              ++ type_name (PDict [("matrix", PList [])]) ++ "'>")) /\
  fst (get_status_typed (scripted_device [Fails (Exn TimeoutError "")])
         sample_api []) =
    Raise (Exn ConnectionError "Request timeout after 10s").
Proof.
  split; [|split].
  - apply (proj1 (proj2 (get_status_agrees_with_typed steady_device sample_api []))).
    reflexivity.
  - destruct (proj1 (proj2 (proj2 (get_status_agrees_with_typed
               (scripted_device
                  [Responds (json_response (PDict [("matrix", PList [])]))])
               sample_api [])))
               (PDict [("matrix", PList [])]) eq_refl) as [(st & Hst & Hv)|H].
    + vm_compute in Hst. discriminate Hst.
    + exact H.
  - apply (proj2 (proj2 (proj2 (get_status_agrees_with_typed
             (scripted_device [Fails (Exn TimeoutError "")]) sample_api [])))).
    reflexivity.
Defined.

(** ** One route *)

Lemma set_route_cases (dev : Device) (api : HDTVMatrixApi) (i o : Z)
    (tr : list event) :
  fst (set_route dev api i o tr) =
  match fst (execute_request dev api COMMAND (Some (route_params i o)) tr) with
  | Ok resp => Ok (response_data resp)
  | Raise e =>
      Raise (match exn_cls e with
             | ConnectionError | InvalidResponseError =>
                 Exn CommandError ("Failed to set route: " ++ exn_msg e)
             | _ => e
             end)
  end.
Proof.
  unfold set_route, try_except, bind. fold (route_params i o).
  destruct (execute_request dev api COMMAND _ tr) as [[resp|e] tr']; simpl.
  - now rewrite notify_change_run.
  - destruct (exn_cls e); reflexivity.
Qed.

(** X4.  [set_route] returns exactly when the device answers with a status
    below 400 and a body that parses as JSON or reads as text, and it runs
    the registered callback then, once, and never otherwise.  The connection
    and invalid-response errors of the request never leave it: with such a
    body a status of 400 or more raises the command error, and so do a
    timeout and a client error of the session.  When the body neither parses
    nor reads as text, the decoding error leaves [set_route] as it is. *)
Theorem set_route_outcomes (dev : Device) (api : HDTVMatrixApi) (i o : Z)
    (tr : list event) :
  let run := set_route dev api i o tr in
  let answer :=
    respond dev tr (api_request api COMMAND (Some (route_params i o))) in
  let readable r := (is_ok (resp_json r) || is_ok (resp_text r))%bool in
  (is_ok (fst run) = true <->
   exists r, answer = Responds r /\ resp_status r < 400 /\ readable r = true) /\
  callbacks (snd run) =
    (callbacks tr +
     match change_callback api with
     | Some _ => if is_ok (fst run) then 1 else 0
     | None => 0
     end)%nat /\
  (forall e, fst run = Raise e ->
     exn_cls e <> ConnectionError /\ exn_cls e <> InvalidResponseError) /\
  (forall r, answer = Responds r -> readable r = true -> 400 <= resp_status r ->
     exists msg, fst run = Raise (Exn CommandError ("Failed to set route: " ++ msg))) /\
  (forall r je e, answer = Responds r ->
     resp_json r = Raise je -> resp_text r = Raise e ->
     exn_cls e = UnicodeDecodeError ->
     fst run = Raise e) /\
  (forall e, answer = Fails e ->
     exn_cls e = TimeoutError \/ exn_cls e = ClientError ->
     exists msg, fst run = Raise (Exn CommandError ("Failed to set route: " ++ msg))).
Proof.
  intros run answer readable. unfold run, readable.
  pose proof (execute_request_cases dev api COMMAND (Some (route_params i o)) tr)
    as Hreq.
  cbv zeta in Hreq. fold answer in Hreq.
  split; [|split; [|split; [|split; [|split]]]].
  - rewrite set_route_cases, Hreq. destruct answer as [r|e].
    + split.
      * intros Hok. exists r. split; [reflexivity|].
        destruct (resp_json r) as [d|je]; cbn [is_ok orb].
        -- split; [|reflexivity].
           destruct (Z.eqb_spec (resp_status r) 200); [lia|].
           destruct (Z.geb_spec (resp_status r) 500); [discriminate Hok|].
           destruct (Z.geb_spec (resp_status r) 400); [discriminate Hok | lia].
        -- destruct (resp_text r) as [text|e].
           ++ split; [|reflexivity].
              destruct (Z.geb_spec (resp_status r) 500); [discriminate Hok|].
              destruct (Z.geb_spec (resp_status r) 400); [discriminate Hok | lia].
           ++ exfalso. destruct (exn_cls e); discriminate Hok.
      * intros (r' & Hr & Hst & Hread). inversion Hr; subst r'.
        destruct (resp_json r) as [d|je].
        -- destruct (resp_status r =? 200)%Z; [reflexivity|].
           destruct (Z.geb_spec (resp_status r) 500); [lia|].
           destruct (Z.geb_spec (resp_status r) 400); [lia | reflexivity].
        -- destruct (resp_text r) as [text|e]; [|discriminate Hread].
           destruct (Z.geb_spec (resp_status r) 500); [lia|].
           destruct (Z.geb_spec (resp_status r) 400); [lia | reflexivity].
    + split; [destruct (exn_cls e); discriminate|].
      intros (r & Hr & _). discriminate Hr.
  - rewrite set_route_trace, callbacks_app. f_equal.
    unfold notified.
    destruct (is_ok (fst (set_route dev api i o tr))), (change_callback api);
      reflexivity.
  - intros e. rewrite set_route_cases.
    destruct (fst (execute_request dev api COMMAND _ tr)) as [resp|e0];
      [discriminate|].
    intros He. inversion He; subst e.
    destruct (exn_cls e0) eqn:Hcls; simpl; rewrite ?Hcls; split; discriminate.
  - intros r Hans Hread Hst. rewrite set_route_cases, Hreq, Hans.
    destruct (resp_json r) as [d|je].
    + destruct (Z.eqb_spec (resp_status r) 200); [lia|].
      destruct (Z.geb_spec (resp_status r) 500); simpl; [eauto|].
      destruct (Z.geb_spec (resp_status r) 400); simpl; [eauto | lia].
    + destruct (resp_text r) as [text|e]; [|discriminate Hread].
      destruct (Z.geb_spec (resp_status r) 500); simpl; [eauto|].
      destruct (Z.geb_spec (resp_status r) 400); simpl; [eauto | lia].
  - intros r je e Hans Hjson Htext Hcls.
    rewrite set_route_cases, Hreq, Hans, Hjson, Htext, Hcls. cbn [exn_cls].
    rewrite Hcls. reflexivity.
  - intros e Hans Hcls. rewrite set_route_cases, Hreq, Hans.
    destruct Hcls as [-> | ->]; simpl; eauto.
Qed.

Lemma set_route_outcomes_witness :
  is_ok (fst (set_route steady_device sample_api 3 5 [])) = true /\
  (exists msg,
     fst (set_route (scripted_device [Responds (error_response 404)])
            sample_api 3 5 []) =
     Raise (Exn CommandError ("Failed to set route: " ++ msg))) /\
  fst (set_route (scripted_device [Responds (undecodable_response 404)])
         sample_api 3 5 []) =
    Raise (Exn UnicodeDecodeError
             "'utf-8' codec can't decode byte 0xff in position 0: invalid start byte") /\
  (exists msg,
     fst (set_route (scripted_device [Fails (Exn ClientError "refused")])
            sample_api 3 5 []) =
     Raise (Exn CommandError ("Failed to set route: " ++ msg))) /\
  exn_cls (Exn CommandError
             "Failed to set route: Server error: JSON parse error: Expecting value: line 1 column 1 (char 0)")
    <> ConnectionError.
Proof.
  split; [|split; [|split; [|split]]].
  - apply (proj1 (set_route_outcomes steady_device sample_api 3 5 [])).
    exists ok_response. split; [reflexivity|]. split; [simpl; lia | reflexivity].
  - apply (proj1 (proj2 (proj2 (proj2 (set_route_outcomes
             (scripted_device [Responds (error_response 404)]) sample_api 3 5 []))))
             (error_response 404)).
    + reflexivity.
    + reflexivity.
    + simpl. lia.
  - apply (proj1 (proj2 (proj2 (proj2 (proj2 (set_route_outcomes
             (scripted_device [Responds (undecodable_response 404)])
             sample_api 3 5 [])))))
             (undecodable_response 404)
             (Exn UnicodeDecodeError
                "'utf-8' codec can't decode byte 0xff in position 0: invalid start byte"));
      reflexivity.
  - apply (proj2 (proj2 (proj2 (proj2 (proj2 (set_route_outcomes
             (scripted_device [Fails (Exn ClientError "refused")]) sample_api 3 5 [])))))
             (Exn ClientError "refused")).
    + reflexivity.
    + right. reflexivity.
  - apply (proj1 (proj2 (proj2 (set_route_outcomes
             (scripted_device [Responds (error_response 503)]) sample_api 3 5 [])))).
    reflexivity.
Defined.

(** ** Clearing the videowall mode *)

(** X5.  [clear_videowall_mode] issues one request, [splice=[]] to the
    splice endpoint and without a timeout, and never runs the change
    callback.  It returns exactly when the answer has status 200; whatever
    else happens, the exception that leaves it is the command error. *)
Theorem clear_videowall_mode_outcomes (dev : Device) (api : HDTVMatrixApi)
    (tr : list event) :
  let run := clear_videowall_mode dev api tr in
  snd run = app tr [Get (clear_request api)] /\
  (fst run = Ok tt <->
   exists r, respond dev tr (clear_request api) = Responds r /\ resp_status r = 200) /\
  (forall e, fst run = Raise e -> exn_cls e = CommandError).
Proof.
  unfold clear_videowall_mode, try_except, bind, session_get, clear_request,
    build_headers, lift_result.
  destruct (respond dev tr _) as [r|e]; simpl.
  - destruct (Z.eqb_spec (resp_status r) 200) as [Heq|Hne]; simpl.
    + repeat split; eauto. discriminate.
    + destruct (resp_text r) as [text|e0]; simpl; repeat split.
      * discriminate.
      * intros (r' & Hr & Hst). congruence.
      * intros e He. now inversion He.
      * discriminate.
      * intros (r' & Hr & Hst). congruence.
      * intros e He. now inversion He.
  - repeat split.
    + discriminate.
    + intros (r & Hr & _). discriminate Hr.
    + intros e' He. now inversion He.
Qed.

Lemma clear_videowall_mode_outcomes_witness :
  fst (clear_videowall_mode steady_device sample_api []) = Ok tt /\
  exn_cls (Exn CommandError "Error limpiando : boom") = CommandError.
Proof.
  split.
  - apply (proj1 (proj2 (clear_videowall_mode_outcomes steady_device sample_api []))).
    exists ok_response. split; reflexivity.
  - apply (proj2 (proj2 (clear_videowall_mode_outcomes
             (scripted_device [Fails (Exn OtherException "boom")]) sample_api []))).
    reflexivity.
Defined.

(** ** The videowall preset: failures other than a rejected command *)

Lemma splice_data_step_rejected (dev : Device) (api : HDTVMatrixApi) (idx : Z)
    (case : splice_case) (tr : list event) (r : response) :
  respond dev tr (splice_data_request api case) = Responds r ->
  resp_status r <> 200 ->
  fst (splice_data_step dev api idx case tr) =
  Raise (Exn CommandError
           ("Error configurando videowall DATA (case " ++ str_int idx ++ "): "
            ++ match resp_text r with
               | Ok text =>
                   "Videowall splice DATA failed (case " ++ str_int idx ++ "): "
                   ++ "HTTP " ++ str_int (resp_status r) ++ " - " ++ text
               | Raise e => exn_msg e
               end)).
Proof.
  intros Hresp Hst. rewrite splice_data_step_run.
  unfold data_step_result. rewrite Hresp. cbn [fst].
  destruct (Z.eqb_spec (resp_status r) 200); [contradiction|].
  now destruct (resp_text r).
Qed.

Lemma preset_stops_at_case (dev : Device) (api : HDTVMatrixApi)
    (tr : list event) (n : nat) (case : splice_case) (tr_n : list event) :
  nth_error cases n = Some case ->
  for_each (splice_case_body dev api) (firstn n (enumerate 1 cases)) tr =
    (Ok tt, tr_n) ->
  forall e tr_e,
    splice_case_body dev api (Z.of_nat n + 1, case) tr_n = (Raise e, tr_e) ->
    set_splice_and_video dev api tr = (Raise e, tr_e).
Proof.
  intros Hcase Hprefix e tr_e Hbody.
  rewrite set_splice_and_video_run.
  rewrite (enumerate_nth 1 cases n case Hcase), for_each_app, Hprefix.
  replace (1 + Z.of_nat n) with (Z.of_nat n + 1) by lia.
  cbn [for_each]. unfold bind at 1. now rewrite Hbody.
Qed.

(** X6.  In [set_splice_and_video], when the data call of a case is
    answered with a status other than 200 after its command call and the
    earlier cases went through, the sequence raises a command error naming
    the case, with the status and the body of the answer or, when the body
    does not read as text, with the decoding error; that call is the last
    thing done.  A timeout of the command call of a case raises the
    connection error, not the command error; and a command call answered
    with a body that does not read as text raises the decoding error,
    whatever its status. *)
Theorem videowall_preset_other_failures (dev : Device) (api : HDTVMatrixApi)
    (tr : list event) :
  (forall (n : nat) (case : splice_case) (tr_n : list event) (r : response),
     nth_error cases n = Some case ->
     for_each (splice_case_body dev api) (firstn n (enumerate 1 cases)) tr =
       (Ok tt, tr_n) ->
     fst (splice_cmd_step dev api (Z.of_nat n + 1) case tr_n) = Ok tt ->
     respond dev (app tr_n [Get (splice_cmd_request api case)])
       (splice_data_request api case) = Responds r ->
     resp_status r <> 200 ->
     set_splice_and_video dev api tr =
       (Raise (Exn CommandError
                 ("Error configurando videowall DATA (case "
                  ++ str_int (Z.of_nat n + 1) ++ "): "
                  ++ match resp_text r with
                     | Ok text =>
                         "Videowall splice DATA failed (case "
                         ++ str_int (Z.of_nat n + 1) ++ "): "
                         ++ "HTTP " ++ str_int (resp_status r) ++ " - " ++ text
                     | Raise e => exn_msg e
                     end)),
        app tr_n [Get (splice_cmd_request api case);
                  Get (splice_data_request api case)])) /\
  (forall (n : nat) (case : splice_case) (tr_n : list event) (msg : string),
     nth_error cases n = Some case ->
     for_each (splice_case_body dev api) (firstn n (enumerate 1 cases)) tr =
       (Ok tt, tr_n) ->
     respond dev tr_n (splice_cmd_request api case) = Fails (Exn TimeoutError msg) ->
     set_splice_and_video dev api tr =
       (Raise (Exn ConnectionError
                 ("Splice CMD timeout after " ++ str_int (timeout api) ++ "s")),
        app tr_n [Get (splice_cmd_request api case)])) /\
  (forall (n : nat) (case : splice_case) (tr_n : list event) (r : response)
          (e : exn),
     nth_error cases n = Some case ->
     for_each (splice_case_body dev api) (firstn n (enumerate 1 cases)) tr =
       (Ok tt, tr_n) ->
     respond dev tr_n (splice_cmd_request api case) = Responds r ->
     resp_text r = Raise e ->
     exn_cls e = UnicodeDecodeError ->
     set_splice_and_video dev api tr =
       (Raise e, app tr_n [Get (splice_cmd_request api case)])).
Proof.
  split; [|split].
  - intros n case tr_n r Hcase Hprefix Hcmd Hresp Hst.
    apply (preset_stops_at_case dev api tr n case tr_n Hcase Hprefix).
    rewrite splice_case_body_run.
    pose proof (splice_cmd_step_trace dev api (Z.of_nat n + 1) case tr_n) as Htr1.
    destruct (splice_cmd_step dev api (Z.of_nat n + 1) case tr_n) as [res1 tr1].
    simpl in Htr1, Hcmd. subst res1 tr1.
    pose proof (splice_data_step_trace dev api (Z.of_nat n + 1) case
                  (app tr_n [Get (splice_cmd_request api case)])) as Htr2.
    pose proof (splice_data_step_rejected dev api (Z.of_nat n + 1) case
                  (app tr_n [Get (splice_cmd_request api case)]) r Hresp Hst)
      as Hres2.
    destruct (splice_data_step dev api (Z.of_nat n + 1) case _) as [res2 tr2].
    simpl in Htr2, Hres2. subst res2 tr2.
    now rewrite <- app_assoc.
  - intros n case tr_n msg Hcase Hprefix Hresp.
    apply (preset_stops_at_case dev api tr n case tr_n Hcase Hprefix).
    rewrite splice_case_body_run, splice_cmd_step_run, Hresp. reflexivity.
  - intros n case tr_n r e Hcase Hprefix Hresp Htext Hcls.
    apply (preset_stops_at_case dev api tr n case tr_n Hcase Hprefix).
    rewrite splice_case_body_run, splice_cmd_step_run, Hresp.
    unfold cmd_step_result. now rewrite Htext, Hcls.
Qed.

Lemma videowall_preset_other_failures_witness :
  fst (set_splice_and_video
         (scripted_device [Responds ok_response; Responds (error_response 500)])
         sample_api []) =
    Raise (Exn CommandError
             ("Error configurando videowall DATA (case "
              ++ str_int (Z.of_nat 0 + 1) ++ "): "
              ++ match resp_text (error_response 500) with
                 | Ok text =>
                     "Videowall splice DATA failed (case "
                     ++ str_int (Z.of_nat 0 + 1) ++ "): "
                     ++ "HTTP " ++ str_int (resp_status (error_response 500))
                     ++ " - " ++ text
                 | Raise e => exn_msg e
                 end)) /\
  fst (set_splice_and_video
         (scripted_device [Responds ok_response; Responds ok_response;
                           Fails (Exn TimeoutError "")])
         sample_api []) =
    Raise (Exn ConnectionError
             ("Splice CMD timeout after " ++ str_int (timeout sample_api) ++ "s")) /\
  fst (set_splice_and_video
         (scripted_device [Responds (undecodable_response 200)]) sample_api []) =
    Raise (Exn UnicodeDecodeError
             "'utf-8' codec can't decode byte 0xff in position 0: invalid start byte").
Proof.
  split; [|split].
  - refine (f_equal fst
      (proj1 (videowall_preset_other_failures
                (scripted_device [Responds ok_response; Responds (error_response 500)])
                sample_api [])
         0%nat _ [] (error_response 500) eq_refl eq_refl eq_refl eq_refl _)).
    simpl. lia.
  - refine (f_equal fst
      (proj1 (proj2 (videowall_preset_other_failures
                (scripted_device [Responds ok_response; Responds ok_response;
                                  Fails (Exn TimeoutError "")])
                sample_api []))
         1%nat _ _ "" eq_refl eq_refl eq_refl)).
  - refine (f_equal fst
      (proj2 (proj2 (videowall_preset_other_failures
                (scripted_device [Responds (undecodable_response 200)])
                sample_api []))
         0%nat _ [] (undecodable_response 200) _ eq_refl eq_refl eq_refl eq_refl
         eq_refl)).
Defined.

(* ===================================================================== *)
(** * From the status array to the accessors of the poller               *)
(* ===================================================================== *)

Lemma dict_get_item_parsed (A : list Z) (start k : Z) :
  start + 1 <= k <= start + Z.of_nat (length A) ->
  dict_get ("output_" ++ str_int k)
    (map dict_item (map parsed_item (enumerate start A))) =
  Some (snd (dict_item (parsed_item (k - 1, nth (Z.to_nat (k - 1 - start)) A 0)))).
Proof.
  revert start. induction A as [|raw A IH]; intros start Hk; simpl in Hk; [lia|].
  cbn [enumerate map dict_get dict_item parsed_item fst snd].
  destruct (decide ("output_" ++ str_int k = "output_" ++ str_int (start + 1)))
    as [Heq|Hne].
  - apply output_key_inj in Heq. subst k.
    replace (start + 1 - 1 - start) with 0 by lia.
    replace (start + 1 - 1) with start by lia. reflexivity.
  - assert (k <> start + 1) by (intros ->; now apply Hne).
    rewrite IH by lia.
    replace (Z.to_nat (k - 1 - start)) with (S (Z.to_nat (k - 1 - (start + 1))))
      by lia.
    reflexivity.
Qed.

Lemma snapshot_is_data (c : HDTVCoordinator) (A : list Z) (now : Z) :
  data c = Some (to_dict (StateParser.parse_status_array A now)) ->
  no_data c = false /\
  py_get (the_data c) "matrix" (PDict []) =
    Ok (PDict (map dict_item (map parsed_item (enumerate 0 A)))).
Proof.
  intros Hdata. rewrite to_dict_of_parsed in Hdata.
  unfold no_data, the_data. rewrite Hdata. cbn [truthy negb].
  now rewrite py_get_first.
Qed.

Lemma get_output_state_parsed (c : HDTVCoordinator) (A : list Z) (now k : Z) :
  data c = Some (to_dict (StateParser.parse_status_array A now)) ->
  1 <= k <= Z.of_nat (length A) ->
  get_output_state c k =
  Ok (PDict [("input",
              if (nth (Z.to_nat (k - 1)) A 0 =? 65535)%Z then PNone
              else PInt (nth (Z.to_nat (k - 1)) A 0 + 1));
             ("raw_value", PInt (nth (Z.to_nat (k - 1)) A 0))]).
Proof.
  intros Hdata Hk. destruct (snapshot_is_data c A now Hdata) as [Hno Hmatrix].
  unfold get_output_state. rewrite Hno, Hmatrix. unfold py_get.
  rewrite (dict_get_item_parsed A 0 k) by lia.
  replace (k - 1 - 0) with (k - 1) by lia.
  cbn [dict_item parsed_item fst snd input_number raw_value].
  unfold DISCONNECTED_VALUE.
  now destruct (nth (Z.to_nat (k - 1)) A 0 =? 65535)%Z.
Qed.

(** X7.  Reading back what was parsed: for a snapshot built from the status
    array [A] and an output [k] in 1..len(A), [get_output_state(k)] is the
    mapping with ["raw_value"] [A[k-1]] and ["input"] null when [A[k-1]] is
    65535 and [A[k-1] + 1] otherwise. *)
Theorem get_output_state_reads_parsed_array (c : HDTVCoordinator)
    (A : list Z) (now k : Z) :
  data c = Some (to_dict (StateParser.parse_status_array A now)) ->
  1 <= k <= Z.of_nat (length A) ->
  get_output_state c k =
  Ok (PDict [("input",
              if (nth (Z.to_nat (k - 1)) A 0 =? 65535)%Z then PNone
              else PInt (nth (Z.to_nat (k - 1)) A 0 + 1));
             ("raw_value", PInt (nth (Z.to_nat (k - 1)) A 0))]).
Proof. apply get_output_state_parsed. Qed.

Lemma get_output_state_reads_parsed_array_witness :
  get_output_state
    (fst (async_refresh steady_device sample_api (new_coordinator, []))) 2 =
  Ok (PDict [("input",
              if (nth (Z.to_nat (2 - 1)) [0; 65535; 2] 0 =? 65535)%Z then PNone
              else PInt (nth (Z.to_nat (2 - 1)) [0; 65535; 2] 0 + 1));
             ("raw_value", PInt (nth (Z.to_nat (2 - 1)) [0; 65535; 2] 0))]).
Proof.
  apply (get_output_state_reads_parsed_array
           (fst (async_refresh steady_device sample_api (new_coordinator, [])))
           [0; 65535; 2] 0 2).
  - reflexivity.
  - simpl. lia.
Defined.

(** ** The connected outputs *)

Lemma connected_loop_collects (items : list (Z * MatrixOutput)) (acc : list Z) :
  connected_loop (map dict_item items) acc = Ok (app acc (connected_keys items)).
Proof.
  revert acc. induction items as [|[num o] items IH]; intros acc.
  - unfold connected_keys. simpl. now rewrite app_nil_r.
  - cbn [map connected_loop dict_item fst snd].
    rewrite py_get_first. unfold connected_keys.
    rewrite filter_cons. cbn [snd].
    destruct (decide (is_connected_output o = true)) as [Hc|Hc];
      unfold is_connected_output in Hc;
      destruct (input_number o) as [inp|]; cbn [opt_int];
      try discriminate Hc; try (now contradiction Hc).
    + rewrite split_output_key. cbn [py_index nth_error].
      rewrite py_int_str_int, IH. cbn [map fst]. unfold connected_keys.
      now rewrite <- app_assoc.
    + apply IH.
Qed.

Lemma insert_sorted_least (x : Z) (l : list Z) :
  Forall (fun y => x <= y) l -> insert_sorted x l = x :: l.
Proof.
  destruct l as [|y l]; [reflexivity|].
  intros Hall. apply Forall_cons in Hall. destruct Hall as [Hxy _].
  simpl. destruct (Z.leb_spec x y); [reflexivity | lia].
Qed.

Lemma connected_keys_bounds (A : list Z) (start k : Z) :
  In k (connected_keys (map parsed_item (enumerate start A))) ->
  start + 1 <= k <= start + Z.of_nat (length A).
Proof.
  unfold connected_keys. intros Hin. apply in_map_iff in Hin.
  destruct Hin as ([k' o] & Hk & Hin). simpl in Hk. subst k'.
  apply list_elem_of_In, list_elem_of_filter in Hin. destruct Hin as [_ Hin].
  apply list_elem_of_In, in_map_iff in Hin. destruct Hin as ([i raw] & Heq & Hin).
  apply enumerate_fst_bounds in Hin. unfold parsed_item in Heq. simpl in Heq.
  inversion Heq; subst. lia.
Qed.

Lemma connected_keys_sorted (A : list Z) (start : Z) :
  sorted (connected_keys (map parsed_item (enumerate start A))) =
  connected_keys (map parsed_item (enumerate start A)).
Proof.
  revert start. induction A as [|raw A IH]; intros start; [reflexivity|].
  cbn [enumerate map]. unfold connected_keys. rewrite filter_cons.
  destruct (decide (is_connected_output (snd (parsed_item (start, raw))) = true)).
  - cbn [map fst]. fold (connected_keys (map parsed_item (enumerate (start + 1) A))).
    unfold sorted. cbn [fold_right].
    fold (sorted (connected_keys (map parsed_item (enumerate (start + 1) A)))).
    rewrite IH. apply insert_sorted_least.
    apply Forall_forall. intros k Hk. apply list_elem_of_In in Hk.
    apply connected_keys_bounds in Hk. simpl. lia.
  - apply IH.
Qed.

Lemma connected_keys_of_values (items : list (Z * MatrixOutput)) :
  (forall it, In it items -> output_number (snd it) = fst it) ->
  map output_number
    (filter (fun o => is_connected_output o = true) (dict_values items)) =
  connected_keys items.
Proof.
  unfold connected_keys, dict_values.
  induction items as [|it items IH]; intros Hnum; [reflexivity|].
  cbn [map]. rewrite !filter_cons.
  destruct (decide (is_connected_output (snd it) = true)).
  - cbn [map]. rewrite (Hnum it) by now left.
    f_equal. apply IH. intros it' Hin. apply Hnum. now right.
  - apply IH. intros it' Hin. apply Hnum. now right.
Qed.

(** X8.  The two views of the connected outputs agree: for a snapshot built
    from a status array, the coordinator's [get_connected_outputs()] is the
    list of the output numbers of the state's [get_connected_outputs()], in
    the same, ascending, order. *)
Theorem connected_outputs_agree (c : HDTVCoordinator) (A : list Z) (now : Z) :
  data c = Some (to_dict (StateParser.parse_status_array A now)) ->
  get_connected_outputs c =
  Ok (map output_number
        (matrix_connected_outputs (StateParser.parse_status_array A now))).
Proof.
  intros Hdata. destruct (snapshot_is_data c A now Hdata) as [Hno Hmatrix].
  unfold get_connected_outputs. rewrite Hno, Hmatrix. cbn [py_items].
  rewrite connected_loop_collects. cbn [app].
  rewrite connected_keys_sorted.
  unfold matrix_connected_outputs. rewrite parsed_outputs.
  rewrite connected_keys_of_values; [reflexivity|].
  intros it Hin. apply in_map_iff in Hin. destruct Hin as (x & <- & _).
  reflexivity.
Qed.

Lemma connected_outputs_agree_witness :
  get_connected_outputs
    (fst (async_refresh steady_device sample_api (new_coordinator, []))) =
  Ok (map output_number
        (matrix_connected_outputs (StateParser.parse_status_array [0; 65535; 2] 0))).
Proof.
  apply (connected_outputs_agree
           (fst (async_refresh steady_device sample_api (new_coordinator, [])))
           [0; 65535; 2] 0).
  reflexivity.
Defined.

(* ===================================================================== *)
(** * The payload builder and the poller, beyond the claims              *)
(* ===================================================================== *)

(** X9.  [build_payload] raises exactly when data is given whose length is
    not [num_inputs * num_outputs]; without data it never raises, and the
    payload holds that many items ["-1"] (none, when the product is not
    positive). *)
Theorem build_payload_raises_iff (num_inputs num_outputs : Z)
    (data : option (list string)) :
  (is_ok (SplicePayloadBuilder.build_payload num_inputs num_outputs data) = false
   <-> exists d, data = Some d /\
                 Z.of_nat (length d) <> num_inputs * num_outputs) /\
  SplicePayloadBuilder.build_payload num_inputs num_outputs None =
    Ok (quote (json_dumps_compact
                 (PList [PDict [("x", PInt 2); ("y", PInt 2);
                                ("data",
                                 PList (map PStr
                                   (repeat "-1"
                                      (Z.to_nat (num_inputs * num_outputs)))))]]))).
Proof.
  unfold SplicePayloadBuilder.build_payload. split; [|reflexivity].
  destruct data as [d|]; simpl.
  - destruct (Z.eqb_spec (Z.of_nat (length d)) (num_inputs * num_outputs));
      simpl; split.
    + discriminate.
    + intros (d' & Hd & Hne). inversion Hd; subst d'. contradiction.
    + intros _. eauto.
    + reflexivity.
  - split; [discriminate|]. intros (d & Hd & _). discriminate Hd.
Qed.

Lemma build_payload_raises_iff_witness :
  is_ok (SplicePayloadBuilder.build_payload 1 3 (Some ["1"; "2"])) = false.
Proof.
  apply (proj1 (build_payload_raises_iff 1 3 (Some ["1"; "2"]))).
  exists ["1"; "2"]. split; [reflexivity | simpl; lia].
Defined.

(** ** Reachable states of the poller *)

Lemma async_refresh_step (dev : Device) (api : HDTVMatrixApi)
    (s : HDTVCoordinator * list event) :
  0 <= consecutive_failures (fst s) ->
  let c' := fst (async_refresh dev api s) in
  0 <= consecutive_failures c' <= consecutive_failures (fst s) + 1 /\
  (last_update_success c' = true -> consecutive_failures c' = 0) /\
  (data (fst s) <> None -> data c' <> None).
Proof.
  destruct s as [c tr]. unfold async_refresh. rewrite async_update_data_run.
  simpl. intros Hge.
  destruct (get_status dev api tr) as [[d|e] tr']; simpl.
  - destruct (py_get d "total_outputs" (PInt 0)) as [v|e]; simpl;
      destruct (Z.gtb_spec (consecutive_failures c) 0); simpl;
      repeat split; try lia; try discriminate; auto.
  - repeat split; try lia; try discriminate; auto.
Qed.

Lemma refreshes_invariant (dev : Device) (api : HDTVMatrixApi) (n : nat)
    (s : HDTVCoordinator * list event) :
  0 <= consecutive_failures (fst s) ->
  (last_update_success (fst s) = true -> consecutive_failures (fst s) = 0) ->
  let c' := fst (refreshes dev api n s) in
  0 <= consecutive_failures c' <= consecutive_failures (fst s) + Z.of_nat n /\
  (last_update_success c' = true -> consecutive_failures c' = 0) /\
  (data (fst s) <> None -> data c' <> None).
Proof.
  revert s. induction n as [|n IH]; intros s Hge Hlus.
  - simpl. repeat split; auto; lia.
  - cbn [refreshes].
    destruct (async_refresh_step dev api s Hge) as (Hb & Hl & Hd).
    destruct (IH (async_refresh dev api s) (proj1 Hb) Hl) as (Hb' & Hl' & Hd').
    cbv zeta. repeat split; auto; lia.
Qed.

Lemma refreshes_add (dev : Device) (api : HDTVMatrixApi) (n m : nat)
    (s : HDTVCoordinator * list event) :
  refreshes dev api (n + m) s = refreshes dev api m (refreshes dev api n s).
Proof. revert s. induction n as [|n IH]; intros s; [reflexivity | apply IH]. Qed.

(** X10.  In every state the poller reaches from its initial state, the
    failure counter lies between 0 and the number of refreshes made, a
    connected poller has the counter at 0, and a snapshot, once there, is
    never lost again. *)
Theorem poller_reachable_invariant (dev : Device) (api : HDTVMatrixApi)
    (n m : nat) :
  let c := fst (refreshes dev api n (new_coordinator, [])) in
  let c' := fst (refreshes dev api (n + m) (new_coordinator, [])) in
  0 <= consecutive_failures c <= Z.of_nat n /\
  (is_connected c = true -> consecutive_failures c = 0) /\
  (data c <> None -> data c' <> None).
Proof.
  cbv zeta.
  destruct (refreshes_invariant dev api n (new_coordinator, []))
    as (Hb & Hl & _); [simpl; lia | reflexivity |].
  split; [simpl in Hb; lia|]. split.
  - unfold is_connected. intros Hc. apply andb_true_iff in Hc. now apply Hl.
  - rewrite refreshes_add.
    destruct (refreshes_invariant dev api m
                (refreshes dev api n (new_coordinator, [])))
      as (_ & _ & Hd); [lia | exact Hl | exact Hd].
Qed.

Lemma poller_reachable_invariant_witness :
  consecutive_failures (fst (refreshes steady_device sample_api 2 (new_coordinator, [])))
    = 0 /\
  data (fst (refreshes (scripted_device [Responds ok_response;
                                         Fails (Exn TimeoutError "")])
               sample_api (1 + 1) (new_coordinator, []))) <> None.
Proof.
  split.
  - apply (proj1 (proj2 (poller_reachable_invariant steady_device sample_api 2 0))).
    reflexivity.
  - apply (proj2 (proj2 (poller_reachable_invariant
             (scripted_device [Responds ok_response; Fails (Exn TimeoutError "")])
             sample_api 1 1))).
    discriminate.
Defined.

Lemma refresh_failure_is_stale_witness :
  let s1 := refreshes (scripted_device [Responds ok_response;
                                        Fails (Exn TimeoutError "")])
              sample_api 1 (new_coordinator, []) in
  let c' := fst (async_refresh (scripted_device [Responds ok_response;
                                                 Fails (Exn TimeoutError "")])
                   sample_api s1) in
  data c' = data (fst s1) /\
  is_connected c' = false /\
  get_all_outputs c' = get_all_outputs (fst s1) /\
  1 <= consecutive_failures c'.
Proof.
  apply (refresh_failure_is_stale
           (scripted_device [Responds ok_response; Fails (Exn TimeoutError "")])
           sample_api
           (refreshes (scripted_device [Responds ok_response;
                                        Fails (Exn TimeoutError "")])
              sample_api 1 (new_coordinator, []))).
  - simpl. lia.
  - reflexivity.
Defined.

Lemma refresh_success_replaces_witness :
  let c' := fst (async_refresh steady_device sample_api (new_coordinator, [])) in
  (exists d, fst (get_status steady_device sample_api []) = Ok d /\ data c' = Some d) /\
  consecutive_failures c' = 0 /\
  is_connected c' = true.
Proof.
  apply (refresh_success_replaces steady_device sample_api (new_coordinator, [])).
  - simpl. lia.
  - reflexivity.
Defined.

Lemma refresh_status_raises_witness :
  let c' := fst (async_refresh (scripted_device [Fails (Exn TimeoutError "")])
                   sample_api (new_coordinator, [])) in
  consecutive_failures c' = consecutive_failures new_coordinator + 1 /\
  data c' = data new_coordinator /\
  last_update_success c' = false.
Proof.
  apply (refresh_status_raises (scripted_device [Fails (Exn TimeoutError "")])
           sample_api new_coordinator []
           (Exn ConnectionError "Request timeout after 10s")).
  reflexivity.
Defined.

(* ===================================================================== *)
(** * services.py                                                         *)
(* ===================================================================== *)

(** ** The splice data of a videowall *)

Lemma list_assign_length {A} (l l' : list A) (i : Z) (x : A) :
  list_assign l i x = Ok l' -> length l' = length l.
Proof.
  unfold list_assign.
  destruct ((0 <=? i) && (i <? Z.of_nat (length l)))%Z.
  - intros H. inversion H. apply length_insert.
  - destruct ((- Z.of_nat (length l) <=? i) && (i <? 0))%Z; [|discriminate].
    intros H. inversion H. apply length_insert.
Qed.

Lemma videowall_loop_length (num_outputs input_idx start_idx total : Z)
    (screens : list Z) (d d' : list string) :
  Services.videowall_loop num_outputs input_idx start_idx total screens d = Ok d' ->
  length d' = length d.
Proof.
  revert d. induction screens as [|screen rest IH]; intros d; simpl.
  - intros H. now inversion H.
  - destruct (start_idx + screen >=? num_outputs)%Z; [intros H; now inversion H|].
    destruct (input_idx * num_outputs + (start_idx + screen) <? total)%Z; [|apply IH].
    destruct (list_assign d _ _) as [d1|e] eqn:Hassign; [|discriminate].
    intros H. rewrite (IH d1 H). now apply list_assign_length in Hassign.
Qed.

Lemma videowall_loop_writes (num_outputs input_idx start_idx total : Z)
    (m : nat) (a : Z) (d : list string) :
  0 <= input_idx -> 0 <= start_idx + a ->
  length d = Z.to_nat total ->
  exists d',
    Services.videowall_loop num_outputs input_idx start_idx total
      (map (fun i => a + Z.of_nat i) (seq 0 m)) d = Ok d' /\
    length d' = length d /\
    forall p : nat, (p < length d)%nat ->
      d' !! p =
      if ((input_idx * num_outputs + start_idx + a <=? Z.of_nat p) &&
          (Z.of_nat p <? input_idx * num_outputs
                         + Z.min (start_idx + a + Z.of_nat m) num_outputs))%Z
      then Some (str_int input_idx) else d !! p.
Proof.
  intros Hin. revert a d. induction m as [|m IH]; intros a d Ha Hlen.
  - exists d. repeat split. intros p Hp.
    destruct (Z.leb_spec (input_idx * num_outputs + start_idx + a) (Z.of_nat p));
      destruct (Z.ltb_spec (Z.of_nat p)
                  (input_idx * num_outputs
                   + Z.min (start_idx + a + Z.of_nat 0) num_outputs));
      simpl; try reflexivity; lia.
  - cbn [seq map]. rewrite <- seq_shift, map_map.
    replace (a + Z.of_nat 0) with a by lia.
    erewrite (map_ext (fun i => a + Z.of_nat (S i)) (fun i => (a + 1) + Z.of_nat i))
      by (intros i; lia).
    cbn [Services.videowall_loop].
    destruct (Z.geb_spec (start_idx + a) num_outputs) as [Hbreak|Hgo].
    + exists d. repeat split. intros p Hp.
      destruct (Z.leb_spec (input_idx * num_outputs + start_idx + a) (Z.of_nat p));
        destruct (Z.ltb_spec (Z.of_nat p)
                    (input_idx * num_outputs
                     + Z.min (start_idx + a + Z.of_nat (S m)) num_outputs));
        simpl; try reflexivity; lia.
    + assert (Hrow : 0 <= input_idx * num_outputs) by nia.
      destruct (Z.ltb_spec (input_idx * num_outputs + (start_idx + a)) total)
        as [Hfits|Hover].
      * unfold list_assign.
        replace ((0 <=? input_idx * num_outputs + (start_idx + a)) &&
                 (input_idx * num_outputs + (start_idx + a) <? Z.of_nat (length d)))%Z
          with true
          by (symmetry; apply andb_true_iff; split;
              [apply Z.leb_le | apply Z.ltb_lt]; lia).
        set (pos := Z.to_nat (input_idx * num_outputs + (start_idx + a))).
        destruct (IH (a + 1) (<[pos := str_int input_idx]> d))
          as (d' & Hrun & Hlen' & Hget);
          [lia | rewrite length_insert; exact Hlen |].
        exists d'. split; [exact Hrun|]. rewrite length_insert in Hlen', Hget.
        split; [exact Hlen'|]. intros p Hp. rewrite (Hget p Hp).
        destruct (Nat.eq_dec p pos) as [->|Hne].
        -- rewrite list_lookup_insert_eq by exact Hp.
           destruct (Z.leb_spec (input_idx * num_outputs + start_idx + (a + 1))
                       (Z.of_nat pos));
             destruct (Z.ltb_spec (Z.of_nat pos)
                         (input_idx * num_outputs
                          + Z.min (start_idx + (a + 1) + Z.of_nat m) num_outputs));
             destruct (Z.leb_spec (input_idx * num_outputs + start_idx + a)
                         (Z.of_nat pos));
             destruct (Z.ltb_spec (Z.of_nat pos)
                         (input_idx * num_outputs
                          + Z.min (start_idx + a + Z.of_nat (S m)) num_outputs));
             simpl; try reflexivity; unfold pos in *; lia.
        -- rewrite list_lookup_insert_ne by (intros Heq; now apply Hne).
           destruct (Z.leb_spec (input_idx * num_outputs + start_idx + (a + 1))
                       (Z.of_nat p));
             destruct (Z.ltb_spec (Z.of_nat p)
                         (input_idx * num_outputs
                          + Z.min (start_idx + (a + 1) + Z.of_nat m) num_outputs));
             destruct (Z.leb_spec (input_idx * num_outputs + start_idx + a)
                         (Z.of_nat p));
             destruct (Z.ltb_spec (Z.of_nat p)
                         (input_idx * num_outputs
                          + Z.min (start_idx + a + Z.of_nat (S m)) num_outputs));
             simpl; try reflexivity; unfold pos in *; lia.
      * destruct (IH (a + 1) d) as (d' & Hrun & Hlen' & Hget); [lia | exact Hlen |].
        exists d'. split; [exact Hrun|]. split; [exact Hlen'|].
        intros p Hp. rewrite (Hget p Hp).
        destruct (Z.leb_spec (input_idx * num_outputs + start_idx + (a + 1))
                    (Z.of_nat p));
          destruct (Z.ltb_spec (Z.of_nat p)
                      (input_idx * num_outputs
                       + Z.min (start_idx + (a + 1) + Z.of_nat m) num_outputs));
          destruct (Z.leb_spec (input_idx * num_outputs + start_idx + a)
                      (Z.of_nat p));
          destruct (Z.ltb_spec (Z.of_nat p)
                      (input_idx * num_outputs
                       + Z.min (start_idx + a + Z.of_nat (S m)) num_outputs));
          simpl; try reflexivity; lia.
Qed.

Lemma lookup_repeat {A} (x : A) (n p : nat) :
  (p < n)%nat -> repeat x n !! p = Some x.
Proof.
  revert p. induction n as [|n IH]; intros p Hp; [lia|].
  destruct p as [|p]; [reflexivity|]. simpl. apply IH. lia.
Qed.

Lemma generated_splice_data
    (num_inputs num_outputs input_port grid_width grid_height start_output : Z) :
  1 <= input_port -> 1 <= start_output ->
  exists d,
    Services.generate_videowall_splice_data num_inputs num_outputs input_port
      grid_width grid_height start_output = Ok d /\
    length d = Z.to_nat (num_inputs * num_outputs) /\
    forall p : nat, (p < length d)%nat ->
      d !! p =
      Some (if (((input_port - 1) * num_outputs + (start_output - 1) <=? Z.of_nat p) &&
                (Z.of_nat p <? (input_port - 1) * num_outputs
                               + Z.min (start_output - 1 + grid_width * grid_height)
                                       num_outputs))%Z
            then str_int (input_port - 1) else "-1").
Proof.
  intros Hin Hstart. unfold Services.generate_videowall_splice_data, range.
  replace (grid_width * grid_height - 0) with (grid_width * grid_height) by lia.
  destruct (videowall_loop_writes num_outputs (input_port - 1) (start_output - 1)
              (num_inputs * num_outputs) (Z.to_nat (grid_width * grid_height)) 0
              (repeat "-1" (Z.to_nat (num_inputs * num_outputs))))
    as (d & Hrun & Hlen & Hget); [lia | lia | apply repeat_length |].
  exists d. split; [exact Hrun|]. rewrite repeat_length in Hlen, Hget.
  split; [exact Hlen|]. intros p Hp. rewrite Hlen in Hp. rewrite (Hget p Hp).
  rewrite lookup_repeat by exact Hp.
  destruct (Z.leb_spec ((input_port - 1) * num_outputs + (start_output - 1) + 0)
              (Z.of_nat p));
    destruct (Z.ltb_spec (Z.of_nat p)
                ((input_port - 1) * num_outputs
                 + Z.min (start_output - 1 + 0
                          + Z.of_nat (Z.to_nat (grid_width * grid_height)))
                         num_outputs));
    destruct (Z.leb_spec ((input_port - 1) * num_outputs + (start_output - 1))
                (Z.of_nat p));
    destruct (Z.ltb_spec (Z.of_nat p)
                ((input_port - 1) * num_outputs
                 + Z.min (start_output - 1 + grid_width * grid_height) num_outputs));
    simpl; try reflexivity; lia.
Qed.

(** X14.  For an input port and a first output that are at least 1,
    [_generate_videowall_splice_data] does not raise and returns
    [num_inputs * num_outputs] items: in the row of the input (0-indexed),
    the columns from the first output up to the end of the grid or of the
    row hold the 0-indexed input as a string, and every other item is
    ["-1"]. *)
Theorem generate_videowall_splice_data_content
    (num_inputs num_outputs input_port grid_width grid_height start_output : Z) :
  1 <= input_port -> 1 <= start_output ->
  exists d,
    Services.generate_videowall_splice_data num_inputs num_outputs input_port
      grid_width grid_height start_output = Ok d /\
    length d = Z.to_nat (num_inputs * num_outputs) /\
    forall p : nat, (p < length d)%nat ->
      d !! p =
      Some (if (((input_port - 1) * num_outputs + (start_output - 1) <=? Z.of_nat p) &&
                (Z.of_nat p <? (input_port - 1) * num_outputs
                               + Z.min (start_output - 1 + grid_width * grid_height)
                                       num_outputs))%Z
            then str_int (input_port - 1) else "-1").
Proof. apply generated_splice_data. Qed.

Lemma generate_videowall_splice_data_content_witness :
  exists d,
    Services.generate_videowall_splice_data 4 4 2 2 2 3 = Ok d /\
    length d = Z.to_nat (4 * 4) /\
    forall p : nat, (p < length d)%nat ->
      d !! p =
      Some (if (((2 - 1) * 4 + (3 - 1) <=? Z.of_nat p) &&
                (Z.of_nat p <? (2 - 1) * 4 + Z.min (3 - 1 + 2 * 2) 4))%Z
            then str_int (2 - 1) else "-1").
Proof.
  apply (generate_videowall_splice_data_content 4 4 2 2 2 3); lia.
Defined.

(** X15.  Whatever [_generate_videowall_splice_data] returns has
    [num_inputs * num_outputs] items when that product is not negative, so
    the length check of [build_payload] accepts it. *)
Theorem generated_splice_data_fits_payload
    (num_inputs num_outputs input_port grid_width grid_height start_output : Z)
    (d : list string) :
  0 <= num_inputs * num_outputs ->
  Services.generate_videowall_splice_data num_inputs num_outputs input_port
    grid_width grid_height start_output = Ok d ->
  Z.of_nat (length d) = num_inputs * num_outputs /\
  is_ok (SplicePayloadBuilder.build_payload num_inputs num_outputs (Some d)) = true.
Proof.
  intros Hpos Hgen. unfold Services.generate_videowall_splice_data in Hgen.
  apply videowall_loop_length in Hgen. rewrite repeat_length in Hgen.
  assert (Hlen : Z.of_nat (length d) = num_inputs * num_outputs) by lia.
  split; [exact Hlen|].
  now rewrite (build_payload_of_checked num_inputs num_outputs d Hlen).
Qed.

Lemma generated_splice_data_fits_payload_witness :
  Z.of_nat (length ["-1"; "-1"; "-1"; "-1"; "-1"; "-1"; "1"; "1";
                    "-1"; "-1"; "-1"; "-1"; "-1"; "-1"; "-1"; "-1"]) = 4 * 4 /\
  is_ok (SplicePayloadBuilder.build_payload 4 4
           (Some ["-1"; "-1"; "-1"; "-1"; "-1"; "-1"; "1"; "1";
                  "-1"; "-1"; "-1"; "-1"; "-1"; "-1"; "-1"; "-1"])) = true.
Proof.
  apply (generated_splice_data_fits_payload 4 4 2 2 2 3).
  - lia.
  - reflexivity.
Defined.

(** ** The service handlers *)

Lemma guarded_uncaught (what : string) (body : Poll unit)
    (s s' : HDTVCoordinator * list event) (e : exn) :
  Services.guarded what body s = (Services.Uncaught e, s') ->
  fst (body s) = Raise e /\
  exn_cls e <> CommandError /\ exn_cls e <> ConnectionError.
Proof.
  unfold Services.guarded. destruct (body s) as [[[]|err] s1]; [discriminate|].
  destruct (exn_cls err) eqn:Hcls; intros H; inversion H; subst;
    rewrite Hcls; repeat split; discriminate.
Qed.

(** X16.  [handle_set_route] rejects the call with [HomeAssistantError],
    and touches neither the device nor the coordinator, when no integration
    is set up or when the input or the output lies outside 1..configured
    count.  When [set_route] raises its command error, the handler raises
    [HomeAssistantError] with that message and requests no refresh; no
    command or connection error leaves the handler as such. *)
Theorem handle_set_route_validates (dev : Device)
    (domain_data : list (string * Services.EntryData))
    (request_refresh : Poll unit) (output input_port : Z)
    (s : HDTVCoordinator * list event) :
  let handler :=
    Services.handle_set_route dev domain_data request_refresh output input_port in
  (Services.get_first_entry_data domain_data = None ->
   handler s = (Services.HomeAssistantError Services.NO_INTEGRATION, s)) /\
  (forall ed entry,
     Services.get_first_entry_data domain_data = Some ed ->
     Services.ed_entry ed = Some entry ->
     input_port < 1 \/
     Services.configured entry Services.CONF_INPUTS 36 < input_port \/
     output < 1 \/
     Services.configured entry Services.CONF_OUTPUTS 36 < output ->
     exists msg, handler s = (Services.HomeAssistantError msg, s)) /\
  (forall ed msg,
     Services.get_first_entry_data domain_data = Some ed ->
     (forall entry, Services.ed_entry ed = Some entry ->
        1 <= input_port <= Services.configured entry Services.CONF_INPUTS 36 /\
        1 <= output <= Services.configured entry Services.CONF_OUTPUTS 36) ->
     fst (set_route dev (Services.ed_api ed) input_port output (snd s)) =
       Raise (Exn CommandError msg) ->
     handler s =
       (Services.HomeAssistantError ("Failed to set route: " ++ msg),
        (fst s, snd (set_route dev (Services.ed_api ed) input_port output (snd s))))) /\
  (forall e s', handler s = (Services.Uncaught e, s') ->
     exn_cls e <> CommandError /\ exn_cls e <> ConnectionError).
Proof.
  cbv zeta. unfold Services.handle_set_route.
  split; [|split; [|split]].
  - intros ->. reflexivity.
  - intros ed entry -> Hentry Hrange. rewrite Hentry.
    destruct (Z.ltb_spec input_port 1); simpl; [eauto|].
    destruct (Z.gtb_spec input_port
                (Services.configured entry Services.CONF_INPUTS 36)); simpl; [eauto|].
    destruct (Z.ltb_spec output 1); simpl; [eauto|].
    destruct (Z.gtb_spec output
                (Services.configured entry Services.CONF_OUTPUTS 36)); simpl; [eauto|].
    lia.
  - intros ed msg -> Hvalid Hroute.
    assert (Hpass :
      match Services.ed_entry ed with
      | Some entry =>
          if ((input_port <? 1)
              || (input_port >? Services.configured entry Services.CONF_INPUTS 36))%Z
          then Some ("Input " ++ str_int input_port ++ " is out of range (1-"
                     ++ str_int (Services.configured entry Services.CONF_INPUTS 36)
                     ++ ")")
          else if ((output <? 1)
                   || (output >? Services.configured entry Services.CONF_OUTPUTS 36))%Z
          then Some ("Output " ++ str_int output ++ " is out of range (1-"
                     ++ str_int (Services.configured entry Services.CONF_OUTPUTS 36)
                     ++ ")")
          else None
      | None => None
      end = None).
    { destruct (Services.ed_entry ed) as [entry|]; [|reflexivity].
      destruct (Hvalid entry eq_refl) as [Hi Ho].
      destruct (Z.ltb_spec input_port 1); [lia|].
      destruct (Z.gtb_spec input_port
                  (Services.configured entry Services.CONF_INPUTS 36)); [lia|].
      destruct (Z.ltb_spec output 1); [lia|].
      destruct (Z.gtb_spec output
                  (Services.configured entry Services.CONF_OUTPUTS 36)); [lia|].
      reflexivity. }
    rewrite Hpass. destruct s as [c tr]. simpl in Hroute |- *.
    unfold Services.guarded, bind, lift_io.
    destruct (set_route dev (Services.ed_api ed) input_port output tr)
      as [res tr'].
    simpl in Hroute. subst res. reflexivity.
  - intros e s'.
    destruct (Services.get_first_entry_data domain_data) as [ed|]; [|discriminate].
    match goal with
    | |- context [match ?x with Some _ => _ | None => Services.guarded _ _ _ end] =>
        destruct x
    end; [discriminate|].
    intros H. apply guarded_uncaught in H. tauto.
Qed.

Lemma handle_set_route_validates_witness :
  Services.handle_set_route steady_device [] (refresh_now steady_device sample_api)
    1 1 (new_coordinator, []) =
    (Services.HomeAssistantError Services.NO_INTEGRATION, (new_coordinator, [])) /\
  (exists msg,
     Services.handle_set_route steady_device (sample_domain true)
       (refresh_now steady_device sample_api) 1 5 (new_coordinator, []) =
     (Services.HomeAssistantError msg, (new_coordinator, []))) /\
  (exists tr',
     Services.handle_set_route (scripted_device [Responds (error_response 404)])
       (sample_domain true)
       (refresh_now (scripted_device [Responds (error_response 404)]) sample_api)
       2 3 (new_coordinator, []) =
     (Services.HomeAssistantError
        ("Failed to set route: "
         ++ "Failed to set route: Client error: JSON parse error: "
         ++ "Expecting value: line 1 column 1 (char 0)"),
      (new_coordinator, tr'))) /\
  exn_cls (Exn OtherException "boom") <> CommandError.
Proof.
  split; [|split; [|split]].
  - apply (proj1 (handle_set_route_validates steady_device []
                    (refresh_now steady_device sample_api) 1 1 (new_coordinator, []))).
    reflexivity.
  - apply (proj1 (proj2 (handle_set_route_validates steady_device (sample_domain true)
                    (refresh_now steady_device sample_api) 1 5 (new_coordinator, [])))
             _ sample_entry eq_refl eq_refl).
    right. left. vm_compute. reflexivity.
  - eexists.
    apply (proj1 (proj2 (proj2 (handle_set_route_validates
             (scripted_device [Responds (error_response 404)]) (sample_domain true)
             (refresh_now (scripted_device [Responds (error_response 404)]) sample_api)
             2 3 (new_coordinator, []))))
             _ _ eq_refl).
    + intros entry Hentry. inversion Hentry; subst entry. vm_compute.
      repeat split; discriminate.
    + reflexivity.
  - apply (proj2 (proj2 (proj2 (handle_set_route_validates
             (scripted_device [Fails (Exn OtherException "boom")]) (sample_domain true)
             (refresh_now steady_device sample_api) 2 3 (new_coordinator, []))))
             (Exn OtherException "boom")
             (new_coordinator,
              snd (set_route (scripted_device [Fails (Exn OtherException "boom")])
                     sample_api 3 2 []))).
    reflexivity.
Defined.

Lemma videowall_loop_error (num_outputs input_idx start_idx total : Z)
    (screens : list Z) (d : list string) (e : exn) :
  Services.videowall_loop num_outputs input_idx start_idx total screens d = Raise e ->
  exn_cls e = IndexError.
Proof.
  revert d. induction screens as [|screen rest IH]; intros d; simpl; [discriminate|].
  destruct (start_idx + screen >=? num_outputs)%Z; [discriminate|].
  destruct (input_idx * num_outputs + (start_idx + screen) <? total)%Z; [|apply IH].
  unfold list_assign.
  destruct ((0 <=? _) && (_ <? Z.of_nat (length d)))%Z; [apply IH|].
  destruct ((- Z.of_nat (length d) <=? _) && (_ <? 0))%Z; [apply IH|].
  intros H. now inversion H.
Qed.

(** X17.  [handle_set_videowall] never reaches the device and never
    completes: whatever the call, the trace and the coordinator are left
    as they were and the handler ends in an exception.  After the
    validation the call to [api.set_splice], a method the client does not
    have, raises [AttributeError], which no [except] clause of the handler
    catches. *)
Theorem handle_set_videowall_never_served
    (domain_data : list (string * Services.EntryData))
    (request_refresh : Poll unit)
    (input_port grid_width grid_height start_output : Z)
    (s : HDTVCoordinator * list event) :
  let run :=
    Services.handle_set_videowall domain_data request_refresh
      input_port grid_width grid_height start_output s in
  snd run = s /\
  fst run <> Services.Served /\
  (forall e, fst run = Services.Uncaught e ->
     exn_cls e = AttributeError \/ exn_cls e = IndexError) /\
  (forall ed entry,
     Services.get_first_entry_data domain_data = Some ed ->
     Services.ed_entry ed = Some entry ->
     1 <= input_port <= Services.configured entry Services.CONF_INPUTS 36 ->
     1 <= start_output ->
     start_output + grid_width * grid_height - 1
       <= Services.configured entry Services.CONF_OUTPUTS 36 ->
     fst run =
       Services.Uncaught
         (Exn AttributeError "'HDTVMatrixApi' object has no attribute 'set_splice'")).
Proof.
  cbv zeta. unfold Services.handle_set_videowall.
  destruct (Services.get_first_entry_data domain_data) as [ed|].
  2:{ repeat split; try discriminate. }
  assert (Hguard : forall ni no,
    let run := Services.guarded "Failed to configure videowall: "
      (data <- lift_result
                 (Services.generate_videowall_splice_data ni no input_port
                    grid_width grid_height start_output) ;;
       Services.set_splice ni no data ;;;
       Services.refresh_if request_refresh (Services.ed_coordinator ed)) s in
    snd run = s /\ fst run <> Services.Served /\
    (forall e, fst run = Services.Uncaught e ->
       exn_cls e = AttributeError \/ exn_cls e = IndexError) /\
    (forall d, Services.generate_videowall_splice_data ni no input_port
                 grid_width grid_height start_output = Ok d ->
       fst run = Services.Uncaught
         (Exn AttributeError "'HDTVMatrixApi' object has no attribute 'set_splice'"))).
  { intros ni no. cbv zeta.
    unfold Services.guarded, bind, lift_result, Services.set_splice, raise.
    destruct (Services.generate_videowall_splice_data ni no input_port
                grid_width grid_height start_output) as [d|e] eqn:Hgen; simpl.
    - repeat split; try discriminate.
      intros e He. inversion He. now left.
    - unfold Services.generate_videowall_splice_data in Hgen.
      apply videowall_loop_error in Hgen. rewrite Hgen. simpl.
      repeat split; try discriminate.
      intros e' He. inversion He; subst. now right. }
  destruct (Services.ed_entry ed) as [entry|] eqn:Hent.
  - destruct (Z.ltb_spec input_port 1); simpl.
    { repeat split; try discriminate. intros ed' entry' Hed Hentry.
      inversion Hed; subst ed'. rewrite Hent in Hentry.
      inversion Hentry; subst entry'. lia. }
    destruct (Z.gtb_spec input_port
                (Services.configured entry Services.CONF_INPUTS 36)); simpl.
    { repeat split; try discriminate. intros ed' entry' Hed Hentry.
      inversion Hed; subst ed'. rewrite Hent in Hentry.
      inversion Hentry; subst entry'. lia. }
    destruct (Z.gtb_spec (start_output + grid_width * grid_height - 1)
                (Services.configured entry Services.CONF_OUTPUTS 36)); simpl.
    { repeat split; try discriminate. intros ed' entry' Hed Hentry.
      inversion Hed; subst ed'. rewrite Hent in Hentry.
      inversion Hentry; subst entry'. lia. }
    destruct (Hguard (Services.configured entry Services.CONF_INPUTS 36)
                (Services.configured entry Services.CONF_OUTPUTS 36))
      as (G1 & G2 & G3 & G4).
    repeat split; auto.
    intros ed' entry' _ _ Hin Hstart _.
    destruct (generated_splice_data
                (Services.configured entry Services.CONF_INPUTS 36)
                (Services.configured entry Services.CONF_OUTPUTS 36)
                input_port grid_width grid_height start_output)
      as (d & Hd & _); [lia | lia |].
    exact (G4 d Hd).
  - destruct (Hguard 36 36) as (G1 & G2 & G3 & G4).
    repeat split; auto. intros ed' entry' Hed Hentry.
    inversion Hed; subst ed'. rewrite Hent in Hentry. discriminate Hentry.
Qed.

Lemma handle_set_videowall_never_served_witness :
  fst (Services.handle_set_videowall (sample_domain true)
         (refresh_now steady_device sample_api) 2 2 2 1 (new_coordinator, [])) =
    Services.Uncaught
      (Exn AttributeError "'HDTVMatrixApi' object has no attribute 'set_splice'") /\
  (exn_cls (Exn AttributeError "'HDTVMatrixApi' object has no attribute 'set_splice'")
     = AttributeError \/
   exn_cls (Exn AttributeError "'HDTVMatrixApi' object has no attribute 'set_splice'")
     = IndexError).
Proof.
  split.
  - apply (proj2 (proj2 (proj2 (handle_set_videowall_never_served (sample_domain true)
             (refresh_now steady_device sample_api) 2 2 2 1 (new_coordinator, []))))
             _ sample_entry eq_refl eq_refl).
    + vm_compute. split; discriminate.
    + lia.
    + vm_compute. discriminate.
  - apply (proj1 (proj2 (proj2 (handle_set_videowall_never_served (sample_domain true)
             (refresh_now steady_device sample_api) 2 2 2 1 (new_coordinator, []))))).
    reflexivity.
Defined.

Lemma handle_set_splice_run
    (domain_data : list (string * Services.EntryData))
    (request_refresh : Poll unit) (json_loads : string -> result pyval)
    (splice_data_str : string) (s : HDTVCoordinator * list event)
    (ed : Services.EntryData) :
  Services.get_first_entry_data domain_data = Some ed ->
  let num_inputs :=
    match Services.ed_entry ed with
    | Some entry => Services.configured entry Services.CONF_INPUTS 36
    | None => 36
    end in
  let num_outputs :=
    match Services.ed_entry ed with
    | Some entry => Services.configured entry Services.CONF_OUTPUTS 36
    | None => 36
    end in
  Services.handle_set_splice domain_data request_refresh json_loads
    splice_data_str s =
  (match json_loads splice_data_str with
   | Raise err =>
       Services.HomeAssistantError ("Invalid JSON in splice_data: " ++ exn_msg err)
   | Ok (PList l) =>
       if (Z.of_nat (length l) =? num_inputs * num_outputs)%Z then
         Services.Uncaught
           (Exn AttributeError
              "'HDTVMatrixApi' object has no attribute 'set_splice'")
       else
         Services.HomeAssistantError
           ("splice_data must contain " ++ str_int (num_inputs * num_outputs)
            ++ " elements (" ++ str_int num_inputs ++ " inputs "
            ++ String (ascii_of_nat 215) " "
            ++ str_int num_outputs ++ " outputs), got "
            ++ str_int (Z.of_nat (length l)))
   | Ok _ => Services.HomeAssistantError "splice_data must be a JSON array"
   end, s).
Proof.
  intros Hed. cbv zeta. unfold Services.handle_set_splice. rewrite Hed.
  destruct (Services.ed_entry ed) as [entry|];
    (destruct (json_loads splice_data_str) as [[| b | z | str | l | d]|err];
     try reflexivity;
     rewrite length_map;
     destruct (Z.of_nat (length l) =? _)%Z; reflexivity).
Qed.

(** X18.  [handle_set_splice] never reaches the device and never
    completes.  Text that does not decode, a decoded value that is not a
    list, and a list whose length is not inputs times outputs are each
    rejected with [HomeAssistantError]; a list of the right length gets as
    far as the call to [api.set_splice], which raises [AttributeError]. *)
Theorem handle_set_splice_never_served
    (domain_data : list (string * Services.EntryData))
    (request_refresh : Poll unit) (json_loads : string -> result pyval)
    (splice_data_str : string) (s : HDTVCoordinator * list event) :
  let run :=
    Services.handle_set_splice domain_data request_refresh json_loads
      splice_data_str s in
  snd run = s /\
  fst run <> Services.Served /\
  (forall ed err,
     Services.get_first_entry_data domain_data = Some ed ->
     json_loads splice_data_str = Raise err ->
     fst run =
       Services.HomeAssistantError ("Invalid JSON in splice_data: " ++ exn_msg err)) /\
  (forall ed v,
     Services.get_first_entry_data domain_data = Some ed ->
     json_loads splice_data_str = Ok v ->
     (forall l, v <> PList l) ->
     fst run = Services.HomeAssistantError "splice_data must be a JSON array") /\
  (forall ed l,
     Services.get_first_entry_data domain_data = Some ed ->
     json_loads splice_data_str = Ok (PList l) ->
     (Z.of_nat (length l) <>
        match Services.ed_entry ed with
        | Some entry =>
            Services.configured entry Services.CONF_INPUTS 36
            * Services.configured entry Services.CONF_OUTPUTS 36
        | None => 36 * 36
        end ->
      exists msg, fst run = Services.HomeAssistantError msg) /\
     (Z.of_nat (length l) =
        match Services.ed_entry ed with
        | Some entry =>
            Services.configured entry Services.CONF_INPUTS 36
            * Services.configured entry Services.CONF_OUTPUTS 36
        | None => 36 * 36
        end ->
      fst run =
        Services.Uncaught
          (Exn AttributeError
             "'HDTVMatrixApi' object has no attribute 'set_splice'"))).
Proof.
  cbv zeta.
  destruct (Services.get_first_entry_data domain_data) as [ed|] eqn:Hed.
  2:{ unfold Services.handle_set_splice. rewrite Hed.
      repeat split; try discriminate. }
  rewrite (handle_set_splice_run domain_data request_refresh json_loads
             splice_data_str s ed Hed).
  cbn [fst snd]. split; [reflexivity|]. split; [|split; [|split]].
  - destruct (json_loads splice_data_str) as [[| b | z | str | l | d]|err];
      try discriminate.
    destruct (Z.of_nat (length l) =? _)%Z; discriminate.
  - intros ed' err _ ->. reflexivity.
  - intros ed' v _ -> Hnl. destruct v; try reflexivity.
    now contradiction (Hnl l).
  - intros ed' l Hed' ->. inversion Hed'; subst ed'.
    destruct (Services.ed_entry ed) as [entry|]; split; intros Hlen.
    + apply Z.eqb_neq in Hlen. rewrite Hlen. eauto.
    + apply Z.eqb_eq in Hlen. now rewrite Hlen.
    + apply Z.eqb_neq in Hlen. rewrite Hlen. eauto.
    + apply Z.eqb_eq in Hlen. now rewrite Hlen.
Qed.

Lemma handle_set_splice_never_served_witness :
  fst (Services.handle_set_splice (sample_domain true)
         (refresh_now steady_device sample_api) sample_json_loads "oops"
         (new_coordinator, [])) =
    Services.HomeAssistantError
      ("Invalid JSON in splice_data: "
       ++ exn_msg (Exn ValueError "Expecting value: line 1 column 1 (char 0)")) /\
  fst (Services.handle_set_splice (sample_domain true)
         (refresh_now steady_device sample_api) sample_json_loads "5"
         (new_coordinator, [])) =
    Services.HomeAssistantError "splice_data must be a JSON array" /\
  (exists msg,
     fst (Services.handle_set_splice (sample_domain true)
            (refresh_now steady_device sample_api) sample_json_loads "[1, 2]"
            (new_coordinator, [])) = Services.HomeAssistantError msg) /\
  fst (Services.handle_set_splice
         [("entry_1", {| Services.ed_api := sample_api;
                         Services.ed_entry :=
                           Some {| Services.options := [("inputs", 1)];
                                   Services.entry_data := [("outputs", 2)] |};
                         Services.ed_coordinator := true |})]
         (refresh_now steady_device sample_api) sample_json_loads "[1, 2]"
         (new_coordinator, [])) =
    Services.Uncaught
      (Exn AttributeError "'HDTVMatrixApi' object has no attribute 'set_splice'").
Proof.
  split; [|split; [|split]].
  - apply (proj1 (proj2 (proj2 (handle_set_splice_never_served (sample_domain true)
             (refresh_now steady_device sample_api) sample_json_loads "oops"
             (new_coordinator, []))))
             _ _ eq_refl eq_refl).
  - apply (proj1 (proj2 (proj2 (proj2 (handle_set_splice_never_served
             (sample_domain true) (refresh_now steady_device sample_api)
             sample_json_loads "5" (new_coordinator, [])))))
             _ (PInt 5) eq_refl eq_refl).
    intros l. discriminate.
  - apply (proj1 (proj2 (proj2 (proj2 (proj2 (handle_set_splice_never_served
             (sample_domain true) (refresh_now steady_device sample_api)
             sample_json_loads "[1, 2]" (new_coordinator, [])))))
             _ [PInt 1; PInt 2] eq_refl eq_refl)).
    vm_compute. discriminate.
  - apply (proj2 (proj2 (proj2 (proj2 (proj2 (handle_set_splice_never_served
             [("entry_1", {| Services.ed_api := sample_api;
                             Services.ed_entry :=
                               Some {| Services.options := [("inputs", 1)];
                                       Services.entry_data := [("outputs", 2)] |};
                             Services.ed_coordinator := true |})]
             (refresh_now steady_device sample_api)
             sample_json_loads "[1, 2]" (new_coordinator, [])))))
             _ [PInt 1; PInt 2] eq_refl eq_refl)).
    reflexivity.
Defined.

(** X19.  [handle_set_all_to_input] rejects the call with
    [HomeAssistantError], and touches neither the device nor the
    coordinator, when no integration is set up or when the input lies
    outside 1..configured inputs.  Otherwise, with or without a
    coordinator, it tries the route for every output from 1 to the
    configured number of outputs, 36 when there is no config entry, before
    anything else: a failed output ends the call with [HomeAssistantError]
    and no refresh, and when every route went through the refresh is
    requested if there is a coordinator.  No command or connection error
    leaves the handler as such. *)
Theorem handle_set_all_to_input_validates (dev : Device)
    (domain_data : list (string * Services.EntryData))
    (request_refresh : Poll unit) (input_port : Z)
    (s : HDTVCoordinator * list event) :
  let handler :=
    Services.handle_set_all_to_input dev domain_data request_refresh input_port in
  (Services.get_first_entry_data domain_data = None ->
   handler s = (Services.HomeAssistantError Services.NO_INTEGRATION, s)) /\
  (forall ed entry,
     Services.get_first_entry_data domain_data = Some ed ->
     Services.ed_entry ed = Some entry ->
     input_port < 1 \/
     Services.configured entry Services.CONF_INPUTS 36 < input_port ->
     exists msg, handler s = (Services.HomeAssistantError msg, s)) /\
  (forall ed,
     Services.get_first_entry_data domain_data = Some ed ->
     (forall entry, Services.ed_entry ed = Some entry ->
        1 <= input_port <= Services.configured entry Services.CONF_INPUTS 36) ->
     let num_outputs :=
       match Services.ed_entry ed with
       | Some entry => Services.configured entry Services.CONF_OUTPUTS 36
       | None => 36
       end in
     let routed :=
       trace_after_routes dev (Services.ed_api ed) input_port
         (range 1 (num_outputs + 1)) (snd s) in
     gets routed =
       app (gets (snd s))
         (map (fun o => api_request (Services.ed_api ed) COMMAND
                          (Some (route_params input_port o)))
            (range 1 (num_outputs + 1))) /\
     handler s =
       match fst (set_all_to_input dev (Services.ed_api ed) input_port
                    num_outputs (snd s)) with
       | Raise e =>
           (Services.HomeAssistantError
              ("Failed to set all outputs: " ++ exn_msg e), (fst s, routed))
       | Ok _ =>
           if Services.ed_coordinator ed
           then Services.guarded "Failed to set all outputs: " request_refresh
                  (fst s, routed)
           else (Services.Served, (fst s, routed))
       end) /\
  (forall e s', handler s = (Services.Uncaught e, s') ->
     exn_cls e <> CommandError /\ exn_cls e <> ConnectionError).
Proof.
  cbv zeta. unfold Services.handle_set_all_to_input.
  split; [|split; [|split]].
  - intros ->. reflexivity.
  - intros ed entry -> Hentry Hrange. rewrite Hentry.
    destruct (Z.ltb_spec input_port 1); simpl; [eauto|].
    destruct (Z.gtb_spec input_port
                (Services.configured entry Services.CONF_INPUTS 36)); simpl; [eauto|].
    lia.
  - intros ed -> Hvalid. split; [apply gets_trace_after_routes|].
    assert (Hrun : forall n,
      Services.guarded "Failed to set all outputs: "
        (lift_io (set_all_to_input dev (Services.ed_api ed) input_port n) ;;;
         Services.refresh_if request_refresh (Services.ed_coordinator ed)) s =
      match fst (set_all_to_input dev (Services.ed_api ed) input_port n (snd s)) with
      | Raise e =>
          (Services.HomeAssistantError
             ("Failed to set all outputs: " ++ exn_msg e),
           (fst s, trace_after_routes dev (Services.ed_api ed) input_port
                     (range 1 (n + 1)) (snd s)))
      | Ok _ =>
          if Services.ed_coordinator ed
          then Services.guarded "Failed to set all outputs: " request_refresh
                 (fst s, trace_after_routes dev (Services.ed_api ed) input_port
                           (range 1 (n + 1)) (snd s))
          else (Services.Served,
                (fst s, trace_after_routes dev (Services.ed_api ed) input_port
                          (range 1 (n + 1)) (snd s)))
      end).
    { intros n. destruct s as [c tr].
      unfold Services.guarded, bind, lift_io, Services.refresh_if, ret.
      cbn [fst snd]. rewrite set_all_to_input_run. cbn [fst snd].
      destruct (failure_notes _); [|reflexivity].
      now destruct (Services.ed_coordinator ed). }
    destruct (Services.ed_entry ed) as [entry|].
    + destruct (Hvalid entry eq_refl) as [Hlo Hhi].
      destruct (Z.ltb_spec input_port 1); [lia|].
      destruct (Z.gtb_spec input_port
                  (Services.configured entry Services.CONF_INPUTS 36)); [lia|].
      cbn [orb]. apply Hrun.
    + apply Hrun.
  - intros e s'.
    destruct (Services.get_first_entry_data domain_data) as [ed|]; [|discriminate].
    match goal with
    | |- context [match ?x with inl _ => _ | inr _ => _ end] => destruct x
    end; [discriminate|].
    intros H. apply guarded_uncaught in H. tauto.
Qed.

Lemma handle_set_all_to_input_validates_witness :
  Services.handle_set_all_to_input steady_device []
    (refresh_now steady_device sample_api) 1 (new_coordinator, []) =
    (Services.HomeAssistantError Services.NO_INTEGRATION, (new_coordinator, [])) /\
  (exists msg,
     Services.handle_set_all_to_input steady_device (sample_domain true)
       (refresh_now steady_device sample_api) 5 (new_coordinator, []) =
     (Services.HomeAssistantError msg, (new_coordinator, []))) /\
  Services.handle_set_all_to_input steady_device (sample_domain true)
    (refresh_now steady_device sample_api) 2 (new_coordinator, []) =
    (Services.Served,
     async_refresh steady_device sample_api
       (new_coordinator,
        trace_after_routes steady_device sample_api 2 [1; 2; 3; 4] [])) /\
  exn_cls (Exn OtherException "boom") <> ConnectionError.
Proof.
  split; [|split; [|split]].
  - apply (proj1 (handle_set_all_to_input_validates steady_device []
                    (refresh_now steady_device sample_api) 1 (new_coordinator, []))).
    reflexivity.
  - apply (proj1 (proj2 (handle_set_all_to_input_validates steady_device
                    (sample_domain true) (refresh_now steady_device sample_api) 5
                    (new_coordinator, [])))
             _ sample_entry eq_refl eq_refl).
    right. vm_compute. reflexivity.
  - destruct (proj1 (proj2 (proj2 (handle_set_all_to_input_validates
                    steady_device
                    (sample_domain true) (refresh_now steady_device sample_api) 2
                    (new_coordinator, []))))
                _ eq_refl) as [_ Hrun].
    + intros entry Hentry. inversion Hentry; subst entry. vm_compute.
      split; discriminate.
    + exact Hrun.
  - apply (proj2 (proj2 (proj2 (handle_set_all_to_input_validates
             steady_device (sample_domain true)
             (fun s => (Raise (Exn OtherException "boom"), s)) 2
             (new_coordinator, []))))
             (Exn OtherException "boom")
             (new_coordinator, snd (set_all_to_input steady_device sample_api 2 4 []))).
    reflexivity.
Defined.

(* ===================================================================== *)
(** * The entities and the validation of the configuration               *)
(* ===================================================================== *)

(** ** [int()] of a printed integer *)

Lemma underscores_ok_without (s : string) (after_digit : bool) :
  string_forall (fun c => negb (Ascii.eqb c "_")) s = true ->
  underscores_ok after_digit s = true /\ remove_underscores s = s.
Proof.
  revert after_digit. induction s as [|c s IH]; intros after_digit; simpl;
    [now split|].
  rewrite andb_true_iff, negb_true_iff. intros [Hc Hs]. rewrite Hc.
  destruct (IH (is_digit c) Hs) as [Hok Hrm]. now rewrite Hrm.
Qed.

Lemma py_int_str_str_int (z : Z) : py_int_str (str_int z) = Ok z.
Proof.
  pose proof (str_int_digits z) as Hdig.
  unfold py_int_str.
  rewrite strip_without_space
    by (apply (string_forall_impl _ _ _ (fun c H =>
          proj2 (negb_true_iff _) (proj1 (is_digit_or_minus_cases c H))) Hdig)).
  destruct (underscores_ok_without (str_int z) false) as [Hok Hrm].
  { apply (string_forall_impl _ _ _ (fun c H =>
      proj2 (negb_true_iff _) (proj1 (proj2 (is_digit_or_minus_cases c H)))) Hdig). }
  now rewrite Hok, Hrm, py_int_str_int.
Qed.

Lemma py_int_str_error (s : string) (e : exn) :
  py_int_str s = Raise e -> exn_cls e = ValueError.
Proof.
  unfold py_int_str. destruct (underscores_ok false (strip s)).
  - destruct (py_int _); [discriminate|]. intros H. now inversion H.
  - intros H. now inversion H.
Qed.

Lemma py_int_of_error (x : anyval) (e : exn) :
  py_int_of x = Raise e ->
  exn_cls e = ValueError \/ exn_cls e = TypeError \/
  (exn_cls e = OverflowError /\ exists b, x = Float (Infinity b)).
Proof.
  destruct x as [v|f]; cbn [py_int_of].
  - destruct v; intros H; try discriminate H;
      try (right; left; now inversion H).
    left. exact (py_int_str_error _ _ H).
  - destruct f as [m ex|b|]; cbn [float_int]; intros H; inversion H; subst e.
    + right. right. split; [reflexivity | now exists b].
    + now left.
Qed.

(** X20.  The validators of the port counts of select.py and sensor.py
    agree and, for every value but an infinite float, return a count in
    1..64: a count in that range is kept, also when it is given as its
    decimal string, a count above 64 becomes 64, and a count below 1, or a
    value for which [int()] raises [ValueError] or [TypeError], becomes 4.
    Validating a validated count changes nothing.  For an infinite float
    [int()] raises [OverflowError], which the validators do not catch. *)
Theorem port_count_validation (count : anyval) :
  ((forall b, count <> Float (Infinity b)) ->
   exists n, validate_port_count count = Ok n /\ 1 <= n <= 64 /\
             validate_port_count (Val (PInt n)) = Ok n) /\
  validate_output_count count = validate_port_count count /\
  (forall n, 1 <= n <= 64 ->
     validate_port_count (Val (PInt n)) = Ok n /\
     validate_port_count (Val (PStr (str_int n))) = Ok n) /\
  (forall n, 64 < n -> validate_port_count (Val (PInt n)) = Ok 64) /\
  (forall n, n < 1 -> validate_port_count (Val (PInt n)) = Ok 4) /\
  (forall e, py_int_of count = Raise e -> exn_cls e <> OverflowError ->
     validate_port_count count = Ok 4) /\
  (forall b, validate_port_count (Float (Infinity b)) =
     Raise (Exn OverflowError "cannot convert float infinity to integer")).
Proof.
  assert (Hkeep : forall n, 1 <= n <= 64 ->
                            validate_port_count (Val (PInt n)) = Ok n).
  { intros n Hn. unfold validate_port_count. cbn [py_int_of].
    destruct (Z.ltb_spec n 1); [lia|].
    destruct (Z.gtb_spec n 64); [lia | reflexivity]. }
  assert (Hraise : forall e, py_int_of count = Raise e ->
                             exn_cls e <> OverflowError ->
                             validate_port_count count = Ok 4).
  { intros e He Hcls. unfold validate_port_count. rewrite He.
    destruct (py_int_of_error count e He) as [-> | [-> | [Hov _]]];
      [reflexivity | reflexivity | contradiction]. }
  split; [|split; [reflexivity|split; [|split; [|split; [|split]]]]].
  - intros Hfinite. destruct (py_int_of count) as [num|e] eqn:Hint.
    + assert (Hv : validate_port_count count =
                   Ok (if (num <? 1)%Z then 4
                       else if (num >? 64)%Z then 64 else num)).
      { unfold validate_port_count. rewrite Hint. destruct (num <? 1)%Z; [reflexivity|].
        now destruct (num >? 64)%Z. }
      rewrite Hv. clear Hv.
      destruct (Z.ltb_spec num 1);
        [exists 4; rewrite Hkeep by lia;
         split; [reflexivity | split; [lia | reflexivity]]|].
      destruct (Z.gtb_spec num 64);
        [exists 64; rewrite Hkeep by lia;
         split; [reflexivity | split; [lia | reflexivity]]|].
      exists num. rewrite Hkeep by lia.
      split; [reflexivity | split; [lia | reflexivity]].
    + exists 4. rewrite Hkeep by lia. rewrite (Hraise e eq_refl).
      * split; [reflexivity | split; [lia | reflexivity]].
      * intros Hcls.
        destruct (py_int_of_error count e Hint) as [H | [H | [_ [b Hb]]]];
          [congruence | congruence | exact (Hfinite b Hb)].
  - intros n Hn. split; [now apply Hkeep|].
    unfold validate_port_count. cbn [py_int_of]. rewrite py_int_str_str_int.
    destruct (Z.ltb_spec n 1); [lia|].
    destruct (Z.gtb_spec n 64); [lia | reflexivity].
  - intros n Hn. unfold validate_port_count. cbn [py_int_of].
    destruct (Z.ltb_spec n 1); [lia|].
    destruct (Z.gtb_spec n 64); [reflexivity | lia].
  - intros n Hn. unfold validate_port_count. cbn [py_int_of].
    destruct (Z.ltb_spec n 1); [reflexivity | lia].
  - exact Hraise.
  - reflexivity.
Qed.

Lemma port_count_validation_witness :
  (exists n, validate_port_count (Float (Finite 21 (-1))) = Ok n /\ 1 <= n <= 64 /\
             validate_port_count (Val (PInt n)) = Ok n) /\
  (validate_port_count (Val (PInt 8)) = Ok 8 /\
   validate_port_count (Val (PStr (str_int 8))) = Ok 8) /\
  validate_port_count (Val (PInt 100)) = Ok 64 /\
  validate_port_count (Val (PInt 0)) = Ok 4 /\
  validate_port_count (Val (PStr "four")) = Ok 4.
Proof.
  split; [|split; [|split; [|split]]].
  - apply (proj1 (port_count_validation (Float (Finite 21 (-1))))).
    intros b H. discriminate H.
  - apply (proj1 (proj2 (proj2 (port_count_validation (Val PNone)))) 8). lia.
  - apply (proj1 (proj2 (proj2 (proj2 (port_count_validation (Val PNone))))) 100).
    lia.
  - apply (proj1 (proj2 (proj2 (proj2 (proj2 (port_count_validation (Val PNone))))))
             0).
    lia.
  - apply (proj1 (proj2 (proj2 (proj2 (proj2 (proj2
             (port_count_validation (Val (PStr "four"))))))))
             (Exn ValueError "invalid literal for int() with base 10: 'four'")).
    + reflexivity.
    + discriminate.
Defined.

(** X21.  For every value but an infinite float [_validate_scan_interval]
    returns an interval in 1..60: an interval in that range is kept, also
    when it is given as its decimal string, one above 60 becomes 60, and one
    below 1, or a value for which [int()] raises [ValueError] or
    [TypeError], becomes 1.  For an infinite float [int()] raises
    [OverflowError], which the validator does not catch. *)
Theorem scan_interval_validation (scan_interval : anyval) :
  ((forall b, scan_interval <> Float (Infinity b)) ->
   exists n, validate_scan_interval scan_interval = Ok n /\ 1 <= n <= 60 /\
             validate_scan_interval (Val (PInt n)) = Ok n) /\
  (forall n, 1 <= n <= 60 ->
     validate_scan_interval (Val (PInt n)) = Ok n /\
     validate_scan_interval (Val (PStr (str_int n))) = Ok n) /\
  (forall n, 60 < n -> validate_scan_interval (Val (PInt n)) = Ok 60) /\
  (forall n, n < 1 -> validate_scan_interval (Val (PInt n)) = Ok 1) /\
  (forall e, py_int_of scan_interval = Raise e -> exn_cls e <> OverflowError ->
     validate_scan_interval scan_interval = Ok 1) /\
  (forall b, validate_scan_interval (Float (Infinity b)) =
     Raise (Exn OverflowError "cannot convert float infinity to integer")).
Proof.
  assert (Hkeep : forall n, 1 <= n <= 60 ->
                            validate_scan_interval (Val (PInt n)) = Ok n).
  { intros n Hn. unfold validate_scan_interval. cbn [py_int_of].
    destruct (Z.ltb_spec n 1); [lia|].
    destruct (Z.gtb_spec n 60); [lia | reflexivity]. }
  assert (Hraise : forall e, py_int_of scan_interval = Raise e ->
                             exn_cls e <> OverflowError ->
                             validate_scan_interval scan_interval = Ok 1).
  { intros e He Hcls. unfold validate_scan_interval. rewrite He.
    destruct (py_int_of_error scan_interval e He) as [-> | [-> | [Hov _]]];
      [reflexivity | reflexivity | contradiction]. }
  split; [|split; [|split; [|split; [|split]]]].
  - intros Hfinite. destruct (py_int_of scan_interval) as [num|e] eqn:Hint.
    + assert (Hv : validate_scan_interval scan_interval =
                   Ok (if (num <? 1)%Z then 1
                       else if (num >? 60)%Z then 60 else num)).
      { unfold validate_scan_interval. rewrite Hint.
        destruct (num <? 1)%Z; [reflexivity|]. now destruct (num >? 60)%Z. }
      rewrite Hv. clear Hv.
      destruct (Z.ltb_spec num 1);
        [exists 1; rewrite Hkeep by lia;
         split; [reflexivity | split; [lia | reflexivity]]|].
      destruct (Z.gtb_spec num 60);
        [exists 60; rewrite Hkeep by lia;
         split; [reflexivity | split; [lia | reflexivity]]|].
      exists num. rewrite Hkeep by lia.
      split; [reflexivity | split; [lia | reflexivity]].
    + exists 1. rewrite Hkeep by lia. rewrite (Hraise e eq_refl).
      * split; [reflexivity | split; [lia | reflexivity]].
      * intros Hcls.
        destruct (py_int_of_error scan_interval e Hint) as [H | [H | [_ [b Hb]]]];
          [congruence | congruence | exact (Hfinite b Hb)].
  - intros n Hn. split; [now apply Hkeep|].
    unfold validate_scan_interval. cbn [py_int_of]. rewrite py_int_str_str_int.
    destruct (Z.ltb_spec n 1); [lia|].
    destruct (Z.gtb_spec n 60); [lia | reflexivity].
  - intros n Hn. unfold validate_scan_interval. cbn [py_int_of].
    destruct (Z.ltb_spec n 1); [lia|].
    destruct (Z.gtb_spec n 60); [reflexivity | lia].
  - intros n Hn. unfold validate_scan_interval. cbn [py_int_of].
    destruct (Z.ltb_spec n 1); [reflexivity | lia].
  - exact Hraise.
  - reflexivity.
Qed.

Lemma scan_interval_validation_witness :
  (exists n, validate_scan_interval (Float NaN) = Ok n /\ 1 <= n <= 60 /\
             validate_scan_interval (Val (PInt n)) = Ok n) /\
  (validate_scan_interval (Val (PInt 30)) = Ok 30 /\
   validate_scan_interval (Val (PStr (str_int 30))) = Ok 30) /\
  validate_scan_interval (Val (PInt 61)) = Ok 60 /\
  validate_scan_interval (Val (PInt (-5))) = Ok 1 /\
  validate_scan_interval (Val PNone) = Ok 1.
Proof.
  split; [|split; [|split; [|split]]].
  - apply (proj1 (scan_interval_validation (Float NaN))).
    intros b H. discriminate H.
  - apply (proj1 (proj2 (scan_interval_validation (Val PNone))) 30). lia.
  - apply (proj1 (proj2 (proj2 (scan_interval_validation (Val PNone)))) 61). lia.
  - apply (proj1 (proj2 (proj2 (proj2 (scan_interval_validation (Val PNone)))))
             (-5)).
    lia.
  - apply (proj1 (proj2 (proj2 (proj2 (proj2 (scan_interval_validation (Val PNone))))))
             (Exn TypeError
                ("int() argument must be a string, a bytes-like object "
                 ++ "or a real number, not 'NoneType'"))).
    + reflexivity.
    + discriminate.
Defined.

(** ** The options of a selector *)

Lemma split_words_word (w s cur : string) :
  string_forall (fun c => negb (is_space c)) w = true ->
  split_words cur (w ++ s) = split_words (cur ++ w) s.
Proof.
  revert cur. induction w as [|c w IH]; intros cur Hw.
  - now rewrite string_app_nil_r.
  - simpl in Hw. apply andb_true_iff in Hw. destruct Hw as [Hc Hw].
    apply negb_true_iff in Hc.
    change (String c w ++ s) with (String c (w ++ s)).
    cbn [split_words]. rewrite Hc, (IH _ Hw), string_app_assoc. reflexivity.
Qed.

Lemma str_int_not_empty (z : Z) : str_int z <> "".
Proof.
  intros H. pose proof (py_int_str_int z) as Hp. rewrite H in Hp.
  vm_compute in Hp. discriminate Hp.
Qed.

Lemma is_digit_or_minus_not_space (c : ascii) :
  is_digit_or_minus c = true -> is_space c = false.
Proof.
  destruct c as [[] [] [] [] [] [] [] []]; vm_compute; intros H;
    try discriminate H; reflexivity.
Qed.

Lemma split_whitespace_option (i : Z) :
  split_whitespace ("Entrada " ++ str_int i) = ["Entrada"; str_int i].
Proof.
  unfold split_whitespace.
  change ("Entrada " ++ str_int i) with ("Entrada" ++ String " " (str_int i)).
  rewrite split_words_word by reflexivity.
  change ("" ++ "Entrada") with "Entrada". cbn [split_words].
  change (is_space " ") with true. cbv iota.
  rewrite <- (string_app_nil_r (str_int i)) at 1.
  rewrite split_words_word.
  - change ("" ++ str_int i) with (str_int i). cbn [split_words].
    destruct (str_int i) eqn:Hs; [now apply str_int_not_empty in Hs | reflexivity].
  - apply (string_forall_impl _ _ _ (fun c H =>
      proj2 (negb_true_iff _) (is_digit_or_minus_not_space c H))
      (str_int_digits i)).
Qed.

Lemma parse_input_number_option (i : Z) :
  Select.parse_input_number ("Entrada " ++ str_int i) = Ok (Some i).
Proof.
  unfold Select.parse_input_number. rewrite split_whitespace_option.
  cbn [length nth Nat.eqb]. change (String.eqb "Entrada" "Entrada") with true.
  cbn [andb]. now rewrite py_int_str_str_int.
Qed.

Lemma parse_input_number_total (s : string) :
  exists r, Select.parse_input_number s = Ok r.
Proof.
  unfold Select.parse_input_number.
  destruct (Nat.eqb _ 2 && String.eqb _ "Entrada")%bool; [|eauto].
  destruct (py_int_str _) as [n|e] eqn:Hint; [eauto|].
  apply py_int_str_error in Hint. rewrite Hint. eauto.
Qed.

Lemma nth_map_seq_from {A} (f : nat -> A) (start m j : nat) (d : A) :
  (j < m)%nat -> nth j (map f (seq start m)) d = f (start + j)%nat.
Proof.
  revert start j. induction m as [|m IH]; intros start j Hj; [lia|].
  destruct j as [|j]; simpl.
  - now rewrite Nat.add_0_r.
  - rewrite IH by lia. f_equal. lia.
Qed.

Lemma nth_map_seq {A} (f : nat -> A) (m j : nat) (d : A) :
  (j < m)%nat -> nth j (map f (seq 0 m)) d = f j.
Proof. intros Hj. now rewrite nth_map_seq_from. Qed.

(** X22.  The options of a selector with [n] inputs are ["Entrada 1"] to
    ["Entrada n"] followed by ["Sin entrada"].  [_parse_input_number] never
    raises, reads the number back from every ["Entrada i"], and gives
    nothing for ["Sin entrada"]. *)
Theorem selector_options_round_trip (num_inputs : Z) :
  length (Select.generate_options num_inputs) = S (Z.to_nat num_inputs) /\
  nth (Z.to_nat num_inputs) (Select.generate_options num_inputs) "" = "Sin entrada" /\
  (forall i, 1 <= i <= num_inputs ->
     nth (Z.to_nat (i - 1)) (Select.generate_options num_inputs) "" =
       "Entrada " ++ str_int i) /\
  (forall i, Select.parse_input_number ("Entrada " ++ str_int i) = Ok (Some i)) /\
  Select.parse_input_number "Sin entrada" = Ok None /\
  (forall s, exists r, Select.parse_input_number s = Ok r).
Proof.
  unfold Select.generate_options. rewrite range_from_one.
  split; [|split; [|split; [|split; [|split]]]].
  - rewrite length_app, length_map, length_map, length_seq. simpl. lia.
  - rewrite app_nth2; rewrite !length_map, length_seq; [|lia].
    now rewrite Nat.sub_diag.
  - intros i Hi. rewrite app_nth1 by (rewrite !length_map, length_seq; lia).
    rewrite map_map, nth_map_seq by lia.
    do 2 f_equal. lia.
  - apply parse_input_number_option.
  - reflexivity.
  - apply parse_input_number_total.
Qed.

Lemma selector_options_round_trip_witness :
  nth (Z.to_nat (3 - 1)) (Select.generate_options 4) "" = "Entrada " ++ str_int 3.
Proof.
  apply (proj1 (proj2 (proj2 (selector_options_round_trip 4))) 3). lia.
Defined.

(** ** What an output's entities show *)

Lemma get_output_state_outside (c : HDTVCoordinator) (A : list Z) (now k : Z) :
  data c = Some (to_dict (StateParser.parse_status_array A now)) ->
  ~ 1 <= k <= Z.of_nat (length A) ->
  get_output_state c k = Ok (PDict []).
Proof.
  intros Hdata Hk. destruct (snapshot_is_data c A now Hdata) as [Hno Hmatrix].
  unfold get_output_state. rewrite Hno, Hmatrix. unfold py_get.
  rewrite dict_get_absent_output; [reflexivity|].
  rewrite parsed_keys. intros Hin. apply in_range in Hin. lia.
Qed.

Lemma current_option_parsed (c : HDTVCoordinator) (A : list Z) (now k : Z) :
  data c = Some (to_dict (StateParser.parse_status_array A now)) ->
  1 <= k <= Z.of_nat (length A) ->
  Select.current_option c k =
  Ok (Some (if (nth (Z.to_nat (k - 1)) A 0 =? 65535)%Z then "Sin entrada"
            else "Entrada " ++ str_int (nth (Z.to_nat (k - 1)) A 0 + 1))).
Proof.
  intros Hdata Hk. unfold Select.current_option.
  rewrite (proj1 (snapshot_is_data c A now Hdata)).
  rewrite (get_output_state_parsed c A now k Hdata Hk).
  cbn [truthy negb]. rewrite py_get_first.
  now destruct (nth (Z.to_nat (k - 1)) A 0 =? 65535)%Z.
Qed.

(** X23.  What the selector and the sensor of output [k] show for a
    snapshot built from the status array [A]: ["Sin entrada"] when
    [A[k-1]] is 65535 and ["Entrada A[k-1]+1"] otherwise, and nothing for an
    output outside 1..len(A) or without a snapshot; both entities show the
    same.  When the device reports an input below the configured number of
    inputs, what is shown is one of the selector's options. *)
Theorem current_option_of_parsed_snapshot (c : HDTVCoordinator) (A : list Z)
    (now k num_inputs : Z) :
  (data c = None -> Select.current_option c k = Ok None) /\
  Sensor.native_value c k = Select.current_option c k /\
  (data c = Some (to_dict (StateParser.parse_status_array A now)) ->
   (1 <= k <= Z.of_nat (length A) ->
    Select.current_option c k =
    Ok (Some (if (nth (Z.to_nat (k - 1)) A 0 =? 65535)%Z then "Sin entrada"
              else "Entrada " ++ str_int (nth (Z.to_nat (k - 1)) A 0 + 1)))) /\
   (~ 1 <= k <= Z.of_nat (length A) -> Select.current_option c k = Ok None) /\
   (1 <= k <= Z.of_nat (length A) ->
    nth (Z.to_nat (k - 1)) A 0 = 65535 \/
    0 <= nth (Z.to_nat (k - 1)) A 0 < num_inputs ->
    exists shown,
      Select.current_option c k = Ok (Some shown) /\
      In shown (Select.generate_options num_inputs))).
Proof.
  split; [|split].
  - intros Hdata. unfold Select.current_option, no_data. now rewrite Hdata.
  - reflexivity.
  - intros Hdata. split; [|split].
    + apply (current_option_parsed c A now k Hdata).
    + intros Hk. unfold Select.current_option.
      rewrite (proj1 (snapshot_is_data c A now Hdata)).
      now rewrite (get_output_state_outside c A now k Hdata Hk).
    + intros Hk Hraw. rewrite (current_option_parsed c A now k Hdata Hk).
      eexists. split; [reflexivity|].
      unfold Select.generate_options. apply in_or_app.
      destruct (Z.eqb_spec (nth (Z.to_nat (k - 1)) A 0) 65535) as [Heq|Hne].
      * right. now left.
      * left. apply in_map_iff. exists (nth (Z.to_nat (k - 1)) A 0 + 1).
        split; [reflexivity|]. apply in_range. lia.
Qed.

Lemma current_option_of_parsed_snapshot_witness :
  Select.current_option new_coordinator 1 = Ok None /\
  Select.current_option
    (fst (async_refresh steady_device sample_api (new_coordinator, []))) 3 =
    Ok (Some (if (nth (Z.to_nat (3 - 1)) [0; 65535; 2] 0 =? 65535)%Z
              then "Sin entrada"
              else "Entrada " ++ str_int (nth (Z.to_nat (3 - 1)) [0; 65535; 2] 0 + 1))) /\
  Select.current_option
    (fst (async_refresh steady_device sample_api (new_coordinator, []))) 7 = Ok None /\
  (exists shown,
     Select.current_option
       (fst (async_refresh steady_device sample_api (new_coordinator, []))) 2 =
       Ok (Some shown) /\
     In shown (Select.generate_options 4)).
Proof.
  split; [|split; [|split]].
  - apply (proj1 (current_option_of_parsed_snapshot new_coordinator [] 0 1 4)).
    reflexivity.
  - apply (proj1 (proj2 (proj2 (current_option_of_parsed_snapshot
             (fst (async_refresh steady_device sample_api (new_coordinator, [])))
             [0; 65535; 2] 0 3 4)) eq_refl)).
    simpl. lia.
  - apply (proj1 (proj2 (proj2 (proj2 (current_option_of_parsed_snapshot
             (fst (async_refresh steady_device sample_api (new_coordinator, [])))
             [0; 65535; 2] 0 7 4)) eq_refl))).
    simpl. lia.
  - apply (proj2 (proj2 (proj2 (proj2 (current_option_of_parsed_snapshot
             (fst (async_refresh steady_device sample_api (new_coordinator, [])))
             [0; 65535; 2] 0 2 4)) eq_refl))).
    + simpl. lia.
    + left. reflexivity.
Defined.

(** X24.  The attributes of the sensor of output [k], for a snapshot built
    from the status array [A] and [k] in 1..len(A): the output number, the
    raw value [A[k-1]], and [connected], which is false exactly when
    [A[k-1]] is 65535; a connected output has [input_number = A[k-1] + 1]
    as well, a disconnected one has no such key. *)
Theorem sensor_attributes_of_parsed_snapshot (c : HDTVCoordinator) (A : list Z)
    (now k : Z) :
  data c = Some (to_dict (StateParser.parse_status_array A now)) ->
  1 <= k <= Z.of_nat (length A) ->
  Sensor.extra_state_attributes c k =
  Ok (if (nth (Z.to_nat (k - 1)) A 0 =? 65535)%Z then
        [("output_number", PInt k);
         ("raw_value", PInt (nth (Z.to_nat (k - 1)) A 0));
         ("connected", PBool false)]
      else
        [("output_number", PInt k);
         ("raw_value", PInt (nth (Z.to_nat (k - 1)) A 0));
         ("connected", PBool true);
         ("input_number", PInt (nth (Z.to_nat (k - 1)) A 0 + 1))]).
Proof.
  intros Hdata Hk. unfold Sensor.extra_state_attributes.
  rewrite (proj1 (snapshot_is_data c A now Hdata)).
  rewrite (get_output_state_parsed c A now k Hdata Hk).
  cbn [truthy negb]. rewrite py_get_first.
  unfold py_get. cbn [dict_get].
  destruct (decide ("raw_value" = "input")) as [Heq|_]; [discriminate Heq|].
  destruct (decide ("raw_value" = "raw_value")) as [_|Hne]; [|now contradiction Hne].
  destruct (nth (Z.to_nat (k - 1)) A 0 =? 65535)%Z; reflexivity.
Qed.

Lemma sensor_attributes_of_parsed_snapshot_witness :
  Sensor.extra_state_attributes
    (fst (async_refresh steady_device sample_api (new_coordinator, []))) 1 =
  Ok (if (nth (Z.to_nat (1 - 1)) [0; 65535; 2] 0 =? 65535)%Z then
        [("output_number", PInt 1);
         ("raw_value", PInt (nth (Z.to_nat (1 - 1)) [0; 65535; 2] 0));
         ("connected", PBool false)]
      else
        [("output_number", PInt 1);
         ("raw_value", PInt (nth (Z.to_nat (1 - 1)) [0; 65535; 2] 0));
         ("connected", PBool true);
         ("input_number", PInt (nth (Z.to_nat (1 - 1)) [0; 65535; 2] 0 + 1))]).
Proof.
  apply (sensor_attributes_of_parsed_snapshot
           (fst (async_refresh steady_device sample_api (new_coordinator, [])))
           [0; 65535; 2] 0 1).
  - reflexivity.
  - simpl. lia.
Defined.

(** ** Commands of the entities *)

Lemma try_except_reraise {S A} (m : M S A) (s : S) :
  try_except m (fun err => raise err) s = m s.
Proof. unfold try_except, raise. now destruct (m s) as [[a|e] s']. Qed.

Lemma gets_set_route (dev : Device) (api : HDTVMatrixApi) (i o : Z)
    (tr : list event) :
  gets (snd (set_route dev api i o tr)) =
  app (gets tr) [api_request api COMMAND (Some (route_params i o))].
Proof.
  rewrite set_route_trace, gets_app. simpl. f_equal. f_equal.
  destruct (is_ok _); [apply gets_notified | reflexivity].
Qed.

(** X25.  Selecting an option on the selector of output [out].  ["Sin
    entrada"] and every option that [_parse_input_number] does not read
    send nothing and return.  ["Entrada i"] sends the single route request of
    input [i] to this output; the refresh is requested when the device
    accepts it, and when the route raises the error leaves the method and no
    refresh is requested. *)
Theorem select_option_effects (dev : Device) (api : HDTVMatrixApi)
    (request_refresh : Poll unit) (out : Z) (opt : string)
    (c : HDTVCoordinator) (tr : list event) :
  let run := Select.async_select_option dev api request_refresh out opt (c, tr) in
  (opt = "Sin entrada" -> run = (Ok tt, (c, tr))) /\
  (Select.parse_input_number opt = Ok None -> run = (Ok tt, (c, tr))) /\
  (forall i, opt = "Entrada " ++ str_int i ->
     let route := set_route dev api i out tr in
     gets (snd route) =
       app (gets tr) [api_request api COMMAND (Some (route_params i out))] /\
     run = match fst route with
           | Ok _ => request_refresh (c, snd route)
           | Raise e => (Raise e, (c, snd route))
           end).
Proof.
  cbv zeta. unfold Select.async_select_option. rewrite try_except_reraise.
  split; [|split].
  - intros ->. reflexivity.
  - intros Hparse. destruct (String.eqb opt "Sin entrada"); [reflexivity|].
    unfold bind, lift_result. now rewrite Hparse.
  - intros i ->. split; [apply gets_set_route|].
    destruct (String.eqb_spec ("Entrada " ++ str_int i) "Sin entrada") as [Heq|_].
    + change ("Entrada " ++ str_int i)
        with (String "E" ("ntrada " ++ str_int i)) in Heq.
      discriminate Heq.
    + unfold bind at 1. unfold lift_result. rewrite parse_input_number_option.
      unfold bind, lift_io.
      now destruct (set_route dev api i out tr) as [[v|e] tr'].
Qed.

Lemma select_option_effects_witness :
  Select.async_select_option steady_device sample_api
    (refresh_now steady_device sample_api) 2 "Sin entrada" (new_coordinator, []) =
    (Ok tt, (new_coordinator, [])) /\
  Select.async_select_option steady_device sample_api
    (refresh_now steady_device sample_api) 2 "Entrada" (new_coordinator, []) =
    (Ok tt, (new_coordinator, [])) /\
  gets (snd (set_route steady_device sample_api 3 2 [])) =
    app (gets []) [api_request sample_api COMMAND (Some (route_params 3 2))] /\
  Select.async_select_option steady_device sample_api
    (refresh_now steady_device sample_api) 2 ("Entrada " ++ str_int 3)
    (new_coordinator, []) =
    match fst (set_route steady_device sample_api 3 2 []) with
    | Ok _ => refresh_now steady_device sample_api
                (new_coordinator, snd (set_route steady_device sample_api 3 2 []))
    | Raise e => (Raise e, (new_coordinator, snd (set_route steady_device sample_api 3 2 [])))
    end.
Proof.
  split; [|split].
  - apply (proj1 (select_option_effects steady_device sample_api
                    (refresh_now steady_device sample_api) 2 "Sin entrada"
                    new_coordinator [])).
    reflexivity.
  - apply (proj1 (proj2 (select_option_effects steady_device sample_api
                    (refresh_now steady_device sample_api) 2 "Entrada"
                    new_coordinator []))).
    reflexivity.
  - apply (proj2 (proj2 (select_option_effects steady_device sample_api
                    (refresh_now steady_device sample_api) 2 ("Entrada " ++ str_int 3)
                    new_coordinator [])) 3).
    reflexivity.
Defined.

Lemma press_route_step (dev : Device) (api : HDTVMatrixApi) (o : Z)
    (c : HDTVCoordinator) (tr : list event) :
  (lift_io (set_route dev api 1 o) ;;; ret tt) (c, tr) =
  match set_route dev api 1 o tr with
  | (Ok _, tr1) => (Ok tt, (c, tr1))
  | (Raise e, tr1) => (Raise e, (c, tr1))
  end.
Proof.
  unfold bind, lift_io, ret.
  now destruct (set_route dev api 1 o tr) as [[v|e] tr1].
Qed.

Lemma videowall_press_run (dev : Device) (api : HDTVMatrixApi)
    (request_refresh : Poll unit) (s : HDTVCoordinator * list event) :
  Button.videowall_press dev api request_refresh s =
  match for_each (fun output_port =>
                    lift_io (set_route dev api 1 output_port) ;;; ret tt)
                 [1; 2; 3; 4] s with
  | (Ok _, (c1, tr1)) =>
      match set_splice_and_video dev api tr1 with
      | (Ok _, tr2) => request_refresh (c1, tr2)
      | (Raise e, tr2) => (Raise e, (c1, tr2))
      end
  | (Raise e, s1) => (Raise e, s1)
  end.
Proof.
  unfold Button.videowall_press. rewrite try_except_reraise.
  cbv zeta. unfold bind at 1.
  destruct (for_each _ _ s) as [[[]|e] [c1 tr1]]; [|reflexivity].
  unfold bind, lift_io.
  now destruct (set_splice_and_video dev api tr1) as [[[]|e] tr2].
Qed.

(** X26.  Pressing the videowall button routes input 1 to the outputs 1, 2,
    3 and 4 in turn, then runs the preset, then requests the refresh.  Each
    step is taken exactly when all the steps before it returned; the first
    step that raises ends the press with the error of that step, no later
    request is sent and no refresh is requested.  The requests sent are
    the corresponding prefix of one fixed sequence of twelve: the four
    routes, then the eight requests of the preset. *)
Theorem videowall_press_requests (dev : Device) (api : HDTVMatrixApi)
    (request_refresh : Poll unit) (c : HDTVCoordinator) (tr : list event) :
  let run := Button.videowall_press dev api request_refresh (c, tr) in
  let r1 := set_route dev api 1 1 tr in
  let r2 := set_route dev api 1 2 (snd r1) in
  let r3 := set_route dev api 1 3 (snd r2) in
  let r4 := set_route dev api 1 4 (snd r3) in
  let preset := set_splice_and_video dev api (snd r4) in
  run =
    match fst r1 with
    | Raise e => (Raise e, (c, snd r1))
    | Ok _ =>
    match fst r2 with
    | Raise e => (Raise e, (c, snd r2))
    | Ok _ =>
    match fst r3 with
    | Raise e => (Raise e, (c, snd r3))
    | Ok _ =>
    match fst r4 with
    | Raise e => (Raise e, (c, snd r4))
    | Ok _ =>
    match fst preset with
    | Raise e => (Raise e, (c, snd preset))
    | Ok _ => request_refresh (c, snd preset)
    end end end end end /\
  gets (snd r1) = app (gets tr) (firstn 1 (press_requests api)) /\
  gets (snd r2) = app (gets tr) (firstn 2 (press_requests api)) /\
  gets (snd r3) = app (gets tr) (firstn 3 (press_requests api)) /\
  gets (snd r4) = app (gets tr) (firstn 4 (press_requests api)) /\
  exists m : nat,
    (m <= 8)%nat /\
    gets (snd preset) = app (gets tr) (firstn (4 + m) (press_requests api)) /\
    (is_ok (fst preset) = false \/ m = 8%nat).
Proof.
  cbv zeta.
  assert (H1 : gets (snd (set_route dev api 1 1 tr)) =
               app (gets tr) (firstn 1 (press_requests api)))
    by apply gets_set_route.
  assert (H2 : gets (snd (set_route dev api 1 2 (snd (set_route dev api 1 1 tr)))) =
               app (gets tr) (firstn 2 (press_requests api)))
    by (rewrite gets_set_route, H1, <- app_assoc; reflexivity).
  assert (H3 : gets (snd (set_route dev api 1 3
                 (snd (set_route dev api 1 2 (snd (set_route dev api 1 1 tr)))))) =
               app (gets tr) (firstn 3 (press_requests api)))
    by (rewrite gets_set_route, H2, <- app_assoc; reflexivity).
  assert (H4 : gets (snd (set_route dev api 1 4 (snd (set_route dev api 1 3
                 (snd (set_route dev api 1 2 (snd (set_route dev api 1 1 tr)))))))) =
               app (gets tr) (firstn 4 (press_requests api)))
    by (rewrite gets_set_route, H3, <- app_assoc; reflexivity).
  split; [|split; [exact H1|split; [exact H2|split; [exact H3|split; [exact H4|]]]]].
  - rewrite videowall_press_run. cbn [for_each].
    unfold bind at 1. rewrite press_route_step.
    destruct (set_route dev api 1 1 tr) as [[v1|e1] t1]; cbn [fst snd];
      [|reflexivity].
    unfold bind at 1. rewrite press_route_step.
    destruct (set_route dev api 1 2 t1) as [[v2|e2] t2]; cbn [fst snd];
      [|reflexivity].
    unfold bind at 1. rewrite press_route_step.
    destruct (set_route dev api 1 3 t2) as [[v3|e3] t3]; cbn [fst snd];
      [|reflexivity].
    unfold bind at 1. rewrite press_route_step.
    destruct (set_route dev api 1 4 t3) as [[v4|e4] t4]; cbn [fst snd];
      [|reflexivity].
    unfold ret.
    now destruct (set_splice_and_video dev api t4) as [[[]|e5] t5].
  - set (t4 := snd (set_route dev api 1 4 _)) in *.
    destruct (set_splice_and_video_shape dev api t4) as (m & Hm & Htr & Hok).
    exists m. split; [exact Hm|]. split;
      [|destruct (is_ok (fst (set_splice_and_video dev api t4)));
        [right; now apply Hok | now left]].
    rewrite Htr, !gets_app, gets_map_Get, H4.
    replace (gets (if is_ok (fst (set_splice_and_video dev api t4))
                   then notified api else [])) with (@nil request)
      by (destruct (is_ok _); [now rewrite gets_notified | reflexivity]).
    rewrite app_nil_r, <- app_assoc. reflexivity.
Qed.
